(** * PCF login and renewal handlers of the Vault PCF auth plugin

    A shallow embedding of
    [vendor/github.com/hashicorp/vault-plugin-auth-pcf/path_login.go]:
    [operationLoginUpdate], [pathLoginRenew], [validate],
    [meetsBoundConstraints], [matchesIPAddress], [parseTime] and [getOrErr],
    followed by the properties the specification states about them.

    Go values are modelled as follows.
    - A Go result pair [(v, err)] is a Rocq pair whose second component is
      [option error]; [None] is Go's [nil] error.  A pointer result is an
      [option]; [None] is the [nil] pointer, and dereferencing it panics.
    - [time.Time] is an instant counted in nanoseconds ([Z]);
      [time.Duration] is a signed 64-bit count of nanoseconds, so the
      product [-1 * d] of the source wraps around.
    - [net.IP] is a byte slice.
    - Go maps with string keys are [gmap string _]. *)

From Stdlib Require Import ZArith Lia Ascii String.
From Stdlib.Strings Require Import Byte.
From stdpp Require Import base option list gmap strings pretty.

Open Scope Z_scope.

(** ** Errors, times, addresses *)

(** A Go [error], identified with the text [err.Error()] returns. *)
Definition error : Type := string.

(** [logical.ErrPermissionDenied]. *)
Definition ErrPermissionDenied : error := "permission denied".

(** [errors.New] and the text of an error. *)
Definition errors_New (msg : string) : error := msg.
Definition Error (e : error) : string := e.

Definition Time : Type := Z.
Definition Duration : Type := Z.

(** [time.Second], in nanoseconds. *)
Definition Second : Duration := 1000000000.

(** Signed 64-bit wrap-around of Go's [int64] arithmetic. *)
Definition wrap64 (z : Z) : Z := (z + 2 ^ 63) mod 2 ^ 64 - 2 ^ 63.

(** [a * b] on [time.Duration]. *)
Definition Duration_mul (a b : Duration) : Duration := wrap64 (a * b).

(** [a / b] on [time.Duration]: Go's integer division truncates. *)
Definition Duration_div (a b : Duration) : Duration := Z.quot a b.

(** [t.Add(d)], [t.Before(u)], [t.After(u)]. *)
Definition Time_Add (t : Time) (d : Duration) : Time := t + d.
Definition Time_Before (t u : Time) : bool := t <? u.
Definition Time_After (t u : Time) : bool := u <? t.

(** [net.IP]: a byte slice, [nil] being the empty one. *)
Definition IP : Type := list byte.

Fixpoint bytes_eqb (a b : list byte) : bool :=
  match a, b with
  | [], [] => true
  | x :: a', y :: b' => Byte.eqb x y && bytes_eqb a' b'
  | _, _ => false
  end.

(** [v4InV6Prefix] of package [net]. *)
Definition v4InV6Prefix : list byte :=
  [x00; x00; x00; x00; x00; x00; x00; x00; x00; x00; xff; xff].

Definition IPv4len : nat := 4.
Definition IPv6len : nat := 16.

(** [ip.Equal(x)] of package [net]: the same address, an IPv4 address and
    its IPv6 form being considered equal. *)
Definition IP_Equal (ip x : IP) : bool :=
  if (length ip =? length x)%nat then bytes_eqb ip x
  else if (length ip =? IPv4len)%nat && (length x =? IPv6len)%nat
  then bytes_eqb (take 12 x) v4InV6Prefix && bytes_eqb ip (drop 12 x)
  else if (length ip =? IPv6len)%nat && (length x =? IPv4len)%nat
  then bytes_eqb (take 12 ip) v4InV6Prefix && bytes_eqb (drop 12 ip) x
  else false.

(** ** Strings and formatting *)

(** [strings.Split(s, sep)] for a one-character separator. *)
Fixpoint strings_Split (s : string) (sep : ascii) : list string :=
  match s with
  | EmptyString => [EmptyString]
  | String c r =>
      if Ascii.eqb c sep then EmptyString :: strings_Split r sep
      else match strings_Split r sep with
           | [] => [String c EmptyString]
           | h :: t => String c h :: t
           end
  end.

(** [strutil.StrListContains(haystack, needle)]. *)
Fixpoint StrListContains (haystack : list string) (needle : string) : bool :=
  match haystack with
  | [] => false
  | item :: rest => String.eqb item needle || StrListContains rest needle
  end.

(** The verb [%s] applied to a [[]string]: the elements between brackets,
    separated by spaces. *)
Fixpoint join_space (l : list string) : string :=
  match l with
  | [] => EmptyString
  | [x] => x
  | x :: rest => x +:+ " " +:+ join_space rest
  end.

Definition fmt_strings (l : list string) : string := "[" +:+ join_space l +:+ "]".

Definition dquote : string := String (ascii_of_nat 34) EmptyString.

(** The verb [%q]: the string between double quotes, in which a quote and a
    backslash are preceded by a backslash, the control characters are
    written as Go writes them ([\a], [\b], [\f], [\n], [\r], [\t], [\v], or
    [\x] and two hexadecimal digits) and every other character is kept.
    This is what [strconv.Quote] gives on ASCII text and on UTF-8 text of
    printable characters. *)
Definition hexDigit (n : N) : string :=
  String.substring (N.to_nat (n mod 16)) 1 "0123456789abcdef".

Definition quoteChar (c : ascii) : string :=
  let n := N_of_ascii c in
  if (n =? 34)%N then "\" +:+ dquote
  else if (n =? 92)%N then "\\"
  else if (n =? 7)%N then "\a"
  else if (n =? 8)%N then "\b"
  else if (n =? 12)%N then "\f"
  else if (n =? 10)%N then "\n"
  else if (n =? 13)%N then "\r"
  else if (n =? 9)%N then "\t"
  else if (n =? 11)%N then "\v"
  else if ((n <? 32) || (n =? 127))%N
  then "\x" +:+ hexDigit (n / 16) +:+ hexDigit n
  else String c EmptyString.

Fixpoint quoteChars (s : string) : string :=
  match s with
  | EmptyString => EmptyString
  | String c r => quoteChar c +:+ quoteChars r
  end.

Definition fmt_q (s : string) : string := dquote +:+ quoteChars s +:+ dquote.

(** The verb [%d]. *)
Definition fmt_d (z : Z) : string := pretty z.

(** ** The data model *)

(** [models.PCFCertificate]: the identity fields of an instance certificate. *)
Record PCFCertificate := {
  InstanceID : string;
  OrgID : string;
  SpaceID : string;
  AppID : string;
  IPAddress : IP
}.

(** [models.RoleEntry], the fields the handlers read. *)
Record RoleEntry := {
  BoundAppIDs : list string;
  BoundSpaceIDs : list string;
  BoundOrgIDs : list string;
  BoundInstanceIDs : list string;
  DisableIPMatching : bool;
  TokenBoundCIDRs : list string;
  TokenTTL : Duration;
  TokenMaxTTL : Duration;
  TokenPeriod : Duration
}.

(** [models.Configuration], the fields the handlers read. *)
Record Configuration := {
  IdentityCACertificates : list string;
  PCFAPIAddr : string;
  LoginMaxSecOld : Duration;
  LoginMaxSecAhead : Duration
}.

(** Records of the PCF API ([cfclient.App], [cfclient.Org], [cfclient.Space]). *)
Record App := { App_Guid : string; App_SpaceGuid : string; App_Instances : Z }.
Record Org := { Org_Guid : string }.
Record Space := { Space_Guid : string; Space_OrganizationGuid : string }.

(** The PCF API client: the three lookups [validate] performs. *)
Record PCFClient := {
  AppByGuid : string -> App * option error;
  GetOrgByGuid : string -> Org * option error;
  GetSpaceByGuid : string -> Space * option error
}.

(** A value of type [interface{}] stored in [Auth.InternalData]. *)
Inductive ifc :=
| IfcString (s : string)
| IfcOther.

(** [logical.Alias] and [logical.Auth]. *)
Record Alias := {
  Alias_Name : string;
  Alias_Metadata : gmap string string
}.

Record Auth := {
  InternalData : gmap string ifc;
  DisplayName : string;
  Auth_Alias : option Alias;
  TTL : Duration;
  MaxTTL : Duration;
  Period : Duration
}.

(** [logical.Response]: an error response or one carrying an [Auth]. *)
Inductive Response :=
| ErrorResponse (text : string)
| AuthResponse (auth : Auth).

(** What a handler call does: it returns Go's pair, or it panics on a nil
    dereference. *)
Inductive outcome :=
| Returned (resp : option Response) (err : option error)
| Panicked.

(** What [validate] does: it returns an [error] ([None] is [nil]), or it
    panics on a nil dereference. *)
Inductive verdict :=
| Verdict (err : option error)
| VPanicked.

(** [logical.Connection]. *)
Record Connection := { RemoteAddr : string }.

(** [framework.FieldData] restricted to string fields: [Get] yields the
    empty string for a field the request does not carry. *)
Definition FieldData_Get (data : gmap string string) (k : string) : string :=
  default EmptyString (data !! k).

(** The argument of [getOrErr], of type [interface{}]: one of the two map
    types its type switch knows, or anything else. *)
Inductive anyMap :=
| MapIfc (m : gmap string ifc)
| MapStr (m : gmap string string)
| MapOther.

(** ** Stages of a call *)

(** The stages of the login state machine, under the names the
    specification gives them.  A handler is modelled as a computation that
    records a stage at the point of the source where the step is complete:
    the line numbers are given in the definitions. *)
Inductive Stage :=
| ReceivedTime | RoleResolved | CIDRChecked | SignatureExtracted
| TimeWindowChecked | ConfigResolved | CertsExtracted | SignatureVerified
| ChainValidated | IdentityDecoded | ConstraintsChecked
| InventoryCrossChecked | Issued.

#[global] Instance Stage_eq_dec : EqDecision Stage.
Proof. solve_decision. Defined.

(** A result together with the stages completed on the way to it. *)
Definition Traced (A : Type) : Type := list Stage * A.

Definition finish {A} (a : A) : Traced A := ([], a).

Definition reach {A} (s : Stage) (k : Traced A) : Traced A := (s :: k.1, k.2).

Definition andThen {A B} (m : Traced A) (f : A -> Traced B) : Traced B :=
  (m.1 ++ (f m.2).1, (f m.2).2).

Notation "'stage' s ';;' k" := (reach s k)
  (at level 10, s at level 0, k at level 200, only parsing).

(** ** Pure helpers of the source *)

(** [meetsBoundConstraints]. *)
Definition meetsBoundConstraints (certValue : string) (constraints : list string) : bool :=
  if (length constraints =? 0)%nat then true
  else StrListContains constraints certValue.

(** [getOrErr]: pulls a string out of a map. *)
Definition getOrErr (fieldName : string) (from : anyMap) : string * option error :=
  match from with
  | MapIfc givenMap =>
      match givenMap !! fieldName with
      | None =>
          (EmptyString, Some ("unable to retrieve " +:+ fmt_q fieldName +:+ " during renewal"))
      | Some vIfc =>
          let v := match vIfc with IfcString s => s | IfcOther => EmptyString end in
          if String.eqb v EmptyString
          then (EmptyString,
                Some ("unable to retrieve " +:+ fmt_q fieldName +:+ " during renewal, not a string"))
          else (v, None)
      end
  | MapStr givenMap =>
      match givenMap !! fieldName with
      | None =>
          (EmptyString, Some ("unable to retrieve " +:+ fmt_q fieldName +:+ " during renewal"))
      | Some v => (v, None)
      end
  | MapOther =>
      (EmptyString, Some ("unrecognized type for structure containing " +:+ fieldName))
  end.

(** ** Collaborators

    The packages the handlers call into ([models], [signatures], [util],
    [cidrutil], [time], [net]) and the storage behind [getRole] and
    [config] are not part of this file of the plugin; the handlers are
    verified for every behaviour of them. *)

(** [signatures.SignatureData]. *)
Record SignatureData := {
  SigningTime : Time;
  Role : string;
  CFInstanceCertContents : string
}.

Class Platform := {
  (** [*x509.Certificate] and [logical.Storage] *)
  X509 : Type;
  Storage : Type;
  (** [getRole(ctx, storage, roleName)] and [config(ctx, storage)] *)
  getRole : Storage -> string -> option RoleEntry * option error;
  config : Storage -> option Configuration * option error;
  (** [cidrutil.RemoteAddrIsOk] *)
  RemoteAddrIsOk : string -> list string -> bool;
  (** [signatures.TimeFormat], [util.BashTimeFormat], [time.Parse] and
      [Time.String] *)
  TimeFormat : string;
  BashTimeFormat : string;
  time_Parse : string -> string -> Time * option error;
  Time_String : Time -> string;
  (** [net.ParseIP] ([nil] when the text is no address) and [IP.String] *)
  ParseIP : string -> IP;
  IP_String : IP -> string;
  (** [util.ExtractCertificates], [signatures.Verify], [util.Validate] *)
  ExtractCertificates : string -> option X509 * option X509 * option error;
  signatures_Verify : string -> SignatureData -> option X509 * option error;
  util_Validate : list string -> option X509 -> option X509 -> option X509 -> option error;
  (** [models.NewPCFCertificateFromx509] and [util.NewPCFClient].  The client
      and its lookups are the PCF API as it answers during one call; a
      statement about two calls takes a platform for each (see
      [withInventory]). *)
  NewPCFCertificateFromx509 : option X509 -> option PCFCertificate * option error;
  NewPCFClient : Configuration -> option PCFClient * option error;
  (** the certificate pointer [models.NewPCFCertificate] hands back for the
      five strings of an identity it refuses: nothing states it *)
  refusedCertificate : string -> string -> string -> string -> string -> option PCFCertificate
}.

(** [time.Time{}], the zero instant (January 1, year 1). *)
Definition Time_zero : Time := -62135596800 * 1000000000.

Section Handlers.
Context `{P : Platform}.

(** [logical.Request], the fields the handlers read. *)
Record Request := {
  Req_Storage : Storage;
  Req_Connection : option Connection;
  Req_Auth : option Auth
}.

(** [matchesIPAddress]: the request address, cut at its first slash, is
    compared as an address with the one of the certificate. *)
Definition matchesIPAddress (remoteAddr : string) (certIP : IP) : bool :=
  let parts := strings_Split remoteAddr "/" in
  let reqIPAddr := ParseIP (hd EmptyString parts) in
  if IP_Equal certIP reqIPAddr then true else false.

(** [parseTime]: ISO 8601 first, then the format of the shell's [date]. *)
Definition parseTime (signingTime : string) : Time * option error :=
  match time_Parse TimeFormat signingTime with
  | (t, None) => (t, None)
  | (_, Some _) =>
      match time_Parse BashTimeFormat signingTime with
      | (t, None) => (t, None)
      | (_, Some _) => (Time_zero, Some ("couldn't parse " +:+ signingTime))
      end
  end.

(** Modelled from the spec: [models.NewPCFCertificate], whose source is not
    at hand.  The identity extractor reads the five fields and fails when a
    required field is absent or malformed, an address that does not parse
    being malformed.  The pointer that comes with the failure is the one of
    the platform: a nil one, or a certificate. *)
Definition NewPCFCertificate (instanceID orgID spaceID appID ipAddress : string)
  : option PCFCertificate * option error :=
  if String.eqb instanceID EmptyString || String.eqb orgID EmptyString
     || String.eqb spaceID EmptyString || String.eqb appID EmptyString
     || String.eqb ipAddress EmptyString
  then (refusedCertificate instanceID orgID spaceID appID ipAddress,
        Some "IdentityFieldMissing")
  else if (length (ParseIP ipAddress) =? 0)%nat
  then (refusedCertificate instanceID orgID spaceID appID ipAddress,
        Some "IdentityFieldMissing")
  else (Some {| InstanceID := instanceID; OrgID := orgID; SpaceID := spaceID;
                AppID := appID; IPAddress := ParseIP ipAddress |}, None).

(** Modelled from the spec: [role.PopulateTokenAuth], whose source is not at
    hand.  The decision carries the TTL, the maximal TTL and the period of
    the role; the identity metadata is left as the handler built it. *)
Definition PopulateTokenAuth (role : RoleEntry) (auth : Auth) : Auth :=
  {| InternalData := InternalData auth;
     DisplayName := DisplayName auth;
     Auth_Alias := Auth_Alias auth;
     TTL := TokenTTL role;
     MaxTTL := TokenMaxTTL role;
     Period := TokenPeriod role |}.

(** The two messages of the time window (lines 133 and 136). *)
Definition tooOldMessage (signingTime timeReceived : Time) (config : Configuration) : string :=
  "request is too old; signed at " +:+ Time_String signingTime
  +:+ " but received request at " +:+ Time_String timeReceived
  +:+ "; allowable seconds old is " +:+ fmt_d (Duration_div (LoginMaxSecOld config) Second).

Definition tooFarInFutureMessage (signingTime timeReceived : Time) (config : Configuration) : string :=
  "request is too far in the future; signed at " +:+ Time_String signingTime
  +:+ " but received request at " +:+ Time_String timeReceived
  +:+ "; allowable seconds in the future is "
  +:+ fmt_d (Duration_div (LoginMaxSecAhead config) Second).

(** The messages of [validate]. *)
Definition constraintMessage (field certValue : string) (constraints : list string) : string :=
  field +:+ " ID " +:+ certValue +:+ " doesn't match role constraints of "
  +:+ fmt_strings constraints.

Definition apiMismatchMessage (field certValue apiValue : string) : string :=
  "cert " +:+ field +:+ " ID " +:+ certValue
  +:+ " doesn't match API's expected one of " +:+ apiValue.

(** [validate]: the constraints of the role, then the PCF API.  The
    certificate is a pointer; every path through the function dereferences
    it before anything else is decided, so a nil certificate panics. *)
Definition validate (config : Configuration) (role : RoleEntry)
    (pcfCert : option PCFCertificate) (reqConnRemoteAddr : string) : Traced verdict :=
  match pcfCert with
  | None => finish VPanicked
  | Some pcfCert =>
  (* lines 263-267 *)
  if negb (DisableIPMatching role)
     && negb (matchesIPAddress reqConnRemoteAddr (IPAddress pcfCert))
  then finish (Verdict (Some (errors_New "no matching IP address"))) else
  (* lines 268-279 *)
  if negb (meetsBoundConstraints (InstanceID pcfCert) (BoundInstanceIDs role))
  then finish (Verdict (Some
         (constraintMessage "instance" (InstanceID pcfCert) (BoundInstanceIDs role)))) else
  if negb (meetsBoundConstraints (AppID pcfCert) (BoundAppIDs role))
  then finish (Verdict (Some
         (constraintMessage "app" (AppID pcfCert) (BoundAppIDs role)))) else
  if negb (meetsBoundConstraints (OrgID pcfCert) (BoundOrgIDs role))
  then finish (Verdict (Some
         (constraintMessage "org" (OrgID pcfCert) (BoundOrgIDs role)))) else
  if negb (meetsBoundConstraints (SpaceID pcfCert) (BoundSpaceIDs role))
  then finish (Verdict (Some
         (constraintMessage "space" (SpaceID pcfCert) (BoundSpaceIDs role)))) else
  stage ConstraintsChecked ;;
  (* lines 281-284 *)
  match NewPCFClient config with
  | (_, Some err) => finish (Verdict (Some err))
  | (None, None) => finish VPanicked
  | (Some client, None) =>
  (* lines 290-302 *)
  match AppByGuid client (AppID pcfCert) with
  | (_, Some err) => finish (Verdict (Some err))
  | (app, None) =>
  if negb (String.eqb (App_Guid app) (AppID pcfCert))
  then finish (Verdict (Some (apiMismatchMessage "app" (AppID pcfCert) (App_Guid app)))) else
  if negb (String.eqb (App_SpaceGuid app) (SpaceID pcfCert))
  then finish (Verdict (Some
         (apiMismatchMessage "space" (SpaceID pcfCert) (App_SpaceGuid app)))) else
  if App_Instances app <=? 0
  then finish (Verdict (Some (errors_New "app doesn't have any live instances"))) else
  (* lines 305-311 *)
  match GetOrgByGuid client (OrgID pcfCert) with
  | (_, Some err) => finish (Verdict (Some err))
  | (org, None) =>
  if negb (String.eqb (Org_Guid org) (OrgID pcfCert))
  then finish (Verdict (Some (apiMismatchMessage "org" (OrgID pcfCert) (Org_Guid org)))) else
  (* lines 314-324 *)
  match GetSpaceByGuid client (SpaceID pcfCert) with
  | (_, Some err) => finish (Verdict (Some err))
  | (space, None) =>
  if negb (String.eqb (Space_Guid space) (SpaceID pcfCert))
  then finish (Verdict (Some
         (apiMismatchMessage "space" (SpaceID pcfCert) (Space_Guid space)))) else
  if negb (String.eqb (Space_OrganizationGuid space) (OrgID pcfCert))
  then finish (Verdict (Some
         (apiMismatchMessage "org" (OrgID pcfCert) (Space_OrganizationGuid space)))) else
  stage InventoryCrossChecked ;;
  finish (Verdict None)
  end end end end
  end.

(** The [Auth] that [operationLoginUpdate] builds at lines 178-193. *)
Definition loginAuth (roleName : string) (pcfCert : PCFCertificate) : Auth :=
  {| InternalData :=
       <["role" := IfcString roleName]>
       (<["instance_id" := IfcString (InstanceID pcfCert)]>
       (<["ip_address" := IfcString (IP_String (IPAddress pcfCert))]> ∅));
     DisplayName := InstanceID pcfCert;
     Auth_Alias := Some
       {| Alias_Name := AppID pcfCert;
          Alias_Metadata :=
            <["org_id" := OrgID pcfCert]>
            (<["app_id" := AppID pcfCert]>
            (<["space_id" := SpaceID pcfCert]> ∅)) |};
     TTL := 0; MaxTTL := 0; Period := 0 |}.

(** [operationLoginUpdate].  [now] is what [time.Now().UTC()] yields on
    entry.  The debug log of lines 169-171 has no effect on the result. *)
Definition operationLoginUpdate (now : Time) (req : Request) (data : gmap string string)
  : Traced outcome :=
  (* line 76 *)
  let timeReceived := now in
  stage ReceivedTime ;;
  (* lines 78-90 *)
  let roleName := FieldData_Get data "role" in
  if String.eqb roleName EmptyString
  then finish (Returned (Some (ErrorResponse "'role-name' is required")) None) else
  match getRole (Req_Storage req) roleName with
  | (_, Some err) => finish (Returned None (Some err))
  | (None, None) => finish (Returned None (Some (errors_New "no matching role")))
  | (Some role, None) =>
  stage RoleResolved ;;
  (* lines 92-100 *)
  let denied :=
    if (0 <? length (TokenBoundCIDRs role))%nat then
      match Req_Connection req with
      | None => true
      | Some conn => negb (RemoteAddrIsOk (RemoteAddr conn) (TokenBoundCIDRs role))
      end
    else false in
  if denied then finish (Returned None (Some ErrPermissionDenied)) else
  stage CIDRChecked ;;
  (* lines 102-105 *)
  let signature := FieldData_Get data "signature" in
  if String.eqb signature EmptyString
  then finish (Returned (Some (ErrorResponse "'signature' is required")) None) else
  stage SignatureExtracted ;;
  (* lines 107-119 *)
  let cfInstanceCertContents := FieldData_Get data "cf_instance_cert" in
  if String.eqb cfInstanceCertContents EmptyString
  then finish (Returned (Some (ErrorResponse "'cf_instance_cert' is required")) None) else
  let signingTimeRaw := FieldData_Get data "signing_time" in
  if String.eqb signingTimeRaw EmptyString
  then finish (Returned (Some (ErrorResponse "'signing_time' is required")) None) else
  match parseTime signingTimeRaw with
  | (_, Some err) => finish (Returned (Some (ErrorResponse (Error err))) None)
  | (signingTime, None) =>
  (* lines 121-127 *)
  match config (Req_Storage req) with
  | (_, Some err) => finish (Returned None (Some err))
  | (None, None) =>
      finish (Returned None
        (Some (errors_New "no CA is configured for verifying client certificates")))
  | (Some config, None) =>
  stage ConfigResolved ;;
  (* lines 129-137 *)
  let oldestAllowableSigningTime :=
    Time_Add timeReceived (Duration_mul (-1) (LoginMaxSecOld config)) in
  let furthestFutureAllowableSigningTime :=
    Time_Add timeReceived (LoginMaxSecAhead config) in
  if Time_Before signingTime oldestAllowableSigningTime
  then finish (Returned
         (Some (ErrorResponse (tooOldMessage signingTime timeReceived config))) None) else
  if Time_After signingTime furthestFutureAllowableSigningTime
  then finish (Returned
         (Some (ErrorResponse (tooFarInFutureMessage signingTime timeReceived config))) None) else
  stage TimeWindowChecked ;;
  (* lines 139-142 *)
  match ExtractCertificates cfInstanceCertContents with
  | (_, _, Some err) => finish (Returned (Some (ErrorResponse (Error err))) None)
  | (intermediateCert, identityCert, None) =>
  stage CertsExtracted ;;
  (* lines 147-154 *)
  match signatures_Verify signature
          {| SigningTime := signingTime; Role := roleName;
             CFInstanceCertContents := cfInstanceCertContents |} with
  | (_, Some err) => finish (Returned (Some (ErrorResponse (Error err))) None)
  | (signingCert, None) =>
  stage SignatureVerified ;;
  (* lines 156-158 *)
  match util_Validate (IdentityCACertificates config)
          intermediateCert identityCert signingCert with
  | Some err => finish (Returned (Some (ErrorResponse (Error err))) None)
  | None =>
  stage ChainValidated ;;
  (* lines 161-164 *)
  match NewPCFCertificateFromx509 signingCert with
  | (_, Some err) => finish (Returned None (Some err))
  | (pcfCert, None) =>
  stage IdentityDecoded ;;
  (* lines 173-175; [req.Connection.RemoteAddr] dereferences the connection *)
  match Req_Connection req with
  | None => finish Panicked
  | Some conn =>
  andThen (validate config role pcfCert (RemoteAddr conn)) (fun v =>
  match v, pcfCert with
  | VPanicked, _ => finish Panicked
  | Verdict (Some err), _ => finish (Returned (Some (ErrorResponse (Error err))) None)
  | Verdict None, None => finish Panicked
  | Verdict None, Some pcfCert =>
  (* lines 178-199 *)
  let auth := loginAuth roleName pcfCert in
  stage Issued ;;
  finish (Returned (Some (AuthResponse (PopulateTokenAuth role auth))) None)
  end)
  end end end end end end end end.

(** [pathLoginRenew].  The error that [NewPCFCertificate] returns at line 250
    is assigned and never read: the next line declares a new [err]. *)
Definition pathLoginRenew (req : Request) : Traced outcome :=
  (* lines 203-209 *)
  match config (Req_Storage req) with
  | (_, Some err) => finish (Returned None (Some err))
  | (None, None) =>
      finish (Returned None
        (Some (errors_New "no configuration is available for reaching the PCF API")))
  | (Some config, None) =>
  (* lines 211-247; [req.Auth] and [req.Auth.Alias] are pointers *)
  match Req_Auth req with
  | None => finish Panicked
  | Some auth =>
  match getOrErr "role" (MapIfc (InternalData auth)) with
  | (_, Some err) => finish (Returned None (Some err))
  | (roleName, None) =>
  match getRole (Req_Storage req) roleName with
  | (_, Some err) => finish (Returned None (Some err))
  | (None, None) => finish (Returned None (Some (errors_New "no matching role")))
  | (Some role, None) =>
  match getOrErr "instance_id" (MapIfc (InternalData auth)) with
  | (_, Some err) => finish (Returned None (Some err))
  | (instanceID, None) =>
  match getOrErr "ip_address" (MapIfc (InternalData auth)) with
  | (_, Some err) => finish (Returned None (Some err))
  | (ipAddr, None) =>
  match Auth_Alias auth with
  | None => finish Panicked
  | Some alias =>
  match getOrErr "org_id" (MapStr (Alias_Metadata alias)) with
  | (_, Some err) => finish (Returned None (Some err))
  | (orgID, None) =>
  match getOrErr "space_id" (MapStr (Alias_Metadata alias)) with
  | (_, Some err) => finish (Returned None (Some err))
  | (spaceID, None) =>
  match getOrErr "app_id" (MapStr (Alias_Metadata alias)) with
  | (_, Some err) => finish (Returned None (Some err))
  | (appID, None) =>
  (* lines 250-253 *)
  let pcfCert := (NewPCFCertificate instanceID orgID spaceID appID ipAddr).1 in
  match Req_Connection req with
  | None => finish Panicked
  | Some conn =>
  andThen (validate config role pcfCert (RemoteAddr conn)) (fun v =>
  match v with
  | VPanicked => finish Panicked
  | Verdict (Some err) => finish (Returned (Some (ErrorResponse (Error err))) None)
  | Verdict None =>
  (* lines 255-259 *)
  finish (Returned (Some (AuthResponse
    {| InternalData := InternalData auth;
       DisplayName := DisplayName auth;
       Auth_Alias := Auth_Alias auth;
       TTL := TokenTTL role;
       MaxTTL := TokenMaxTTL role;
       Period := TokenPeriod role |})) None)
  end)
  end end end end end end end end end end end.

(** The result of a call and the stages it went through. *)
Definition login (now : Time) (req : Request) (data : gmap string string) : outcome :=
  (operationLoginUpdate now req data).2.

Definition loginStages (now : Time) (req : Request) (data : gmap string string) : list Stage :=
  (operationLoginUpdate now req data).1.

Definition renew (req : Request) : outcome := (pathLoginRenew req).2.

End Handlers.

(** ** What the specification calls passing *)

Section Rules.
Context `{P : Platform}.

(** The address of the caller once a subnet-mask suffix is cut off. *)
Definition callerAddress (remoteAddr : string) : string :=
  hd EmptyString (strings_Split remoteAddr "/").

(** The IP rule: matching is disabled, or the caller's address is the one of
    the certificate. *)
Definition ipRulePasses (role : RoleEntry) (cert : PCFCertificate) (remoteAddr : string) : Prop :=
  DisableIPMatching role = true
  \/ IP_Equal (IPAddress cert) (ParseIP (callerAddress remoteAddr)) = true.

(** An allow-list: empty, or the value is one of its elements. *)
Definition allowListPasses (value : string) (allowList : list string) : Prop :=
  allowList = [] \/ In value allowList.

Definition boundsPass (role : RoleEntry) (cert : PCFCertificate) : Prop :=
  allowListPasses (InstanceID cert) (BoundInstanceIDs role)
  /\ allowListPasses (AppID cert) (BoundAppIDs role)
  /\ allowListPasses (OrgID cert) (BoundOrgIDs role)
  /\ allowListPasses (SpaceID cert) (BoundSpaceIDs role).

(** The inventory cross-check: every lookup answers without error, with the
    record that was asked for, the app lives in the space of the certificate
    and has a live instance, and the space belongs to the org of the
    certificate. *)
Definition inventoryPasses (config : Configuration) (cert : PCFCertificate) : Prop :=
  exists client app org space,
    NewPCFClient config = (Some client, None)
    /\ AppByGuid client (AppID cert) = (app, None)
    /\ App_Guid app = AppID cert
    /\ App_SpaceGuid app = SpaceID cert
    /\ 0 < App_Instances app
    /\ GetOrgByGuid client (OrgID cert) = (org, None)
    /\ Org_Guid org = OrgID cert
    /\ GetSpaceByGuid client (SpaceID cert) = (space, None)
    /\ Space_Guid space = SpaceID cert
    /\ Space_OrganizationGuid space = OrgID cert.

(** The replay window, both bounds included. *)
Definition inReplayWindow (signingTime timeReceived : Time) (config : Configuration) : Prop :=
  timeReceived - LoginMaxSecOld config <= signingTime
  /\ signingTime <= timeReceived + LoginMaxSecAhead config.

(** A duration that [-1 * d] does not wrap: an [int64] other than the least. *)
Definition negatable (d : Duration) : Prop := - 2 ^ 63 < d < 2 ^ 63.

(** The check of lines 132 and 135, as the code computes it. *)
Definition windowAccepts (signingTime timeReceived : Time) (config : Configuration) : bool :=
  negb (Time_Before signingTime
          (Time_Add timeReceived (Duration_mul (-1) (LoginMaxSecOld config))))
  && negb (Time_After signingTime (Time_Add timeReceived (LoginMaxSecAhead config))).

(** The coarse CIDR rule of lines 92-100: no bound CIDR, or a connection
    whose address is within them. *)
Definition cidrRulePasses (req : Request) (role : RoleEntry) : Prop :=
  TokenBoundCIDRs role = []
  \/ exists conn, Req_Connection req = Some conn
       /\ RemoteAddrIsOk (RemoteAddr conn) (TokenBoundCIDRs role) = true.

(** A call arrives at the time window: the role is resolved, the CIDR rule
    passes, the three fields are present, the signing time parses and the
    configuration is resolved. *)
Definition arrivesAtWindow (req : Request) (data : gmap string string)
    (role : RoleEntry) (config' : Configuration) (signingTime : Time) : Prop :=
  FieldData_Get data "role" <> EmptyString
  /\ getRole (Req_Storage req) (FieldData_Get data "role") = (Some role, None)
  /\ cidrRulePasses req role
  /\ FieldData_Get data "signature" <> EmptyString
  /\ FieldData_Get data "cf_instance_cert" <> EmptyString
  /\ FieldData_Get data "signing_time" <> EmptyString
  /\ parseTime (FieldData_Get data "signing_time") = (signingTime, None)
  /\ config (Req_Storage req) = (Some config', None).

(** The payload whose signature the call verifies. *)
Definition signedData (data : gmap string string) (signingTime : Time) : SignatureData :=
  {| SigningTime := signingTime;
     Role := FieldData_Get data "role";
     CFInstanceCertContents := FieldData_Get data "cf_instance_cert" |}.

(** A call arrives at the signature verification: it arrives at the time
    window, the window accepts it and the certificates are extracted. *)
Definition arrivesAtVerification (now : Time) (req : Request) (data : gmap string string)
    (role : RoleEntry) (config' : Configuration) (signingTime : Time)
    (intermediateCert identityCert : option X509) : Prop :=
  arrivesAtWindow req data role config' signingTime
  /\ windowAccepts signingTime now config' = true
  /\ ExtractCertificates (FieldData_Get data "cf_instance_cert")
     = (intermediateCert, identityCert, None).

(** The identity of a call is established: the call arrives at the
    verification, the signature verifies, the chain validates, the identity
    decodes to [cert], and the request has a connection. *)
Definition identityEstablished (now : Time) (req : Request) (data : gmap string string)
    (role : RoleEntry) (config' : Configuration) (conn : Connection)
    (cert : PCFCertificate) : Prop :=
  exists signingTime intermediateCert identityCert signingCert,
    arrivesAtVerification now req data role config' signingTime intermediateCert identityCert
    /\ signatures_Verify (FieldData_Get data "signature") (signedData data signingTime)
       = (signingCert, None)
    /\ util_Validate (IdentityCACertificates config') intermediateCert identityCert signingCert
       = None
    /\ NewPCFCertificateFromx509 signingCert = (Some cert, None)
    /\ Req_Connection req = Some conn.

(** What a handler makes of the verdict of [validate]. *)
Definition reply (v : verdict) (auth : Auth) : outcome :=
  match v with
  | VPanicked => Panicked
  | Verdict (Some err) => Returned (Some (ErrorResponse (Error err))) None
  | Verdict None => Returned (Some (AuthResponse auth)) None
  end.

(** The order in which [operationLoginUpdate] completes its stages. *)
Definition codeOrder : list Stage :=
  [ReceivedTime; RoleResolved; CIDRChecked; SignatureExtracted; ConfigResolved;
   TimeWindowChecked; CertsExtracted; SignatureVerified; ChainValidated;
   IdentityDecoded; ConstraintsChecked; InventoryCrossChecked; Issued].

(** The order the specification lists. *)
Definition specOrder : list Stage :=
  [ReceivedTime; RoleResolved; CIDRChecked; SignatureExtracted; TimeWindowChecked;
   ConfigResolved; CertsExtracted; SignatureVerified; ChainValidated;
   IdentityDecoded; ConstraintsChecked; InventoryCrossChecked; Issued].

(** [l] is an initial segment of [m]. *)
Fixpoint isPrefix (l m : list Stage) : bool :=
  match l, m with
  | [], _ => true
  | x :: l', y :: m' => bool_decide (x = y) && isPrefix l' m'
  | _ :: _, [] => false
  end.

Definition issuesAuth (o : outcome) : bool :=
  match o with
  | Returned (Some (AuthResponse _)) _ => true
  | _ => false
  end.

(** The violation [validate] reports for the allow-lists: the one of the
    first field, in the order instance, app, org, space, whose non-empty
    allow-list lacks the value of the identity. *)
Definition firstViolation (role : RoleEntry) (cert : PCFCertificate) : option string :=
  if negb (meetsBoundConstraints (InstanceID cert) (BoundInstanceIDs role))
  then Some (constraintMessage "instance" (InstanceID cert) (BoundInstanceIDs role))
  else if negb (meetsBoundConstraints (AppID cert) (BoundAppIDs role))
  then Some (constraintMessage "app" (AppID cert) (BoundAppIDs role))
  else if negb (meetsBoundConstraints (OrgID cert) (BoundOrgIDs role))
  then Some (constraintMessage "org" (OrgID cert) (BoundOrgIDs role))
  else if negb (meetsBoundConstraints (SpaceID cert) (BoundSpaceIDs role))
  then Some (constraintMessage "space" (SpaceID cert) (BoundSpaceIDs role))
  else None.

(** The 16-byte form of an address. *)
Definition To16 (ip : IP) : IP :=
  if (length ip =? IPv4len)%nat then v4InV6Prefix ++ ip else ip.

(** What the identity extractor guarantees of an identity it decodes: every
    field is present, and the text of the address parses back to the same
    address. *)
Definition wellFormedIdentity (cert : PCFCertificate) : Prop :=
  InstanceID cert <> EmptyString /\ OrgID cert <> EmptyString
  /\ SpaceID cert <> EmptyString /\ AppID cert <> EmptyString
  /\ IP_String (IPAddress cert) <> EmptyString
  /\ ParseIP (IP_String (IPAddress cert)) <> []
  /\ IP_Equal (ParseIP (IP_String (IPAddress cert))) (IPAddress cert) = true.

(** The identity [pathLoginRenew] rebuilds from the metadata of an [Auth]:
    the five strings it hands to [NewPCFCertificate]. *)
Definition storedIdentity (auth : Auth) : option (string * string * string * string * string) :=
  match Auth_Alias auth with
  | None => None
  | Some alias =>
      match getOrErr "instance_id" (MapIfc (InternalData auth)),
            getOrErr "org_id" (MapStr (Alias_Metadata alias)),
            getOrErr "space_id" (MapStr (Alias_Metadata alias)),
            getOrErr "app_id" (MapStr (Alias_Metadata alias)),
            getOrErr "ip_address" (MapIfc (InternalData auth)) with
      | (instanceID, None), (orgID, None), (spaceID, None), (appID, None), (ipAddr, None) =>
          Some (instanceID, orgID, spaceID, appID, ipAddr)
      | _, _, _, _, _ => None
      end
  end.

(** A renewal arrives at the reconstruction of line 250: the configuration
    and the role are resolved, the request has a connection, and the stored
    metadata yields the five strings. *)
Definition renewalArrives (req : Request) (config' : Configuration) (role : RoleEntry)
    (auth : Auth) (conn : Connection)
    (instanceID orgID spaceID appID ipAddr : string) : Prop :=
  config (Req_Storage req) = (Some config', None)
  /\ Req_Auth req = Some auth
  /\ (exists roleName,
        getOrErr "role" (MapIfc (InternalData auth)) = (roleName, None)
        /\ getRole (Req_Storage req) roleName = (Some role, None))
  /\ storedIdentity auth = Some (instanceID, orgID, spaceID, appID, ipAddr)
  /\ Req_Connection req = Some conn.

(** The [Auth] a successful renewal returns: the stored one with the token
    parameters of the current role. *)
Definition renewedAuth (role : RoleEntry) (auth : Auth) : Auth :=
  {| InternalData := InternalData auth;
     DisplayName := DisplayName auth;
     Auth_Alias := Auth_Alias auth;
     TTL := TokenTTL role;
     MaxTTL := TokenMaxTTL role;
     Period := TokenPeriod role |}.

(** A stored field is missing. *)
Definition fieldMissing (auth : Auth) (alias : Alias) : Prop :=
  InternalData auth !! "role" = None \/ InternalData auth !! "instance_id" = None
  \/ InternalData auth !! "ip_address" = None \/ Alias_Metadata alias !! "org_id" = None
  \/ Alias_Metadata alias !! "space_id" = None \/ Alias_Metadata alias !! "app_id" = None.

(** The text contains a slash. *)
Fixpoint hasSlash (s : string) : bool :=
  match s with
  | EmptyString => false
  | String c r => Ascii.eqb c "/" || hasSlash r
  end.

(** A role with IP matching disabled, and an identity at another address. *)
Definition withoutIPMatching (role : RoleEntry) : RoleEntry :=
  {| BoundAppIDs := BoundAppIDs role; BoundSpaceIDs := BoundSpaceIDs role;
     BoundOrgIDs := BoundOrgIDs role; BoundInstanceIDs := BoundInstanceIDs role;
     DisableIPMatching := true; TokenBoundCIDRs := TokenBoundCIDRs role;
     TokenTTL := TokenTTL role; TokenMaxTTL := TokenMaxTTL role;
     TokenPeriod := TokenPeriod role |}.

Definition atAddress (cert : PCFCertificate) (ip : IP) : PCFCertificate :=
  {| InstanceID := InstanceID cert; OrgID := OrgID cert; SpaceID := SpaceID cert;
     AppID := AppID cert; IPAddress := ip |}.

End Rules.

(** ** Further vocabulary: how far a call gets, and what it returns *)

Section Reach.
Context `{P : Platform}.

(** The role of a login call is resolved: the request names a role and the
    storage has it. *)
Definition roleResolved (req : Request) (data : gmap string string) (role : RoleEntry) : Prop :=
  FieldData_Get data "role" <> EmptyString
  /\ getRole (Req_Storage req) (FieldData_Get data "role") = (Some role, None).

(** A login call arrives at the reading of its fields (line 102): the role
    is resolved and the CIDR rule passes. *)
Definition arrivesAtFields (req : Request) (data : gmap string string) (role : RoleEntry) : Prop :=
  roleResolved req data role /\ cidrRulePasses req role.

(** A login call arrives at the parsing of its signing time (line 116): the
    three fields are present. *)
Definition arrivesAtParse (req : Request) (data : gmap string string) (role : RoleEntry) : Prop :=
  arrivesAtFields req data role
  /\ FieldData_Get data "signature" <> EmptyString
  /\ FieldData_Get data "cf_instance_cert" <> EmptyString
  /\ FieldData_Get data "signing_time" <> EmptyString.

(** A login call whose signature is verified (line 154): it arrives at the
    verification and [signatures.Verify] returns the signing certificate. *)
Definition signatureVerified (now : Time) (req : Request) (data : gmap string string)
    (role : RoleEntry) (config' : Configuration)
    (intermediateCert identityCert signingCert : option X509) : Prop :=
  exists signingTime,
    arrivesAtVerification now req data role config' signingTime intermediateCert identityCert
    /\ signatures_Verify (FieldData_Get data "signature") (signedData data signingTime)
       = (signingCert, None).

(** A login call whose identity is decoded (line 164), whatever its
    connection: the signature is verified, the chain validates and
    [NewPCFCertificateFromx509] returns [pcfCert] without error. *)
Definition identityDecoded (now : Time) (req : Request) (data : gmap string string)
    (role : RoleEntry) (config' : Configuration) (pcfCert : option PCFCertificate) : Prop :=
  exists intermediateCert identityCert signingCert,
    signatureVerified now req data role config' intermediateCert identityCert signingCert
    /\ util_Validate (IdentityCACertificates config') intermediateCert identityCert signingCert
       = None
    /\ NewPCFCertificateFromx509 signingCert = (pcfCert, None).

(** A handler result a caller can act on: a response or an error, not both
    and not neither. *)
Definition oneOfResponseAndError (o : outcome) : bool :=
  match o with
  | Returned (Some _) None => true
  | Returned None (Some _) => true
  | Returned _ _ => false
  | Panicked => true
  end.

(** The request of a renewal: the same storage and connection, with the
    given [Auth]. *)
Definition withAuth (req : Request) (auth : Auth) : Request :=
  {| Req_Storage := Req_Storage req;
     Req_Connection := Req_Connection req;
     Req_Auth := Some auth |}.

(** An identity under another instance ID. *)
Definition withInstanceID (cert : PCFCertificate) (instanceID : string) : PCFCertificate :=
  {| InstanceID := instanceID; OrgID := OrgID cert; SpaceID := SpaceID cert;
     AppID := AppID cert; IPAddress := IPAddress cert |}.

(** The policy part of [validate] (lines 263-279): the IP rule and the four
    allow-lists. *)
Definition policyPasses (role : RoleEntry) (cert : PCFCertificate) (remoteAddr : string) : Prop :=
  ipRulePasses role cert remoteAddr /\ boundsPass role cert.

(** The collaborators keep Go's convention: no nil certificate and no nil
    client without an error. *)
Definition decoderKeepsConvention : Prop :=
  forall signingCert, NewPCFCertificateFromx509 signingCert <> (None, None).

Definition clientKeepsConvention : Prop :=
  forall config', NewPCFClient config' <> (None, None).

End Reach.

(** ** The course of a login, step by step

    The steps of a login in the order of [codeOrder], as a relation of its
    own against which the handler is compared.  Each rule names the step
    that fails and what has passed before it, and gives the number of stages
    then complete and the answer of the call, which carries the error of
    that step.  The texts are written out, not taken from the handler. *)

Section Course.
Context `{P : Platform}.

(** The app lookup and the org lookup answer as the certificate says. *)
Definition appAnswers (client : PCFClient) (cert : PCFCertificate) : Prop :=
  exists app,
    AppByGuid client (AppID cert) = (app, None)
    /\ App_Guid app = AppID cert
    /\ App_SpaceGuid app = SpaceID cert
    /\ 0 < App_Instances app.

Definition orgAnswers (client : PCFClient) (cert : PCFCertificate) : Prop :=
  exists org,
    GetOrgByGuid client (OrgID cert) = (org, None) /\ Org_Guid org = OrgID cert.

(** The inventory cross-check fails with [err]: the error of the first
    lookup that does not answer, or the mismatch of the first record that
    differs from the certificate, in the order client, app, org, space. *)
Inductive inventoryFails (config' : Configuration) (cert : PCFCertificate) : error -> Prop :=
| ClientFails (client : option PCFClient) (err : error) :
    NewPCFClient config' = (client, Some err) ->
    inventoryFails config' cert err
| AppLookupFails (client : PCFClient) (app : App) (err : error) :
    NewPCFClient config' = (Some client, None) ->
    AppByGuid client (AppID cert) = (app, Some err) ->
    inventoryFails config' cert err
| AppGuidDiffers (client : PCFClient) (app : App) :
    NewPCFClient config' = (Some client, None) ->
    AppByGuid client (AppID cert) = (app, None) ->
    App_Guid app <> AppID cert ->
    inventoryFails config' cert
      ("cert app ID " +:+ AppID cert +:+ " doesn't match API's expected one of "
       +:+ App_Guid app)
| AppSpaceDiffers (client : PCFClient) (app : App) :
    NewPCFClient config' = (Some client, None) ->
    AppByGuid client (AppID cert) = (app, None) ->
    App_Guid app = AppID cert ->
    App_SpaceGuid app <> SpaceID cert ->
    inventoryFails config' cert
      ("cert space ID " +:+ SpaceID cert +:+ " doesn't match API's expected one of "
       +:+ App_SpaceGuid app)
| NoLiveInstance (client : PCFClient) (app : App) :
    NewPCFClient config' = (Some client, None) ->
    AppByGuid client (AppID cert) = (app, None) ->
    App_Guid app = AppID cert ->
    App_SpaceGuid app = SpaceID cert ->
    App_Instances app <= 0 ->
    inventoryFails config' cert "app doesn't have any live instances"
| OrgLookupFails (client : PCFClient) (org : Org) (err : error) :
    NewPCFClient config' = (Some client, None) ->
    appAnswers client cert ->
    GetOrgByGuid client (OrgID cert) = (org, Some err) ->
    inventoryFails config' cert err
| OrgGuidDiffers (client : PCFClient) (org : Org) :
    NewPCFClient config' = (Some client, None) ->
    appAnswers client cert ->
    GetOrgByGuid client (OrgID cert) = (org, None) ->
    Org_Guid org <> OrgID cert ->
    inventoryFails config' cert
      ("cert org ID " +:+ OrgID cert +:+ " doesn't match API's expected one of "
       +:+ Org_Guid org)
| SpaceLookupFails (client : PCFClient) (space : Space) (err : error) :
    NewPCFClient config' = (Some client, None) ->
    appAnswers client cert ->
    orgAnswers client cert ->
    GetSpaceByGuid client (SpaceID cert) = (space, Some err) ->
    inventoryFails config' cert err
| SpaceGuidDiffers (client : PCFClient) (space : Space) :
    NewPCFClient config' = (Some client, None) ->
    appAnswers client cert ->
    orgAnswers client cert ->
    GetSpaceByGuid client (SpaceID cert) = (space, None) ->
    Space_Guid space <> SpaceID cert ->
    inventoryFails config' cert
      ("cert space ID " +:+ SpaceID cert +:+ " doesn't match API's expected one of "
       +:+ Space_Guid space)
| SpaceOrgDiffers (client : PCFClient) (space : Space) :
    NewPCFClient config' = (Some client, None) ->
    appAnswers client cert ->
    orgAnswers client cert ->
    GetSpaceByGuid client (SpaceID cert) = (space, None) ->
    Space_Guid space = SpaceID cert ->
    Space_OrganizationGuid space <> OrgID cert ->
    inventoryFails config' cert
      ("cert org ID " +:+ OrgID cert +:+ " doesn't match API's expected one of "
       +:+ Space_OrganizationGuid space).

(** [stopsAfter now req data n o]: the login stops at the step that follows
    the first [n] stages of the order, with the answer [o].  The steps are,
    in this order: the role (after 1 stage, the receipt time), the bound
    CIDRs (2), the signature (3), the certificate text, the signing time and
    the configuration (4), the time window (5), the extraction of the
    certificates (6), the signature verification (7), the trust chain (8),
    the decoding of the identity (9), the constraints of the role (10) and
    the inventory (11). *)
Inductive stopsAfter (now : Time) (req : Request) (data : gmap string string)
  : nat -> outcome -> Prop :=
| NoRoleName :
    FieldData_Get data "role" = EmptyString ->
    stopsAfter now req data 1
      (Returned (Some (ErrorResponse "'role-name' is required")) None)
| RoleLookupFails (role : option RoleEntry) (err : error) :
    FieldData_Get data "role" <> EmptyString ->
    getRole (Req_Storage req) (FieldData_Get data "role") = (role, Some err) ->
    stopsAfter now req data 1 (Returned None (Some err))
| NoSuchRole :
    FieldData_Get data "role" <> EmptyString ->
    getRole (Req_Storage req) (FieldData_Get data "role") = (None, None) ->
    stopsAfter now req data 1 (Returned None (Some "no matching role"))
| OutsideBoundCIDRs (role : RoleEntry) :
    roleResolved req data role ->
    ~ cidrRulePasses req role ->
    stopsAfter now req data 2 (Returned None (Some "permission denied"))
| NoSignature (role : RoleEntry) :
    arrivesAtFields req data role ->
    FieldData_Get data "signature" = EmptyString ->
    stopsAfter now req data 3
      (Returned (Some (ErrorResponse "'signature' is required")) None)
| NoCertificateText (role : RoleEntry) :
    arrivesAtFields req data role ->
    FieldData_Get data "signature" <> EmptyString ->
    FieldData_Get data "cf_instance_cert" = EmptyString ->
    stopsAfter now req data 4
      (Returned (Some (ErrorResponse "'cf_instance_cert' is required")) None)
| NoSigningTime (role : RoleEntry) :
    arrivesAtFields req data role ->
    FieldData_Get data "signature" <> EmptyString ->
    FieldData_Get data "cf_instance_cert" <> EmptyString ->
    FieldData_Get data "signing_time" = EmptyString ->
    stopsAfter now req data 4
      (Returned (Some (ErrorResponse "'signing_time' is required")) None)
| SigningTimeUnparsable (role : RoleEntry) (t : Time) (err : error) :
    arrivesAtParse req data role ->
    parseTime (FieldData_Get data "signing_time") = (t, Some err) ->
    stopsAfter now req data 4 (Returned (Some (ErrorResponse err)) None)
| ConfigLookupFails (role : RoleEntry) (t : Time) (c : option Configuration) (err : error) :
    arrivesAtParse req data role ->
    parseTime (FieldData_Get data "signing_time") = (t, None) ->
    config (Req_Storage req) = (c, Some err) ->
    stopsAfter now req data 4 (Returned None (Some err))
| NoConfiguration (role : RoleEntry) (t : Time) :
    arrivesAtParse req data role ->
    parseTime (FieldData_Get data "signing_time") = (t, None) ->
    config (Req_Storage req) = (None, None) ->
    stopsAfter now req data 4
      (Returned None (Some "no CA is configured for verifying client certificates"))
| SignedTooEarly (role : RoleEntry) (config' : Configuration) (t : Time) :
    arrivesAtWindow req data role config' t ->
    negatable (LoginMaxSecOld config') ->
    t < now - LoginMaxSecOld config' ->
    stopsAfter now req data 5
      (Returned (Some (ErrorResponse
         ("request is too old; signed at " +:+ Time_String t
          +:+ " but received request at " +:+ Time_String now
          +:+ "; allowable seconds old is "
          +:+ pretty (Z.quot (LoginMaxSecOld config') 1000000000)))) None)
| SignedTooLate (role : RoleEntry) (config' : Configuration) (t : Time) :
    arrivesAtWindow req data role config' t ->
    negatable (LoginMaxSecOld config') ->
    now - LoginMaxSecOld config' <= t ->
    now + LoginMaxSecAhead config' < t ->
    stopsAfter now req data 5
      (Returned (Some (ErrorResponse
         ("request is too far in the future; signed at " +:+ Time_String t
          +:+ " but received request at " +:+ Time_String now
          +:+ "; allowable seconds in the future is "
          +:+ pretty (Z.quot (LoginMaxSecAhead config') 1000000000)))) None)
| ExtractionFails (role : RoleEntry) (config' : Configuration) (t : Time)
    (intermediateCert identityCert : option X509) (err : error) :
    arrivesAtWindow req data role config' t ->
    windowAccepts t now config' = true ->
    ExtractCertificates (FieldData_Get data "cf_instance_cert")
      = (intermediateCert, identityCert, Some err) ->
    stopsAfter now req data 6 (Returned (Some (ErrorResponse err)) None)
| VerificationFails (role : RoleEntry) (config' : Configuration) (t : Time)
    (intermediateCert identityCert signingCert : option X509) (err : error) :
    arrivesAtVerification now req data role config' t intermediateCert identityCert ->
    signatures_Verify (FieldData_Get data "signature")
      {| SigningTime := t; Role := FieldData_Get data "role";
         CFInstanceCertContents := FieldData_Get data "cf_instance_cert" |}
      = (signingCert, Some err) ->
    stopsAfter now req data 7 (Returned (Some (ErrorResponse err)) None)
| ChainFails (role : RoleEntry) (config' : Configuration)
    (intermediateCert identityCert signingCert : option X509) (err : error) :
    signatureVerified now req data role config' intermediateCert identityCert signingCert ->
    util_Validate (IdentityCACertificates config') intermediateCert identityCert signingCert
      = Some err ->
    stopsAfter now req data 8 (Returned (Some (ErrorResponse err)) None)
| DecodingFails (role : RoleEntry) (config' : Configuration)
    (intermediateCert identityCert signingCert : option X509)
    (pcfCert : option PCFCertificate) (err : error) :
    signatureVerified now req data role config' intermediateCert identityCert signingCert ->
    util_Validate (IdentityCACertificates config') intermediateCert identityCert signingCert
      = None ->
    NewPCFCertificateFromx509 signingCert = (pcfCert, Some err) ->
    stopsAfter now req data 9 (Returned None (Some err))
| AddressDiffers (role : RoleEntry) (config' : Configuration) (conn : Connection)
    (cert : PCFCertificate) :
    identityEstablished now req data role config' conn cert ->
    ~ ipRulePasses role cert (RemoteAddr conn) ->
    stopsAfter now req data 10
      (Returned (Some (ErrorResponse "no matching IP address")) None)
| InstanceNotAllowed (role : RoleEntry) (config' : Configuration) (conn : Connection)
    (cert : PCFCertificate) :
    identityEstablished now req data role config' conn cert ->
    ipRulePasses role cert (RemoteAddr conn) ->
    ~ allowListPasses (InstanceID cert) (BoundInstanceIDs role) ->
    stopsAfter now req data 10
      (Returned (Some (ErrorResponse
         ("instance ID " +:+ InstanceID cert +:+ " doesn't match role constraints of "
          +:+ fmt_strings (BoundInstanceIDs role)))) None)
| AppNotAllowed (role : RoleEntry) (config' : Configuration) (conn : Connection)
    (cert : PCFCertificate) :
    identityEstablished now req data role config' conn cert ->
    ipRulePasses role cert (RemoteAddr conn) ->
    allowListPasses (InstanceID cert) (BoundInstanceIDs role) ->
    ~ allowListPasses (AppID cert) (BoundAppIDs role) ->
    stopsAfter now req data 10
      (Returned (Some (ErrorResponse
         ("app ID " +:+ AppID cert +:+ " doesn't match role constraints of "
          +:+ fmt_strings (BoundAppIDs role)))) None)
| OrgNotAllowed (role : RoleEntry) (config' : Configuration) (conn : Connection)
    (cert : PCFCertificate) :
    identityEstablished now req data role config' conn cert ->
    ipRulePasses role cert (RemoteAddr conn) ->
    allowListPasses (InstanceID cert) (BoundInstanceIDs role) ->
    allowListPasses (AppID cert) (BoundAppIDs role) ->
    ~ allowListPasses (OrgID cert) (BoundOrgIDs role) ->
    stopsAfter now req data 10
      (Returned (Some (ErrorResponse
         ("org ID " +:+ OrgID cert +:+ " doesn't match role constraints of "
          +:+ fmt_strings (BoundOrgIDs role)))) None)
| SpaceNotAllowed (role : RoleEntry) (config' : Configuration) (conn : Connection)
    (cert : PCFCertificate) :
    identityEstablished now req data role config' conn cert ->
    ipRulePasses role cert (RemoteAddr conn) ->
    allowListPasses (InstanceID cert) (BoundInstanceIDs role) ->
    allowListPasses (AppID cert) (BoundAppIDs role) ->
    allowListPasses (OrgID cert) (BoundOrgIDs role) ->
    ~ allowListPasses (SpaceID cert) (BoundSpaceIDs role) ->
    stopsAfter now req data 10
      (Returned (Some (ErrorResponse
         ("space ID " +:+ SpaceID cert +:+ " doesn't match role constraints of "
          +:+ fmt_strings (BoundSpaceIDs role)))) None)
| InventoryRefuses (role : RoleEntry) (config' : Configuration) (conn : Connection)
    (cert : PCFCertificate) (err : error) :
    identityEstablished now req data role config' conn cert ->
    ipRulePasses role cert (RemoteAddr conn) ->
    boundsPass role cert ->
    inventoryFails config' cert err ->
    stopsAfter now req data 11 (Returned (Some (ErrorResponse err)) None).

(** Every step of a login passes, for the identity [cert] under the role
    [role]. *)
Definition everyStepPasses (now : Time) (req : Request) (data : gmap string string)
    (role : RoleEntry) (cert : PCFCertificate) : Prop :=
  exists config' conn,
    identityEstablished now req data role config' conn cert
    /\ ipRulePasses role cert (RemoteAddr conn)
    /\ boundsPass role cert
    /\ inventoryPasses config' cert.

(** The [Auth] of a login, field by field: the three entries of the internal
    data, the display name, the alias with its three entries, and the token
    parameters of the role. *)
Definition issuedAuth (roleName : string) (role : RoleEntry) (cert : PCFCertificate) : Auth :=
  {| InternalData :=
       <["role" := IfcString roleName]>
       (<["instance_id" := IfcString (InstanceID cert)]>
       (<["ip_address" := IfcString (IP_String (IPAddress cert))]> ∅));
     DisplayName := InstanceID cert;
     Auth_Alias := Some
       {| Alias_Name := AppID cert;
          Alias_Metadata :=
            <["org_id" := OrgID cert]>
            (<["app_id" := AppID cert]>
            (<["space_id" := SpaceID cert]> ∅)) |};
     TTL := TokenTTL role; MaxTTL := TokenMaxTTL role; Period := TokenPeriod role |}.

(** What follows the time window passes: the certificates are extracted,
    the signature verifies, the chain validates, the identity decodes to
    [cert], the request has a connection, and the constraints of the role
    and the inventory admit the identity. *)
Definition laterChecksPass (req : Request) (data : gmap string string) (role : RoleEntry)
    (config' : Configuration) (signingTime : Time) (cert : PCFCertificate) : Prop :=
  exists intermediateCert identityCert signingCert conn,
    ExtractCertificates (FieldData_Get data "cf_instance_cert")
      = (intermediateCert, identityCert, None)
    /\ signatures_Verify (FieldData_Get data "signature")
         {| SigningTime := signingTime; Role := FieldData_Get data "role";
            CFInstanceCertContents := FieldData_Get data "cf_instance_cert" |}
       = (signingCert, None)
    /\ util_Validate (IdentityCACertificates config') intermediateCert identityCert signingCert
       = None
    /\ NewPCFCertificateFromx509 signingCert = (Some cert, None)
    /\ Req_Connection req = Some conn
    /\ ipRulePasses role cert (RemoteAddr conn)
    /\ boundsPass role cert
    /\ inventoryPasses config' cert.

(** The platform at a later time, when the PCF API may answer otherwise:
    everything as before but the client [validate] creates. *)
Definition withInventory (later : Configuration -> option PCFClient * option error)
  : Platform :=
  {| X509 := X509;
     Storage := Storage;
     getRole := getRole;
     config := config;
     RemoteAddrIsOk := RemoteAddrIsOk;
     TimeFormat := TimeFormat;
     BashTimeFormat := BashTimeFormat;
     time_Parse := time_Parse;
     Time_String := Time_String;
     ParseIP := ParseIP;
     IP_String := IP_String;
     ExtractCertificates := ExtractCertificates;
     signatures_Verify := signatures_Verify;
     util_Validate := util_Validate;
     NewPCFCertificateFromx509 := NewPCFCertificateFromx509;
     NewPCFClient := later;
     refusedCertificate := refusedCertificate |}.

(** The renewal of [auth] at that later time: the storage and the connection
    of [req]. *)
Definition laterRenewal (later : Configuration -> option PCFClient * option error)
    (req : Request) (auth : Auth) : @Request (withInventory later) :=
  @Build_Request (withInventory later) (Req_Storage req) (Req_Connection req) (Some auth).

End Course.

(** ** A test double of the collaborators

    A small concrete platform on which the handlers run, in the manner of
    the fakes of a Go test: certificates are records, a signature is the
    text it signs prefixed by the name of the key, the inventory is chosen
    by the API address of the configuration. *)

Module Testbed.

Record cert := { subject : PCFCertificate; issuer : string; key : string }.

Record store := {
  roles : gmap string RoleEntry;
  configuration : option Configuration
}.

Definition digit (c : ascii) : option N :=
  let n := N_of_ascii c in
  if ((48 <=? n) && (n <=? 57))%N then Some (n - 48)%N else None.

Fixpoint decimal (s : string) (acc : N) : option N :=
  match s with
  | EmptyString => Some acc
  | String c r =>
      match digit c with
      | Some d => decimal r (10 * acc + d)%N
      | None => None
      end
  end.

Definition number (s : string) : option N :=
  if String.eqb s EmptyString then None else decimal s 0%N.

Definition octet (s : string) : option byte :=
  match number s with
  | Some n => Byte.of_N n
  | None => None
  end.

(** Dotted-quad addresses only, in the 16-byte form [net.ParseIP] yields. *)
Definition parseIP (s : string) : IP :=
  match strings_Split s "." with
  | [a; b; c; d] =>
      match octet a, octet b, octet c, octet d with
      | Some a, Some b, Some c, Some d => v4InV6Prefix ++ [a; b; c; d]
      | _, _, _, _ => []
      end
  | _ => []
  end.

Definition showOctet (b : byte) : string := pretty (Byte.to_N b).

Definition showIP (ip : IP) : string :=
  match drop (length ip - 4) ip with
  | [a; b; c; d] =>
      showOctet a +:+ "." +:+ showOctet b +:+ "." +:+ showOctet c +:+ "." +:+ showOctet d
  | _ => "<nil>"
  end.

Definition isoLayout : string := "2006-01-02T15:04:05Z".
Definition bashLayout : string := "Mon Jan 2 15:04:05 MST 2006".

(** Times are written as a count of seconds, preceded by [@] in the second
    layout. *)
Definition parseSeconds (layout s : string) : Time * option error :=
  let digits :=
    if String.eqb layout isoLayout then Some s
    else match s with
         | String "@" r => Some r
         | _ => None
         end in
  match digits ≫= number with
  | Some n => (Z.of_N n * Second, None)
  | None => (Time_zero, Some ("parsing time " +:+ s))
  end.

Definition identityA : PCFCertificate :=
  {| InstanceID := "i-1"; OrgID := "org-1"; SpaceID := "space-1"; AppID := "app-1";
     IPAddress := parseIP "10.0.0.1" |}.

Definition identityB : PCFCertificate :=
  {| InstanceID := "i-2"; OrgID := "org-1"; SpaceID := "space-1"; AppID := "app-2";
     IPAddress := parseIP "10.0.0.1" |}.

Definition extract (contents : string) : option cert * option cert * option error :=
  if String.eqb contents "CERT-A"
  then (None, Some {| subject := identityA; issuer := "ca-1"; key := "key-a" |}, None)
  else if String.eqb contents "CERT-B"
  then (None, Some {| subject := identityB; issuer := "ca-1"; key := "key-b" |}, None)
  else (None, None, Some "no certificates found").

Definition signedText (data : SignatureData) : string :=
  pretty (SigningTime data) +:+ "|" +:+ Role data +:+ "|" +:+ CFInstanceCertContents data.

Definition sign (keyName : string) (data : SignatureData) : string :=
  keyName +:+ "|" +:+ signedText data.

Definition verify (signature : string) (data : SignatureData) : option cert * option error :=
  match extract (CFInstanceCertContents data) with
  | (_, Some c, None) =>
      if String.eqb signature (sign (key c) data) then (Some c, None)
      else (None, Some "signature does not match the signed data")
  | _ => (None, Some "no identity certificate")
  end.

Definition chain (cas : list string) (intermediate identity signing : option cert)
  : option error :=
  match signing with
  | Some c =>
      if StrListContains cas (issuer c) then None
      else Some "certificate signed by unknown authority"
  | None => Some "no signing certificate"
  end.

Definition decode (c : option cert) : option PCFCertificate * option error :=
  match c with
  | Some c => (Some (subject c), None)
  | None => (None, Some "no certificate")
  end.

(** The inventory: every app lives in [space-1] of [org-1]; the API at
    [api.idle] reports no instance, the one at [api.down] does not answer. *)
Definition inventory (instances : Z) (answer : option error) : PCFClient :=
  {| AppByGuid := fun guid =>
       ({| App_Guid := guid; App_SpaceGuid := "space-1"; App_Instances := instances |},
        answer);
     GetOrgByGuid := fun guid => ({| Org_Guid := guid |}, answer);
     GetSpaceByGuid := fun guid =>
       ({| Space_Guid := guid; Space_OrganizationGuid := "org-1" |}, answer) |}.

Definition newClient (config : Configuration) : option PCFClient * option error :=
  if String.eqb (PCFAPIAddr config) "api.live" then (Some (inventory 1 None), None)
  else if String.eqb (PCFAPIAddr config) "api.idle" then (Some (inventory 0 None), None)
  else if String.eqb (PCFAPIAddr config) "api.down"
  then (Some (inventory 1 (Some "connection refused")), None)
  else (None, Some "no API address").

Definition platform : Platform :=
  {| X509 := cert;
     Storage := store;
     getRole := fun st name => (roles st !! name, None);
     config := fun st => (configuration st, None);
     RemoteAddrIsOk := fun addr cidrs => StrListContains cidrs addr;
     TimeFormat := isoLayout;
     BashTimeFormat := bashLayout;
     time_Parse := parseSeconds;
     Time_String := fun t => pretty t;
     ParseIP := parseIP;
     IP_String := showIP;
     ExtractCertificates := extract;
     signatures_Verify := verify;
     util_Validate := chain;
     NewPCFCertificateFromx509 := decode;
     NewPCFClient := newClient;
     refusedCertificate := fun _ _ _ _ _ => None |}.

Definition openRole : RoleEntry :=
  {| BoundAppIDs := []; BoundSpaceIDs := []; BoundOrgIDs := []; BoundInstanceIDs := [];
     DisableIPMatching := false; TokenBoundCIDRs := [];
     TokenTTL := 3600 * Second; TokenMaxTTL := 7200 * Second; TokenPeriod := 0 |}.

Definition strictRole : RoleEntry :=
  {| BoundAppIDs := ["app-1"]; BoundSpaceIDs := []; BoundOrgIDs := [];
     BoundInstanceIDs := ["i-1"];
     DisableIPMatching := false; TokenBoundCIDRs := [];
     TokenTTL := 3600 * Second; TokenMaxTTL := 7200 * Second; TokenPeriod := 0 |}.

Definition fencedRole : RoleEntry :=
  {| BoundAppIDs := []; BoundSpaceIDs := []; BoundOrgIDs := []; BoundInstanceIDs := [];
     DisableIPMatching := false; TokenBoundCIDRs := ["10.0.0.1"];
     TokenTTL := 3600 * Second; TokenMaxTTL := 7200 * Second; TokenPeriod := 0 |}.

Definition appOnlyRole : RoleEntry :=
  {| BoundAppIDs := ["app-1"]; BoundSpaceIDs := []; BoundOrgIDs := [];
     BoundInstanceIDs := [];
     DisableIPMatching := false; TokenBoundCIDRs := [];
     TokenTTL := 3600 * Second; TokenMaxTTL := 7200 * Second; TokenPeriod := 0 |}.

Definition configAt (api : string) : Configuration :=
  {| IdentityCACertificates := ["ca-1"]; PCFAPIAddr := api;
     LoginMaxSecOld := 300 * Second; LoginMaxSecAhead := 60 * Second |}.

Definition storeWith (c : option Configuration) : store :=
  {| roles := <["web" := openRole]> (<["strict" := strictRole]>
              (<["fenced" := fencedRole]> (<["apponly" := appOnlyRole]> ∅)));
     configuration := c |}.

Definition requestFrom (addr : option string) (c : option Configuration)
  : @Request platform :=
  @Build_Request platform (storeWith c) ((fun a => {| RemoteAddr := a |}) <$> addr) None.

(** The fields of a login request signed, under [keyName], over the given
    role, certificate text and signing time. *)
Definition payload (roleName contents seconds keyName : string) : gmap string string :=
  <["role" := roleName]> (<["cf_instance_cert" := contents]>
  (<["signing_time" := seconds]>
  (<["signature" :=
      sign keyName {| SigningTime := (parseSeconds isoLayout seconds).1;
                      Role := roleName; CFInstanceCertContents := contents |}]> ∅))).

(** The instant the test requests are received: 1000 seconds. *)
Definition receipt : Time := 1000 * Second.

(** A request from the address of certificate A, against the live inventory,
    and its payload for the open role, signed at the instant of receipt. *)
Definition liveRequest : @Request platform :=
  requestFrom (Some "10.0.0.1/32") (Some (configAt "api.live")).

Definition goodPayload : gmap string string := payload "web" "CERT-A" "1000" "key-a".

Definition certA : cert := {| subject := identityA; issuer := "ca-1"; key := "key-a" |}.

(** The [Auth] the good login issues. *)
Definition goodAuth : Auth :=
  PopulateTokenAuth openRole (@loginAuth platform "web" identityA).

(** The metadata of a session of certificate A, with the given text for
    its address, and a renewal request that carries it. *)
Definition storedAuth (ipAddr : string) : Auth :=
  {| InternalData :=
       <["role" := IfcString "web"]> (<["instance_id" := IfcString "i-1"]>
       (<["ip_address" := IfcString ipAddr]> ∅));
     DisplayName := "i-1";
     Auth_Alias := Some
       {| Alias_Name := "app-1";
          Alias_Metadata :=
            <["org_id" := "org-1"]> (<["app_id" := "app-1"]>
            (<["space_id" := "space-1"]> ∅)) |};
     TTL := 0; MaxTTL := 0; Period := 0 |}.

Definition renewalRequest (ipAddr : string) : @Request platform :=
  @Build_Request platform (storeWith (Some (configAt "api.live")))
    (Some {| RemoteAddr := "10.0.0.1/32" |}) (Some (storedAuth ipAddr)).

End Testbed.

(** ** Further test doubles *)

Module Faulty.

Import Testbed.

(** The platform of [Testbed] over a storage that is sealed: every lookup
    of a role fails. *)
Definition sealedPlatform : Platform :=
  {| X509 := cert;
     Storage := store;
     getRole := fun st name => (None, Some "storage is sealed");
     config := fun st => (configuration st, None);
     RemoteAddrIsOk := fun addr cidrs => StrListContains cidrs addr;
     TimeFormat := isoLayout;
     BashTimeFormat := bashLayout;
     time_Parse := parseSeconds;
     Time_String := fun t => pretty t;
     ParseIP := parseIP;
     IP_String := showIP;
     ExtractCertificates := extract;
     signatures_Verify := verify;
     util_Validate := chain;
     NewPCFCertificateFromx509 := decode;
     NewPCFClient := newClient;
     refusedCertificate := fun _ _ _ _ _ => None |}.

Definition sealedRequest : @Request sealedPlatform :=
  @Build_Request sealedPlatform (storeWith (Some (configAt "api.live")))
    (Some {| RemoteAddr := "10.0.0.1/32" |}) (Some (storedAuth "10.0.0.1")).

(** An identity of another space than the one the inventory knows. *)
Definition identityElsewhere : PCFCertificate :=
  {| InstanceID := "i-1"; OrgID := "org-1"; SpaceID := "space-2"; AppID := "app-1";
     IPAddress := parseIP "10.0.0.1" |}.

(** The platform of [Testbed] with an identity constructor that hands back,
    with its error, the certificate it built: the five strings, and the
    address as [parseIP] reads it. *)
Definition lenientPlatform : Platform :=
  {| X509 := cert;
     Storage := store;
     getRole := fun st name => (roles st !! name, None);
     config := fun st => (configuration st, None);
     RemoteAddrIsOk := fun addr cidrs => StrListContains cidrs addr;
     TimeFormat := isoLayout;
     BashTimeFormat := bashLayout;
     time_Parse := parseSeconds;
     Time_String := fun t => pretty t;
     ParseIP := parseIP;
     IP_String := showIP;
     ExtractCertificates := extract;
     signatures_Verify := verify;
     util_Validate := chain;
     NewPCFCertificateFromx509 := decode;
     NewPCFClient := newClient;
     refusedCertificate := fun instanceID orgID spaceID appID ipAddress =>
       Some {| InstanceID := instanceID; OrgID := orgID; SpaceID := spaceID;
               AppID := appID; IPAddress := parseIP ipAddress |} |}.

(** A role that does not match addresses, a storage that holds it, and the
    metadata of a session of certificate A under that role, with the given
    text for its address. *)
Definition looseRole : RoleEntry :=
  {| BoundAppIDs := []; BoundSpaceIDs := []; BoundOrgIDs := []; BoundInstanceIDs := [];
     DisableIPMatching := true; TokenBoundCIDRs := [];
     TokenTTL := 3600 * Second; TokenMaxTTL := 7200 * Second; TokenPeriod := 0 |}.

Definition looseStore : store :=
  {| roles := <["loose" := looseRole]> ∅;
     configuration := Some (configAt "api.live") |}.

Definition looseAuth (ipAddr : string) : Auth :=
  {| InternalData :=
       <["role" := IfcString "loose"]> (<["instance_id" := IfcString "i-1"]>
       (<["ip_address" := IfcString ipAddr]> ∅));
     DisplayName := "i-1";
     Auth_Alias := Some
       {| Alias_Name := "app-1";
          Alias_Metadata :=
            <["org_id" := "org-1"]> (<["app_id" := "app-1"]>
            (<["space_id" := "space-1"]> ∅)) |};
     TTL := 0; MaxTTL := 0; Period := 0 |}.

Definition looseRenewal (ipAddr : string) : @Request platform :=
  @Build_Request platform looseStore
    (Some {| RemoteAddr := "10.0.0.1/32" |}) (Some (looseAuth ipAddr)).

Definition lenientRenewal (ipAddr : string) : @Request lenientPlatform :=
  @Build_Request lenientPlatform looseStore
    (Some {| RemoteAddr := "10.0.0.1/32" |}) (Some (looseAuth ipAddr)).

(** A configuration with the given bounds of the time window, and one that
    trusts the given authorities. *)
Definition configWindow (maxOld maxAhead : Duration) : Configuration :=
  {| IdentityCACertificates := ["ca-1"]; PCFAPIAddr := "api.live";
     LoginMaxSecOld := maxOld; LoginMaxSecAhead := maxAhead |}.

Definition configTrusting (cas : list string) : Configuration :=
  {| IdentityCACertificates := cas; PCFAPIAddr := "api.live";
     LoginMaxSecOld := 300 * Second; LoginMaxSecAhead := 60 * Second |}.

(** The PCF API at a later time: it answers as before, or it has lost the
    last instance of every app. *)
Definition stillLive (config : Configuration) : option PCFClient * option error :=
  (Some (inventory 1 None), None).

Definition nowIdle (config : Configuration) : option PCFClient * option error :=
  (Some (inventory 0 None), None).

End Faulty.

(** ** Basic facts *)

Section Facts.
Context `{P : Platform}.

Lemma StrListContains_In (l : list string) (v : string) :
  StrListContains l v = true <-> In v l.
Proof.
  induction l as [|x l IH]; simpl.
  - split; [discriminate | tauto].
  - rewrite orb_true_iff, IH, String.eqb_eq. tauto.
Qed.

Lemma meetsBoundConstraints_spec (v : string) (l : list string) :
  meetsBoundConstraints v l = true <-> allowListPasses v l.
Proof.
  unfold meetsBoundConstraints, allowListPasses.
  destruct l as [|x l]; simpl.
  - tauto.
  - rewrite (StrListContains_In (x :: l) v). simpl. split.
    + intros H. right. exact H.
    + intros [H|H]; [discriminate | exact H].
Qed.

Lemma matchesIPAddress_spec (addr : string) (ip : IP) :
  matchesIPAddress addr ip = IP_Equal ip (ParseIP (callerAddress addr)).
Proof. unfold matchesIPAddress, callerAddress. destruct (IP_Equal _ _); reflexivity. Qed.

Lemma validate_nil_cert (config : Configuration) (role : RoleEntry) (addr : string) :
  validate config role None addr = ([], VPanicked).
Proof. reflexivity. Qed.

Lemma validate_passes_iff (config : Configuration) (role : RoleEntry)
    (cert : PCFCertificate) (addr : string) :
  (validate config role (Some cert) addr).2 = Verdict None
  <-> ipRulePasses role cert addr /\ boundsPass role cert /\ inventoryPasses config cert.
Proof.
  unfold ipRulePasses, boundsPass, inventoryPasses.
  rewrite <- !meetsBoundConstraints_spec, <- matchesIPAddress_spec.
  unfold validate. split.
  - intros H.
    repeat (simpl in H;
      match type of H with
      | context [snd (match ?x with _ => _ end)] => destruct x eqn:?
      | context [snd (if ?x then _ else _)] => destruct x eqn:?
      end; simpl in H; try discriminate H).
    repeat match goal with
    | E : negb _ = false |- _ => apply negb_false_iff in E
    | E : String.eqb _ _ = true |- _ => apply String.eqb_eq in E
    | E : (_ <=? _) = false |- _ => apply Z.leb_gt in E
    end.
    split; [|split; [auto|eauto 20]].
    destruct (DisableIPMatching role); [left; reflexivity|right].
    simpl in *. destruct (matchesIPAddress _ _); [reflexivity|discriminate].
  - intros (Hip & (H1 & H2 & H3 & H4) & client & app & org & space
            & Hc & Ha & Hag & Has & Hai & Ho & Hog & Hs & Hsg & Hso).
    assert (Hip' : negb (DisableIPMatching role)
                   && negb (matchesIPAddress addr (IPAddress cert)) = false).
    { destruct Hip as [-> | ->]; [reflexivity | apply andb_false_r]. }
    apply String.eqb_eq in Hag, Has, Hog, Hsg, Hso. apply Z.leb_gt in Hai.
    simpl. rewrite Hip', H1, H2, H3, H4. simpl.
    rewrite Hc, Ha. simpl. rewrite Hag, Has, Hai. simpl.
    rewrite Ho. simpl. rewrite Hog. simpl.
    rewrite Hs. simpl. rewrite Hsg, Hso. reflexivity.
Qed.

Lemma validate_stages (config' : Configuration) (role : RoleEntry)
    (cert : option PCFCertificate) (addr : string) :
  let v := validate config' role cert addr in
  (v.2 = Verdict None /\ v.1 = [ConstraintsChecked; InventoryCrossChecked])
  \/ (v.2 <> Verdict None /\ (v.1 = [] \/ v.1 = [ConstraintsChecked])).
Proof.
  unfold validate. destruct cert as [cert|]; [|right; split; [discriminate|left; reflexivity]].
  repeat (simpl;
    match goal with
    | |- context [snd (match ?x with _ => _ end)] => destruct x eqn:?
    | |- context [snd (if ?x then _ else _)] => destruct x eqn:?
    end; simpl;
    try (right; split; [discriminate | (left; reflexivity) || (right; reflexivity)])).
  left. split; reflexivity.
Qed.

Lemma eqb_empty_false (s : string) : s <> EmptyString -> String.eqb s EmptyString = false.
Proof. apply String.eqb_neq. Qed.

Lemma cidrRulePasses_code (req : Request) (role : RoleEntry) :
  cidrRulePasses req role <->
  (if (0 <? length (TokenBoundCIDRs role))%nat then
     match Req_Connection req with
     | None => true
     | Some conn => negb (RemoteAddrIsOk (RemoteAddr conn) (TokenBoundCIDRs role))
     end
   else false) = false.
Proof.
  unfold cidrRulePasses. destruct (TokenBoundCIDRs role) as [|c l] eqn:E; simpl.
  - split; auto.
  - split.
    + intros [H | (conn & -> & Hok)]; [discriminate|]. rewrite Hok. reflexivity.
    + destruct (Req_Connection req) as [conn|]; [|discriminate].
      intros H. right. exists conn. split; [reflexivity|].
      apply negb_false_iff in H. exact H.
Qed.

Ltac arrive H :=
  let Hrole := fresh "Hrole" in let HgetRole := fresh "HgetRole" in
  let Hcidr := fresh "Hcidr" in let Hsig := fresh "Hsig" in
  let Hcert := fresh "Hcert" in let Hraw := fresh "Hraw" in
  let Hparse := fresh "Hparse" in let Hcfg := fresh "Hcfg" in
  destruct H as (Hrole & HgetRole & Hcidr & Hsig & Hcert & Hraw & Hparse & Hcfg);
  apply eqb_empty_false in Hrole, Hsig, Hcert, Hraw;
  apply cidrRulePasses_code in Hcidr;
  unfold operationLoginUpdate; cbv zeta;
  rewrite Hrole, HgetRole; cbv beta iota;
  rewrite Hcidr, Hsig, Hcert, Hraw, Hparse, Hcfg; cbv beta iota.

Lemma windowAccepts_true (signingTime now : Time) (config' : Configuration) :
  windowAccepts signingTime now config' = true ->
  Time_Before signingTime (Time_Add now (Duration_mul (-1) (LoginMaxSecOld config'))) = false
  /\ Time_After signingTime (Time_Add now (LoginMaxSecAhead config')) = false.
Proof.
  unfold windowAccepts. rewrite andb_true_iff, !negb_true_iff. tauto.
Qed.

(** A call that arrives at the window and is signed before it is answered
    with the message of line 133. *)
Lemma login_too_old (now : Time) (req : Request) (data : gmap string string)
    (role : RoleEntry) (config' : Configuration) (signingTime : Time) :
  arrivesAtWindow req data role config' signingTime ->
  Time_Before signingTime (Time_Add now (Duration_mul (-1) (LoginMaxSecOld config'))) = true ->
  operationLoginUpdate now req data =
    ([ReceivedTime; RoleResolved; CIDRChecked; SignatureExtracted; ConfigResolved],
     Returned (Some (ErrorResponse (tooOldMessage signingTime now config'))) None).
Proof. intros H Hb. arrive H. rewrite Hb. reflexivity. Qed.

(** A call that arrives at the window and is signed after it is answered
    with the message of line 136. *)
Lemma login_too_far (now : Time) (req : Request) (data : gmap string string)
    (role : RoleEntry) (config' : Configuration) (signingTime : Time) :
  arrivesAtWindow req data role config' signingTime ->
  Time_Before signingTime (Time_Add now (Duration_mul (-1) (LoginMaxSecOld config'))) = false ->
  Time_After signingTime (Time_Add now (LoginMaxSecAhead config')) = true ->
  operationLoginUpdate now req data =
    ([ReceivedTime; RoleResolved; CIDRChecked; SignatureExtracted; ConfigResolved],
     Returned (Some (ErrorResponse (tooFarInFutureMessage signingTime now config'))) None).
Proof. intros H Hb Ha. arrive H. rewrite Hb, Ha. reflexivity. Qed.

(** A call that arrives at the verification and whose signature does not
    verify is answered with the text of the verifier's error. *)
Lemma login_signature_invalid (now : Time) (req : Request) (data : gmap string string)
    (role : RoleEntry) (config' : Configuration) (signingTime : Time)
    (intermediateCert identityCert signingCert : option X509) (err : error) :
  arrivesAtVerification now req data role config' signingTime intermediateCert identityCert ->
  signatures_Verify (FieldData_Get data "signature") (signedData data signingTime)
    = (signingCert, Some err) ->
  operationLoginUpdate now req data =
    ([ReceivedTime; RoleResolved; CIDRChecked; SignatureExtracted; ConfigResolved;
      TimeWindowChecked; CertsExtracted],
     Returned (Some (ErrorResponse (Error err))) None).
Proof.
  intros (H & Hw & Hx) Hv. apply windowAccepts_true in Hw as [Hb Ha].
  unfold signedData in Hv. arrive H. rewrite Hb, Ha, Hx. cbv beta iota.
  rewrite Hv. reflexivity.
Qed.

(** A call whose identity is established answers what [validate] decides. *)
Lemma login_after_identity (now : Time) (req : Request) (data : gmap string string)
    (role : RoleEntry) (config' : Configuration) (conn : Connection)
    (cert : PCFCertificate) :
  identityEstablished now req data role config' conn cert ->
  let v := validate config' role (Some cert) (RemoteAddr conn) in
  operationLoginUpdate now req data =
    (take 10 codeOrder ++ v.1 ++ match v.2 with Verdict None => [Issued] | _ => [] end,
     reply v.2 (PopulateTokenAuth role (loginAuth (FieldData_Get data "role") cert))).
Proof.
  intros (signingTime & ic & idc & sc & (H & Hw & Hx) & Hv & Hchain & Hdec & Hconn) v.
  apply windowAccepts_true in Hw as [Hb Ha].
  unfold signedData in Hv. arrive H. rewrite Hb, Ha, Hx. cbv beta iota.
  rewrite Hv. cbv beta iota. rewrite Hchain, Hdec. cbv beta iota. rewrite Hconn.
  fold v. unfold andThen, reach, finish, reply. cbn [fst snd take codeOrder app].
  destruct v as [t [[e|]|]]; reflexivity.
Qed.

(** A call that issues an [Auth] went through every step: its identity is
    established and [validate] found nothing to object. *)
Lemma login_auth_inv (now : Time) (req : Request) (data : gmap string string) :
  issuesAuth (login now req data) = true ->
  exists role config' conn cert,
    identityEstablished now req data role config' conn cert
    /\ (validate config' role (Some cert) (RemoteAddr conn)).2 = Verdict None.
Proof.
  unfold login, operationLoginUpdate. intros H. cbv zeta in H.
  repeat (cbn [fst snd reach finish andThen issuesAuth] in H;
    match type of H with
    | context [snd (match ?x with _ => _ end)] => destruct x eqn:?
    | context [snd (if ?x then _ else _)] => destruct x eqn:?
    end; cbn [fst snd reach finish andThen issuesAuth] in H; try discriminate H).
  match goal with
  | Hr : getRole _ _ = (Some ?r, None), Hc : config _ = (Some ?c, None),
    Hn : Req_Connection req = Some ?c0,
    Hd : NewPCFCertificateFromx509 ?sc = (Some ?p0, None),
    Hp : parseTime _ = (?t, None),
    Hx : ExtractCertificates _ = (?ic, ?idc, None) |- _ =>
      exists r, c, c0, p0; split; [exists t, ic, idc, sc|assumption]
  end.
  unfold arrivesAtVerification, arrivesAtWindow, windowAccepts, signedData.
  repeat match goal with
  | E : String.eqb _ _ = false |- _ => apply String.eqb_neq in E
  end.
  repeat split; try assumption.
  - apply cidrRulePasses_code.
    match goal with Hn : Req_Connection req = Some _ |- _ => rewrite Hn end.
    assumption.
  - apply andb_true_iff. rewrite !negb_true_iff. split; assumption.
Qed.

(** The stages of a call are an initial segment of [codeOrder], and the
    call issues an [Auth] exactly when it completed them all. *)
Lemma login_stages_shape (now : Time) (req : Request) (data : gmap string string) :
  isPrefix (loginStages now req data) codeOrder = true
  /\ (issuesAuth (login now req data) = true <-> loginStages now req data = codeOrder).
Proof.
  unfold login, loginStages, operationLoginUpdate. cbv zeta.
  repeat (cbn [fst snd reach finish issuesAuth];
    match goal with
    | |- context [andThen (validate ?c ?r ?p ?a) _] =>
        let Hs := fresh "Hs" in
        pose proof (validate_stages c r p a) as Hs; cbv zeta in Hs;
        destruct (validate c r p a) as [vt vv]; cbn [fst snd] in Hs;
        unfold andThen; cbn [fst snd];
        destruct Hs as [[-> ->] | [Hne [-> | ->]]];
        [| destruct vv as [[e|]|]; [| congruence |]
         | destruct vv as [[e|]|]; [| congruence |] ]
    | |- context [fst (match ?x with _ => _ end)] => destruct x eqn:?
    | |- context [fst (if ?x then _ else _)] => destruct x eqn:?
    end; cbn [fst snd reach finish issuesAuth app];
    try (split; [reflexivity | split; [discriminate | discriminate]])).
  split; [reflexivity | split; reflexivity].
Qed.

(** A renewal that arrives at the reconstruction answers what [validate]
    decides of the certificate [NewPCFCertificate] hands back, whatever the
    error that comes with it. *)
Lemma renew_after_extraction (req : Request) (config' : Configuration) (role : RoleEntry)
    (auth : Auth) (conn : Connection) (instanceID orgID spaceID appID ipAddr : string) :
  renewalArrives req config' role auth conn instanceID orgID spaceID appID ipAddr ->
  renew req =
    reply (validate config' role
             (NewPCFCertificate instanceID orgID spaceID appID ipAddr).1
             (RemoteAddr conn)).2
          (renewedAuth role auth).
Proof.
  intros (Hcfg & Hauth & (roleName & Hrn & Hrole) & Hid & Hconn).
  unfold renew, pathLoginRenew. rewrite Hcfg, Hauth. cbv beta iota.
  rewrite Hrn. cbv beta iota. rewrite Hrole. cbv beta iota.
  unfold storedIdentity in Hid. unfold renewedAuth.
  destruct (Auth_Alias auth) as [alias|]; [|discriminate].
  destruct (getOrErr "instance_id" _) as [i [e|]]; [discriminate|].
  destruct (getOrErr "org_id" _) as [o [e|]]; [discriminate|].
  destruct (getOrErr "space_id" _) as [sp [e|]]; [discriminate|].
  destruct (getOrErr "app_id" _) as [ap [e|]]; [discriminate|].
  destruct (getOrErr "ip_address" _) as [ip [e|]]; [discriminate|].
  injection Hid as -> -> -> -> ->. rewrite Hconn.
  unfold andThen, reply, finish. cbn [fst snd].
  destruct (validate _ _ _ _) as [t [[e|]|]]; reflexivity.
Qed.

Lemma getOrErr_found_ifc (k v : string) (m : gmap string ifc) :
  getOrErr k (MapIfc m) = (v, None) -> m !! k = Some (IfcString v) /\ v <> EmptyString.
Proof.
  unfold getOrErr. destruct (m !! k) as [[s|]|]; cbn [String.eqb]; try discriminate.
  destruct (String.eqb s EmptyString) eqn:E; [discriminate|].
  intros [= ->]. split; [reflexivity | apply String.eqb_neq, E].
Qed.

Lemma getOrErr_found_str (k v : string) (m : gmap string string) :
  getOrErr k (MapStr m) = (v, None) -> m !! k = Some v.
Proof.
  unfold getOrErr. destruct (m !! k) as [s|]; [|discriminate]. intros [= ->]. reflexivity.
Qed.

Lemma getOrErr_ifc_present (k v : string) (m : gmap string ifc) :
  m !! k = Some (IfcString v) -> v <> EmptyString -> getOrErr k (MapIfc m) = (v, None).
Proof.
  intros H Hv. unfold getOrErr. rewrite H.
  apply String.eqb_neq in Hv. rewrite Hv. reflexivity.
Qed.

Lemma getOrErr_str_present (k v : string) (m : gmap string string) :
  m !! k = Some v -> getOrErr k (MapStr m) = (v, None).
Proof. intros H. unfold getOrErr. rewrite H. reflexivity. Qed.

(** A renewal whose stored metadata lacks a field returns an error. *)
Lemma renew_missing_field (req : Request) (config' : Configuration)
    (auth : Auth) (alias : Alias) :
  config (Req_Storage req) = (Some config', None) ->
  Req_Auth req = Some auth ->
  Auth_Alias auth = Some alias ->
  fieldMissing auth alias ->
  exists err, renew req = Returned None (Some err).
Proof.
  intros Hcfg Hauth Halias Hmiss.
  unfold renew, pathLoginRenew. rewrite Hcfg, Hauth, Halias. cbv beta iota.
  destruct (getOrErr "role" _) as [rn [e|]] eqn:E1; [eexists; reflexivity|].
  destruct (getRole _ _) as [[r|] [e|]]; try (eexists; reflexivity).
  destruct (getOrErr "instance_id" _) as [i [e|]] eqn:E2; [eexists; reflexivity|].
  destruct (getOrErr "ip_address" _) as [ip [e|]] eqn:E3; [eexists; reflexivity|].
  destruct (getOrErr "org_id" _) as [o [e|]] eqn:E4; [eexists; reflexivity|].
  destruct (getOrErr "space_id" _) as [sp [e|]] eqn:E5; [eexists; reflexivity|].
  destruct (getOrErr "app_id" _) as [ap [e|]] eqn:E6; [eexists; reflexivity|].
  exfalso.
  apply getOrErr_found_ifc in E1 as [E1 _], E2 as [E2 _], E3 as [E3 _].
  apply getOrErr_found_str in E4, E5, E6.
  unfold fieldMissing in Hmiss. intuition congruence.
Qed.

Lemma bytes_eqb_eq (a b : list byte) : bytes_eqb a b = true <-> a = b.
Proof.
  revert b. induction a as [|x a IH]; intros [|y b]; simpl; try (split; congruence).
  rewrite andb_true_iff, IH. split.
  - intros [Hxy ->]. apply Byte.byte_dec_bl in Hxy. congruence.
  - intros [= -> ->]. split; [apply Byte.byte_dec_lb|]; reflexivity.
Qed.

(** [IP_Equal] compares the 16-byte forms. *)
Lemma IP_Equal_To16 (a b : IP) : IP_Equal a b = true <-> To16 a = To16 b.
Proof.
  unfold IP_Equal, To16, IPv4len, IPv6len.
  destruct (Nat.eqb_spec (length a) (length b)) as [Hab|Hab].
  - rewrite bytes_eqb_eq, <- Hab.
    destruct (length a =? 4)%nat; [|reflexivity].
    split; [congruence | apply app_inv_head].
  - destruct (Nat.eqb_spec (length a) 4) as [Ha|Ha];
    destruct (Nat.eqb_spec (length b) 4) as [Hb|Hb]; try lia; cbn [andb].
    + destruct (Nat.eqb_spec (length b) 16) as [Hb16|Hb16];
        cbn [andb]; rewrite ?andb_false_r.
      * rewrite andb_true_iff, !bytes_eqb_eq. split.
        -- intros [Ht Hd]. rewrite <- (take_drop 12 b), Ht, Hd. reflexivity.
        -- intros <-. rewrite take_app_length', drop_app_length' by reflexivity. tauto.
      * split; [discriminate|]. intros H. apply (f_equal length) in H.
        rewrite length_app in H. simpl in H. lia.
    + destruct (Nat.eqb_spec (length a) 16) as [Ha16|Ha16]; cbn [andb].
      * rewrite andb_true_iff, !bytes_eqb_eq. split.
        -- intros [Ht Hd]. rewrite <- (take_drop 12 a), Ht, Hd. reflexivity.
        -- intros ->. rewrite take_app_length', drop_app_length' by reflexivity. tauto.
      * split; [discriminate|]. intros H. apply (f_equal length) in H.
        rewrite length_app in H. simpl in H. lia.
    + rewrite ?andb_false_r.
      split; [discriminate | intros H; apply (f_equal length) in H; lia].
Qed.

(** Two addresses that [IP_Equal] identifies compare alike with any other. *)
Lemma IP_Equal_congr (a b x : IP) :
  IP_Equal a b = true -> IP_Equal a x = IP_Equal b x.
Proof.
  intros H. apply IP_Equal_To16 in H.
  destruct (IP_Equal a x) eqn:Ea, (IP_Equal b x) eqn:Eb; try reflexivity.
  - apply IP_Equal_To16 in Ea. rewrite H in Ea. apply IP_Equal_To16 in Ea. congruence.
  - apply IP_Equal_To16 in Eb. rewrite <- H in Eb. apply IP_Equal_To16 in Eb. congruence.
Qed.

Lemma IP_Equal_same_length (a b : IP) :
  length a = length b -> (IP_Equal a b = true <-> a = b).
Proof.
  intros H. unfold IP_Equal. rewrite H, Nat.eqb_refl. apply bytes_eqb_eq.
Qed.

Lemma strings_Split_plain (a : string) :
  hasSlash a = false -> strings_Split a "/" = [a].
Proof.
  induction a as [|c a IH]; simpl; [reflexivity|].
  destruct (Ascii.eqb c "/"); [discriminate|]. simpl. intros H. rewrite (IH H). reflexivity.
Qed.

Lemma callerAddress_strip (a mask : string) :
  hasSlash a = false -> callerAddress (a +:+ String "/" mask) = a.
Proof.
  unfold callerAddress. induction a as [|c a IH]; simpl.
  - reflexivity.
  - destruct (Ascii.eqb c "/"); [discriminate|]. simpl. intros H.
    specialize (IH H). destruct (strings_Split _ _) as [|h t]; simpl in *; congruence.
Qed.

Lemma wrap64_opp (d : Duration) : negatable d -> Duration_mul (-1) d = - d.
Proof.
  unfold negatable, Duration_mul, wrap64. intros H.
  replace (-1 * d + 2 ^ 63) with (2 ^ 63 - d) by lia.
  rewrite Z.mod_small by lia. lia.
Qed.

Lemma windowAccepts_spec (signingTime now : Time) (config' : Configuration) :
  negatable (LoginMaxSecOld config') ->
  windowAccepts signingTime now config' = true <-> inReplayWindow signingTime now config'.
Proof.
  intros H. unfold windowAccepts, inReplayWindow, Time_Before, Time_After, Time_Add.
  rewrite (wrap64_opp _ H), andb_true_iff, !negb_true_iff, !Z.ltb_ge. lia.
Qed.

Lemma validate_ip_mismatch (config' : Configuration) (role : RoleEntry)
    (cert : PCFCertificate) (addr : string) :
  DisableIPMatching role = false ->
  IP_Equal (IPAddress cert) (ParseIP (callerAddress addr)) = false ->
  validate config' role (Some cert) addr = ([], Verdict (Some "no matching IP address")).
Proof.
  intros Hd He. unfold validate. rewrite Hd, matchesIPAddress_spec, He. reflexivity.
Qed.

Lemma ipRulePasses_code (role : RoleEntry) (cert : PCFCertificate) (addr : string) :
  ipRulePasses role cert addr ->
  negb (DisableIPMatching role) && negb (matchesIPAddress addr (IPAddress cert)) = false.
Proof.
  rewrite matchesIPAddress_spec. intros [-> | ->]; [reflexivity | apply andb_false_r].
Qed.

Lemma validate_ip_disabled (config' : Configuration) (role : RoleEntry)
    (cert : PCFCertificate) (addr addr' : string) (ip' : IP) :
  DisableIPMatching role = true ->
  validate config' role (Some cert) addr
  = validate config' role (Some (atAddress cert ip')) addr'.
Proof. intros Hd. unfold validate. rewrite Hd. reflexivity. Qed.

Lemma validate_ip_passed (config' : Configuration) (role : RoleEntry)
    (cert : PCFCertificate) (addr : string) :
  ipRulePasses role cert addr ->
  validate config' role (Some cert) addr
  = validate config' (withoutIPMatching role) (Some cert) addr.
Proof.
  intros H. apply ipRulePasses_code in H. unfold validate. rewrite H. reflexivity.
Qed.

(** Addresses that [IP_Equal] identifies are the same to [validate]. *)
Lemma validate_same_address (config' : Configuration) (role : RoleEntry)
    (cert : PCFCertificate) (addr : string) (ip' : IP) :
  IP_Equal ip' (IPAddress cert) = true ->
  validate config' role (Some (atAddress cert ip')) addr
  = validate config' role (Some cert) addr.
Proof.
  intros H. unfold validate, matchesIPAddress. cbn [atAddress IPAddress InstanceID
    OrgID SpaceID AppID]. rewrite (IP_Equal_congr _ _ _ H). reflexivity.
Qed.

Lemma validate_violation (config' : Configuration) (role : RoleEntry)
    (cert : PCFCertificate) (addr : string) (msg : string) :
  ipRulePasses role cert addr ->
  firstViolation role cert = Some msg ->
  validate config' role (Some cert) addr = ([], Verdict (Some msg)).
Proof.
  intros Hip. apply ipRulePasses_code in Hip. unfold firstViolation, validate.
  rewrite Hip.
  repeat match goal with
  | |- context [negb (meetsBoundConstraints ?v ?l)] =>
      destruct (negb (meetsBoundConstraints v l))
  end; intros [= <-] || discriminate; reflexivity.
Qed.

Lemma firstViolation_none (role : RoleEntry) (cert : PCFCertificate) :
  firstViolation role cert = None <-> boundsPass role cert.
Proof.
  unfold firstViolation, boundsPass. rewrite <- !meetsBoundConstraints_spec.
  repeat match goal with
  | |- context [negb (meetsBoundConstraints ?v ?l)] =>
      destruct (meetsBoundConstraints v l)
  end; cbn [negb]; split; try discriminate; try tauto; intuition discriminate.
Qed.

Lemma validate_no_instances (config' : Configuration) (role : RoleEntry)
    (cert : PCFCertificate) (addr : string) (client : PCFClient) (app : App) :
  ipRulePasses role cert addr ->
  boundsPass role cert ->
  NewPCFClient config' = (Some client, None) ->
  AppByGuid client (AppID cert) = (app, None) ->
  App_Guid app = AppID cert ->
  App_SpaceGuid app = SpaceID cert ->
  App_Instances app <= 0 ->
  validate config' role (Some cert) addr
  = ([ConstraintsChecked], Verdict (Some "app doesn't have any live instances")).
Proof.
  intros Hip (H1 & H2 & H3 & H4) Hc Ha Hg Hs Hi.
  apply ipRulePasses_code in Hip. apply meetsBoundConstraints_spec in H1, H2, H3, H4.
  apply String.eqb_eq in Hg, Hs. apply Z.leb_le in Hi.
  unfold validate. rewrite Hip, H1, H2, H3, H4. cbn [negb]. rewrite Hc, Ha. cbv beta iota.
  rewrite Hg, Hs. cbn [negb]. rewrite Hi. reflexivity.
Qed.

Lemma validate_no_panic (config' : Configuration) (role : RoleEntry)
    (cert : PCFCertificate) (addr : string) :
  NewPCFClient config' <> (None, None) ->
  (validate config' role (Some cert) addr).2 <> VPanicked.
Proof.
  intros Hc. unfold validate.
  repeat (cbn [fst snd reach finish];
    match goal with
    | |- context [snd (match ?x with _ => _ end)] => destruct x eqn:?
    | |- context [snd (if ?x then _ else _)] => destruct x eqn:?
    end; cbn [fst snd reach finish]; try discriminate).
  subst. contradiction.
Qed.

(** A call that issues an [Auth] passed every rule. *)
Lemma login_auth_rules (now : Time) (req : Request)
    (data : gmap string string) :
  issuesAuth (login now req data) = true ->
  exists role config' conn cert,
    identityEstablished now req data role config' conn cert
    /\ ipRulePasses role cert (RemoteAddr conn)
    /\ boundsPass role cert
    /\ inventoryPasses config' cert.
Proof.
  intros H. apply login_auth_inv in H as (role & config' & conn & cert & Hid & Hv).
  apply validate_passes_iff in Hv. exists role, config', conn, cert. tauto.
Qed.

(** The metadata [operationLoginUpdate] stores, read back by [getOrErr]. *)
Lemma loginAuth_stored (roleName : string) (cert : PCFCertificate) (role : RoleEntry) :
  let a := PopulateTokenAuth role (loginAuth roleName cert) in
  InternalData a !! "role" = Some (IfcString roleName)
  /\ InternalData a !! "instance_id" = Some (IfcString (InstanceID cert))
  /\ InternalData a !! "ip_address" = Some (IfcString (IP_String (IPAddress cert)))
  /\ exists alias, Auth_Alias a = Some alias
     /\ Alias_Metadata alias !! "org_id" = Some (OrgID cert)
     /\ Alias_Metadata alias !! "space_id" = Some (SpaceID cert)
     /\ Alias_Metadata alias !! "app_id" = Some (AppID cert).
Proof.
  cbn [PopulateTokenAuth loginAuth InternalData Auth_Alias].
  repeat split; try reflexivity.
  eexists. split; [reflexivity|]. cbn [Alias_Metadata]. repeat split; reflexivity.
Qed.

Lemma NewPCFCertificate_present (instanceID orgID spaceID appID ipAddress : string) :
  instanceID <> EmptyString -> orgID <> EmptyString -> spaceID <> EmptyString ->
  appID <> EmptyString -> ipAddress <> EmptyString -> ParseIP ipAddress <> [] ->
  NewPCFCertificate instanceID orgID spaceID appID ipAddress
  = (Some {| InstanceID := instanceID; OrgID := orgID; SpaceID := spaceID;
             AppID := appID; IPAddress := ParseIP ipAddress |}, None).
Proof.
  intros H1 H2 H3 H4 H5 H6. unfold NewPCFCertificate.
  apply eqb_empty_false in H1, H2, H3, H4, H5. rewrite H1, H2, H3, H4, H5. cbn [orb].
  destruct (ParseIP ipAddress); [contradiction | reflexivity].
Qed.

Lemma isPrefix_app (l m : list Stage) : isPrefix l m = true -> exists k, m = l ++ k.
Proof.
  revert m. induction l as [|x l IH]; intros m H.
  - exists m. reflexivity.
  - destruct m as [|y m]; simpl in H; [discriminate|].
    apply andb_true_iff in H as [Hxy H]. apply bool_decide_eq_true in Hxy. subst y.
    destruct (IH m H) as [k ->]. exists k. reflexivity.
Qed.

(** A call that arrives at the window and that the window accepts completes
    the stage of the window. *)
Lemma login_window_accepted (now : Time) (req : Request) (data : gmap string string)
    (role : RoleEntry) (config' : Configuration) (signingTime : Time) :
  arrivesAtWindow req data role config' signingTime ->
  windowAccepts signingTime now config' = true ->
  exists rest,
    loginStages now req data =
      [ReceivedTime; RoleResolved; CIDRChecked; SignatureExtracted; ConfigResolved;
       TimeWindowChecked] ++ rest.
Proof.
  intros H Hw. apply windowAccepts_true in Hw as [Hb Ha].
  unfold loginStages. arrive H. rewrite Hb, Ha. cbn [fst snd reach app].
  eexists. reflexivity.
Qed.

(** A caller the IP rule does not admit meets the test of line 263. *)
Lemma ipRule_refused (role : RoleEntry) (cert : PCFCertificate) (addr : string) :
  ~ ipRulePasses role cert addr ->
  negb (DisableIPMatching role) && negb (matchesIPAddress addr (IPAddress cert)) = true.
Proof.
  unfold ipRulePasses. rewrite matchesIPAddress_spec. intros H.
  destruct (DisableIPMatching role); [exfalso; apply H; left; reflexivity|].
  destruct (IP_Equal _ _); [exfalso; apply H; right; reflexivity | reflexivity].
Qed.

Lemma allowList_refused (v : string) (l : list string) :
  ~ allowListPasses v l -> meetsBoundConstraints v l = false.
Proof.
  intros H. destruct (meetsBoundConstraints v l) eqn:E; [|reflexivity].
  exfalso. apply H, meetsBoundConstraints_spec, E.
Qed.

(** Once the policy passes, the verdict is the error the inventory fails
    with. *)
Lemma validate_inventory_fails (config' : Configuration) (role : RoleEntry)
    (cert : PCFCertificate) (addr : string) (err : error) :
  ipRulePasses role cert addr ->
  boundsPass role cert ->
  inventoryFails config' cert err ->
  validate config' role (Some cert) addr = ([ConstraintsChecked], Verdict (Some err)).
Proof.
  intros Hip (H1 & H2 & H3 & H4) Hf.
  apply ipRulePasses_code in Hip. apply meetsBoundConstraints_spec in H1, H2, H3, H4.
  unfold validate. rewrite Hip, H1, H2, H3, H4. cbn [negb].
  destruct Hf;
    repeat match goal with
    | H : appAnswers _ _ |- _ => destruct H as (? & ? & ? & ? & ?)
    | H : orgAnswers _ _ |- _ => destruct H as (? & ? & ?)
    end;
    repeat match goal with
    | H : _ = _ :> string |- _ => apply String.eqb_eq in H
    | H : _ <> _ :> string |- _ => apply String.eqb_neq in H
    | H : 0 < _ |- _ => apply Z.leb_gt in H
    | H : _ <= 0 |- _ => apply Z.leb_le in H
    end;
    repeat match goal with
    | H : ?x = _ |- context [?x] => rewrite H; cbv beta iota; cbn [negb]
    end;
    try reflexivity;
    match goal with
    | |- context [match ?c with Some _ => _ | None => _ end] => destruct c; reflexivity
    end.
Qed.

(** When every rule passes, [validate] completes its two stages. *)
Lemma validate_passes (config' : Configuration) (role : RoleEntry)
    (cert : PCFCertificate) (addr : string) :
  ipRulePasses role cert addr ->
  boundsPass role cert ->
  inventoryPasses config' cert ->
  validate config' role (Some cert) addr
  = ([ConstraintsChecked; InventoryCrossChecked], Verdict None).
Proof.
  intros Hip Hb Hinv.
  assert (Hv : (validate config' role (Some cert) addr).2 = Verdict None)
    by (apply validate_passes_iff; tauto).
  destruct (validate_stages config' role (Some cert) addr) as [[_ Hs] | [Hne _]];
    [|contradiction].
  destruct (validate _ _ _ _) as [t v]. cbn [fst snd] in *. congruence.
Qed.

(** The handler follows the course of the specification: a login that stops
    after [n] stages completed the first [n] stages of [codeOrder] and
    answers as the step that failed tells. *)
Lemma login_stops (now : Time) (req : Request) (data : gmap string string)
    (n : nat) (o : outcome) :
  stopsAfter now req data n o ->
  operationLoginUpdate now req data = (take n codeOrder, o).
Proof.
  intros H. destruct H.
  - unfold operationLoginUpdate. cbv zeta. rewrite H. reflexivity.
  - apply eqb_empty_false in H. unfold operationLoginUpdate. cbv zeta.
    rewrite H, H0. destruct role; reflexivity.
  - apply eqb_empty_false in H. unfold operationLoginUpdate. cbv zeta.
    rewrite H, H0. reflexivity.
  - destruct H as [Hrole Hget]. apply eqb_empty_false in Hrole.
    unfold operationLoginUpdate. cbv zeta. rewrite Hrole, Hget. cbv beta iota.
    match goal with
    | |- context [if ?d then finish (Returned None (Some ErrPermissionDenied)) else _] =>
        destruct d eqn:Hd
    end; [reflexivity | exfalso; apply H0, cidrRulePasses_code, Hd].
  - destruct H as ((Hrole & Hget) & Hcidr).
    apply eqb_empty_false in Hrole. apply cidrRulePasses_code in Hcidr.
    unfold operationLoginUpdate. cbv zeta. rewrite Hrole, Hget. cbv beta iota.
    rewrite Hcidr, H0. reflexivity.
  - destruct H as ((Hrole & Hget) & Hcidr).
    apply eqb_empty_false in Hrole, H0. apply cidrRulePasses_code in Hcidr.
    unfold operationLoginUpdate. cbv zeta. rewrite Hrole, Hget. cbv beta iota.
    rewrite Hcidr, H0, H1. reflexivity.
  - destruct H as ((Hrole & Hget) & Hcidr).
    apply eqb_empty_false in Hrole, H0, H1. apply cidrRulePasses_code in Hcidr.
    unfold operationLoginUpdate. cbv zeta. rewrite Hrole, Hget. cbv beta iota.
    rewrite Hcidr, H0, H1, H2. reflexivity.
  - destruct H as (((Hrole & Hget) & Hcidr) & Hsig & Hcert & Hraw).
    apply eqb_empty_false in Hrole, Hsig, Hcert, Hraw. apply cidrRulePasses_code in Hcidr.
    unfold operationLoginUpdate. cbv zeta. rewrite Hrole, Hget. cbv beta iota.
    rewrite Hcidr, Hsig, Hcert, Hraw, H0. reflexivity.
  - destruct H as (((Hrole & Hget) & Hcidr) & Hsig & Hcert & Hraw).
    apply eqb_empty_false in Hrole, Hsig, Hcert, Hraw. apply cidrRulePasses_code in Hcidr.
    unfold operationLoginUpdate. cbv zeta. rewrite Hrole, Hget. cbv beta iota.
    rewrite Hcidr, Hsig, Hcert, Hraw, H0. cbv beta iota. rewrite H1.
    destruct c; reflexivity.
  - destruct H as (((Hrole & Hget) & Hcidr) & Hsig & Hcert & Hraw).
    apply eqb_empty_false in Hrole, Hsig, Hcert, Hraw. apply cidrRulePasses_code in Hcidr.
    unfold operationLoginUpdate. cbv zeta. rewrite Hrole, Hget. cbv beta iota.
    rewrite Hcidr, Hsig, Hcert, Hraw, H0. cbv beta iota. rewrite H1. reflexivity.
  - rewrite (login_too_old now req data role config' t H); [reflexivity|].
    unfold Time_Before, Time_Add. rewrite (wrap64_opp _ H0). apply Z.ltb_lt. lia.
  - rewrite (login_too_far now req data role config' t H); [reflexivity| |];
      unfold Time_Before, Time_After, Time_Add; rewrite ?(wrap64_opp _ H0);
      [apply Z.ltb_ge | apply Z.ltb_lt]; lia.
  - apply windowAccepts_true in H0 as [Hb Ha]. arrive H. rewrite Hb, Ha, H1.
    destruct intermediateCert, identityCert; reflexivity.
  - rewrite (login_signature_invalid now req data role config' t
               intermediateCert identityCert signingCert err H H0). reflexivity.
  - destruct H as (t & (H & Hw & Hx) & Hv). apply windowAccepts_true in Hw as [Hb Ha].
    unfold signedData in Hv. arrive H. rewrite Hb, Ha, Hx. cbv beta iota.
    rewrite Hv. cbv beta iota. rewrite H0. reflexivity.
  - destruct H as (t & (H & Hw & Hx) & Hv). apply windowAccepts_true in Hw as [Hb Ha].
    unfold signedData in Hv. arrive H. rewrite Hb, Ha, Hx. cbv beta iota.
    rewrite Hv. cbv beta iota. rewrite H0, H1. destruct pcfCert; reflexivity.
  - rewrite (login_after_identity now req data role config' conn cert H). cbv zeta.
    apply ipRule_refused in H0.
    replace (validate config' role (Some cert) (RemoteAddr conn))
      with (@nil Stage, Verdict (Some "no matching IP address"))
      by (unfold validate; rewrite H0; reflexivity).
    reflexivity.
  - rewrite (login_after_identity now req data role config' conn cert H). cbv zeta.
    apply allowList_refused in H1.
    rewrite (validate_violation config' role cert (RemoteAddr conn) _ H0)
      by (unfold firstViolation; rewrite H1; reflexivity).
    reflexivity.
  - rewrite (login_after_identity now req data role config' conn cert H). cbv zeta.
    apply meetsBoundConstraints_spec in H1. apply allowList_refused in H2.
    rewrite (validate_violation config' role cert (RemoteAddr conn) _ H0)
      by (unfold firstViolation; rewrite H1, H2; reflexivity).
    reflexivity.
  - rewrite (login_after_identity now req data role config' conn cert H). cbv zeta.
    apply meetsBoundConstraints_spec in H1, H2. apply allowList_refused in H3.
    rewrite (validate_violation config' role cert (RemoteAddr conn) _ H0)
      by (unfold firstViolation; rewrite H1, H2, H3; reflexivity).
    reflexivity.
  - rewrite (login_after_identity now req data role config' conn cert H). cbv zeta.
    apply meetsBoundConstraints_spec in H1, H2, H3. apply allowList_refused in H4.
    rewrite (validate_violation config' role cert (RemoteAddr conn) _ H0)
      by (unfold firstViolation; rewrite H1, H2, H3, H4; reflexivity).
    reflexivity.
  - rewrite (login_after_identity now req data role config' conn cert H). cbv zeta.
    rewrite (validate_inventory_fails config' role cert (RemoteAddr conn) err H0 H1 H2).
    reflexivity.
Qed.

(** A login of which every step passes completes every stage and issues the
    [Auth] of the identity. *)
Lemma login_issues (now : Time) (req : Request) (data : gmap string string)
    (role : RoleEntry) (cert : PCFCertificate) :
  everyStepPasses now req data role cert ->
  operationLoginUpdate now req data
  = (codeOrder,
     Returned (Some (AuthResponse (issuedAuth (FieldData_Get data "role") role cert))) None).
Proof.
  intros (config' & conn & Hid & Hip & Hb & Hinv).
  rewrite (login_after_identity now req data role config' conn cert Hid). cbv zeta.
  rewrite (validate_passes config' role cert (RemoteAddr conn) Hip Hb Hinv). reflexivity.
Qed.

(** A call that arrives at the window, that the window accepts and whose
    later checks pass is one of which every step passes. *)
Lemma laterChecksPass_every (now : Time) (req : Request) (data : gmap string string)
    (role : RoleEntry) (config' : Configuration) (signingTime : Time)
    (cert : PCFCertificate) :
  arrivesAtWindow req data role config' signingTime ->
  windowAccepts signingTime now config' = true ->
  laterChecksPass req data role config' signingTime cert ->
  everyStepPasses now req data role cert.
Proof.
  intros H Hw (ic & idc & sc & conn & Hx & Hv & Hc & Hd & Hconn & Hip & Hb & Hinv).
  exists config', conn. split; [|tauto].
  exists signingTime, ic, idc, sc. unfold arrivesAtVerification, signedData. tauto.
Qed.

(** A renewal at a later time arrives where the renewal arrives now: the
    storage and the connection are the same. *)
Lemma renewalArrives_later (later : Configuration -> option PCFClient * option error)
    (req : Request) (config' : Configuration) (role : RoleEntry) (auth : Auth)
    (conn : Connection) (instanceID orgID spaceID appID ipAddr : string) :
  renewalArrives (withAuth req auth) config' role auth conn
    instanceID orgID spaceID appID ipAddr ->
  @renewalArrives (withInventory later) (laterRenewal later req auth) config' role auth conn
    instanceID orgID spaceID appID ipAddr.
Proof. intros H. exact H. Qed.

(** The [Auth] of a successful login, renewed: the reconstruction arrives,
    with the fields of the identity. *)
Lemma renewalArrives_after_login (now : Time) (req : Request) (data : gmap string string)
    (role : RoleEntry) (config' : Configuration) (conn : Connection)
    (cert : PCFCertificate) :
  identityEstablished now req data role config' conn cert ->
  wellFormedIdentity cert ->
  let a := PopulateTokenAuth role (loginAuth (FieldData_Get data "role") cert) in
  renewalArrives (withAuth req a) config' role a conn
    (InstanceID cert) (OrgID cert) (SpaceID cert) (AppID cert) (IP_String (IPAddress cert)).
Proof.
  intros Hid (Hi & Ho & Hs & Ha & Hip & Hnil & Heq) a.
  pose proof Hid as (signingTime & ic & idc & sc
                     & ((Hrn & Hrole & _ & _ & _ & _ & _ & Hcfg) & _ & _) & _ & _ & _ & Hconn).
  destruct (loginAuth_stored (FieldData_Get data "role") cert role)
    as (Lr & Li & Lip & alias & Lal & Lo & Ls & La).
  fold a in Lr, Li, Lip, Lal.
  unfold renewalArrives, withAuth, storedIdentity.
  cbn [Req_Storage Req_Auth Req_Connection]. rewrite Lal.
  rewrite (getOrErr_ifc_present _ _ _ Li Hi), (getOrErr_str_present _ _ _ Lo),
    (getOrErr_str_present _ _ _ Ls), (getOrErr_str_present _ _ _ La),
    (getOrErr_ifc_present _ _ _ Lip Hip).
  repeat split; try assumption; try reflexivity.
  exists (FieldData_Get data "role"). split; [|exact Hrole].
  apply getOrErr_ifc_present; assumption.
Qed.

End Facts.

(** ** The properties of the specification *)

Section Claims.
Context `{P : Platform}.


(** C2, as amended.  A login call that arrives at the signature verification
    and whose signature does not verify is answered with an error response
    whose text is the text of the verifier's error, and with no [Auth]; the
    handler adds nothing to that text. *)
Theorem signature_failure_reply (now : Time) (req : Request) (data : gmap string string)
    (role : RoleEntry) (config' : Configuration) (signingTime : Time)
    (intermediateCert identityCert signingCert : option X509) (err : error) :
  arrivesAtVerification now req data role config' signingTime intermediateCert identityCert ->
  signatures_Verify (FieldData_Get data "signature") (signedData data signingTime)
    = (signingCert, Some err) ->
  login now req data = Returned (Some (ErrorResponse (Error err))) None.
Proof.
  intros H Hv. unfold login.
  rewrite (login_signature_invalid _ _ _ _ _ _ _ _ _ _ H Hv). reflexivity.
Qed.

(** C4, as amended.  A login performs its steps in the order of
    [codeOrder]: receipt time, role, bound CIDRs, signature, configuration,
    time window, extraction of the certificates, signature verification,
    trust chain, identity, constraints, inventory, issue; the configuration
    is resolved before the time window is checked.  A call one of whose
    steps fails, the steps before it having passed, has completed the stages
    before that step and no other, answers with the error of that step and
    issues no [Auth]: no later step is tried and none is tried again.  A
    call of which every step passes completes every stage and issues the
    [Auth] of the identity.  Whatever the call, its stages are an initial
    segment of the order, none is completed twice, and an [Auth] is issued
    exactly when all are complete. *)
Theorem login_follows_code_order (now : Time) (req : Request) (data : gmap string string) :
  (forall n o,
     stopsAfter now req data n o ->
     login now req data = o
     /\ loginStages now req data = take n codeOrder
     /\ issuesAuth o = false)
  /\ (forall role cert,
        everyStepPasses now req data role cert ->
        login now req data
        = Returned (Some (AuthResponse
            (issuedAuth (FieldData_Get data "role") role cert))) None
        /\ loginStages now req data = codeOrder)
  /\ isPrefix (loginStages now req data) codeOrder = true
  /\ NoDup (loginStages now req data)
  /\ (issuesAuth (login now req data) = true <-> loginStages now req data = codeOrder).
Proof.
  destruct (login_stages_shape now req data) as [Hp Hiff].
  split; [|split; [|split; [exact Hp | split; [|exact Hiff]]]].
  - intros n o H. unfold login, loginStages. rewrite (login_stops now req data n o H).
    split; [reflexivity | split; [reflexivity|]]. destruct H; reflexivity.
  - intros role cert H. unfold login, loginStages.
    rewrite (login_issues now req data role cert H). split; reflexivity.
  - destruct (isPrefix_app _ _ Hp) as [k Hk].
    assert (Hnd : NoDup codeOrder) by (apply (bool_decide_unpack _); vm_compute; exact I).
    rewrite Hk in Hnd. apply NoDup_app in Hnd as [Hnd _]. exact Hnd.
Qed.

(** C5, as amended.  For a login call that arrives at the time window,
    under a configuration whose maximal age is not the least 64-bit integer.
    A signing time before [receipt - max age] is answered with the too-old
    message, and one after [receipt + max skew] that is not before the lower
    bound with the too-far-in-the-future message, each made of the signing
    time, of the receipt time and of the configured bound in seconds.  A
    signing time from [receipt - max age] to [receipt + max skew], both
    included, is accepted: the call goes on to the extraction of the
    certificates, whose error it answers if there is one, and it issues the
    [Auth] of the identity when the checks after the window pass; so it is,
    when the window is not empty, for a signing time at either bound.  An
    [Auth] is issued for no other signing time, and the stage of the window
    is complete for no other. *)
Theorem replay_window_inclusive (now : Time) (req : Request) (data : gmap string string)
    (role : RoleEntry) (config' : Configuration) (signingTime : Time) :
  arrivesAtWindow req data role config' signingTime ->
  negatable (LoginMaxSecOld config') ->
  (signingTime < now - LoginMaxSecOld config' ->
   login now req data
   = Returned (Some (ErrorResponse
       ("request is too old; signed at " +:+ Time_String signingTime
        +:+ " but received request at " +:+ Time_String now
        +:+ "; allowable seconds old is "
        +:+ pretty (Z.quot (LoginMaxSecOld config') 1000000000)))) None)
  /\ (now - LoginMaxSecOld config' <= signingTime ->
      now + LoginMaxSecAhead config' < signingTime ->
      login now req data
      = Returned (Some (ErrorResponse
          ("request is too far in the future; signed at " +:+ Time_String signingTime
           +:+ " but received request at " +:+ Time_String now
           +:+ "; allowable seconds in the future is "
           +:+ pretty (Z.quot (LoginMaxSecAhead config') 1000000000)))) None)
  /\ (now - LoginMaxSecOld config' <= signingTime <= now + LoginMaxSecAhead config' ->
      (forall intermediateCert identityCert err,
         ExtractCertificates (FieldData_Get data "cf_instance_cert")
         = (intermediateCert, identityCert, Some err) ->
         login now req data = Returned (Some (ErrorResponse err)) None)
      /\ (forall cert,
            laterChecksPass req data role config' signingTime cert ->
            login now req data
            = Returned (Some (AuthResponse
                (issuedAuth (FieldData_Get data "role") role cert))) None))
  /\ (- LoginMaxSecOld config' <= LoginMaxSecAhead config' ->
      signingTime = now - LoginMaxSecOld config'
      \/ signingTime = now + LoginMaxSecAhead config' ->
      forall cert,
        laterChecksPass req data role config' signingTime cert ->
        login now req data
        = Returned (Some (AuthResponse
            (issuedAuth (FieldData_Get data "role") role cert))) None)
  /\ (issuesAuth (login now req data) = true ->
      now - LoginMaxSecOld config' <= signingTime <= now + LoginMaxSecAhead config')
  /\ (In TimeWindowChecked (loginStages now req data)
      <-> now - LoginMaxSecOld config' <= signingTime <= now + LoginMaxSecAhead config').
Proof.
  intros H Hneg.
  assert (Hold : signingTime < now - LoginMaxSecOld config' ->
    operationLoginUpdate now req data
    = (take 5 codeOrder,
       Returned (Some (ErrorResponse (tooOldMessage signingTime now config'))) None)).
  { intros Hlt. apply (login_too_old now req data role config' signingTime H).
    unfold Time_Before, Time_Add. rewrite (wrap64_opp _ Hneg). apply Z.ltb_lt. lia. }
  assert (Hnew : now - LoginMaxSecOld config' <= signingTime ->
    now + LoginMaxSecAhead config' < signingTime ->
    operationLoginUpdate now req data
    = (take 5 codeOrder,
       Returned (Some (ErrorResponse (tooFarInFutureMessage signingTime now config'))) None)).
  { intros Hge Hlt. apply (login_too_far now req data role config' signingTime H);
      unfold Time_Before, Time_After, Time_Add; rewrite ?(wrap64_opp _ Hneg);
      [apply Z.ltb_ge | apply Z.ltb_lt]; lia. }
  assert (Hin : now - LoginMaxSecOld config' <= signingTime <= now + LoginMaxSecAhead config'
                -> windowAccepts signingTime now config' = true).
  { intros Hw. apply (windowAccepts_spec _ _ _ Hneg). exact Hw. }
  assert (Hpass : now - LoginMaxSecOld config' <= signingTime <= now + LoginMaxSecAhead config'
    -> forall cert,
       laterChecksPass req data role config' signingTime cert ->
       login now req data
       = Returned (Some (AuthResponse
           (issuedAuth (FieldData_Get data "role") role cert))) None).
  { intros Hw cert Hl. unfold login.
    rewrite (login_issues now req data role cert
               (laterChecksPass_every now req data role config' signingTime cert
                  H (Hin Hw) Hl)).
    reflexivity. }
  assert (Hout : ~ (now - LoginMaxSecOld config' <= signingTime
                    <= now + LoginMaxSecAhead config') ->
    exists text,
      operationLoginUpdate now req data
      = (take 5 codeOrder, Returned (Some (ErrorResponse text)) None)).
  { intros Hno.
    destruct (Z.lt_ge_cases signingTime (now - LoginMaxSecOld config')) as [Hlt|Hge].
    - eexists. exact (Hold Hlt).
    - eexists. apply (Hnew Hge). lia. }
  split; [|split; [|split; [|split; [|split]]]].
  - intros Hlt. unfold login. rewrite (Hold Hlt). reflexivity.
  - intros Hge Hlt. unfold login. rewrite (Hnew Hge Hlt). reflexivity.
  - intros Hw. split; [|exact (Hpass Hw)].
    intros ic idc err Hx. unfold login.
    rewrite (login_stops now req data 6 _
               (ExtractionFails now req data role config' signingTime ic idc err
                  H (Hin Hw) Hx)).
    reflexivity.
  - intros Hwin Hb. apply Hpass. lia.
  - intros Hi.
    destruct (Z.lt_ge_cases signingTime (now - LoginMaxSecOld config')) as [Hlt|Hge];
      [|destruct (Z.lt_ge_cases (now + LoginMaxSecAhead config') signingTime) as [Hlt|Hle]].
    + unfold login in Hi. rewrite (Hold Hlt) in Hi. discriminate Hi.
    + unfold login in Hi. rewrite (Hnew Hge Hlt) in Hi. discriminate Hi.
    + split; assumption.
  - split.
    + intros Hi.
      destruct (Z.lt_ge_cases signingTime (now - LoginMaxSecOld config')) as [Hlt|Hge];
        [|destruct (Z.lt_ge_cases (now + LoginMaxSecAhead config') signingTime)
            as [Hlt|Hle]].
      * unfold loginStages in Hi. rewrite (Hold Hlt) in Hi.
        simpl in Hi. intuition discriminate.
      * unfold loginStages in Hi. rewrite (Hnew Hge Hlt) in Hi.
        simpl in Hi. intuition discriminate.
      * split; assumption.
    + intros Hw. destruct (login_window_accepted now _ _ _ _ _ H (Hin Hw)) as [rest ->].
      simpl. tauto.
Qed.

(** C6.  The IP rule of [validate], which login and renewal both run.  With
    IP matching enabled, a caller whose address, cut at its first slash, is
    not the address of the certificate is refused with the IP-mismatch
    error, at login and at renewal; a caller whose address is that of the
    certificate passes the rule, the verdict being the one of the remaining
    checks; with IP matching disabled the verdict depends neither on the
    caller's address nor on the one of the certificate.  Cutting at the
    slash removes a subnet-mask suffix and leaves a plain address as it is.
    Two addresses are the same when their 16-byte forms are equal, that is,
    for addresses of one length, when they are equal byte for byte. *)
Theorem ip_matching_rule (config' : Configuration) (role : RoleEntry)
    (cert : PCFCertificate) (addr : string) :
  (DisableIPMatching role = false ->
   IP_Equal (IPAddress cert) (ParseIP (callerAddress addr)) = false ->
   (validate config' role (Some cert) addr).2 = Verdict (Some "no matching IP address")
   /\ (forall now req data conn,
         identityEstablished now req data role config' conn cert ->
         RemoteAddr conn = addr ->
         login now req data
         = Returned (Some (ErrorResponse "no matching IP address")) None)
   /\ (forall req auth conn instanceID orgID spaceID appID ipAddr,
         renewalArrives req config' role auth conn instanceID orgID spaceID appID ipAddr ->
         (NewPCFCertificate instanceID orgID spaceID appID ipAddr).1 = Some cert ->
         RemoteAddr conn = addr ->
         renew req = Returned (Some (ErrorResponse "no matching IP address")) None))
  /\ (DisableIPMatching role = false ->
      IP_Equal (IPAddress cert) (ParseIP (callerAddress addr)) = true ->
      validate config' role (Some cert) addr
      = validate config' (withoutIPMatching role) (Some cert) addr)
  /\ (DisableIPMatching role = true ->
      forall addr' ip',
        validate config' role (Some cert) addr
        = validate config' role (Some (atAddress cert ip')) addr')
  /\ (forall a mask, hasSlash a = false ->
        callerAddress (a +:+ String "/" mask) = a /\ callerAddress a = a)
  /\ (forall ip x : IP,
        (IP_Equal ip x = true <-> To16 ip = To16 x)
        /\ (length ip = length x -> (IP_Equal ip x = true <-> ip = x))).
Proof.
  split; [|split; [|split; [|split]]];
    [| | | | intros ip x; split; [apply IP_Equal_To16 | apply IP_Equal_same_length]].
  - intros Hd He. pose proof (validate_ip_mismatch config' role cert addr Hd He) as Hv.
    split; [rewrite Hv; reflexivity | split].
    + intros now req data conn Hid <-. unfold login.
      rewrite (login_after_identity _ _ _ _ _ _ _ Hid). cbn [snd]. rewrite Hv. reflexivity.
    + intros req auth conn i o sp ap ip Harr Hc <-.
      rewrite (renew_after_extraction _ _ _ _ _ _ _ _ _ _ Harr), Hc, Hv. reflexivity.
  - intros _ He. apply validate_ip_passed. right. exact He.
  - intros Hd addr' ip'. apply validate_ip_disabled. exact Hd.
  - intros a mask Ha. split; [apply callerAddress_strip, Ha|].
    unfold callerAddress. rewrite (strings_Split_plain _ Ha). reflexivity.
Qed.

(** C7, as amended.  An empty allow-list leaves its field unrestricted, and
    a non-empty one admits exactly the values that are among its elements.
    A login call issues no [Auth] unless the instance, app, org and space
    IDs of the identity pass the allow-lists of the role.  Once the identity
    of a call is established and the IP rule passes, login fails with the
    constraint violation naming the first field, in the order instance, app,
    org, space, whose allow-list lacks the value of the identity. *)
Theorem bound_allow_lists (now : Time) (req : Request) (data : gmap string string) :
  (forall value allowList,
     meetsBoundConstraints value [] = true
     /\ (allowList <> [] ->
         (meetsBoundConstraints value allowList = true <-> In value allowList)))
  /\ (issuesAuth (login now req data) = true ->
      exists role config' conn cert,
        identityEstablished now req data role config' conn cert /\ boundsPass role cert)
  /\ (forall role config' conn cert message,
        identityEstablished now req data role config' conn cert ->
        ipRulePasses role cert (RemoteAddr conn) ->
        firstViolation role cert = Some message ->
        login now req data = Returned (Some (ErrorResponse message)) None).
Proof.
  split; [|split].
  - intros value allowList. split; [reflexivity|]. intros Hne.
    rewrite meetsBoundConstraints_spec. unfold allowListPasses. tauto.
  - intros H. apply login_auth_rules in H
      as (role & config' & conn & cert & Hid & _ & Hb & _).
    exists role, config', conn, cert. tauto.
  - intros role config' conn cert message Hid Hip Hv. unfold login.
    rewrite (login_after_identity _ _ _ _ _ _ _ Hid). cbn [snd].
    rewrite (validate_violation _ _ _ _ _ Hip Hv). reflexivity.
Qed.

(** C8.  The inventory cross-check fails closed.  Whenever a lookup answers
    with an error, or with a record whose guid is not the one asked for, or
    the app is not in the space of the certificate, or the space not in its
    org, or the app has no live instance, [validate] does not pass, so that
    neither login nor renewal goes through; when the API client exists the
    call is answered with an error response.  An app without a live
    instance, everything before it passing, is answered with the message
    that the app has no live instances. *)
Theorem inventory_fails_closed (config' : Configuration) (role : RoleEntry)
    (cert : PCFCertificate) (addr : string) :
  ~ inventoryPasses config' cert ->
  (validate config' role (Some cert) addr).2 <> Verdict None
  /\ (NewPCFClient config' <> (None, None) ->
      exists err, (validate config' role (Some cert) addr).2 = Verdict (Some err))
  /\ (forall now req data conn,
        identityEstablished now req data role config' conn cert ->
        RemoteAddr conn = addr ->
        issuesAuth (login now req data) = false
        /\ (NewPCFClient config' <> (None, None) ->
            exists err, login now req data = Returned (Some (ErrorResponse err)) None))
  /\ (forall client app,
        ipRulePasses role cert addr ->
        boundsPass role cert ->
        NewPCFClient config' = (Some client, None) ->
        AppByGuid client (AppID cert) = (app, None) ->
        App_Guid app = AppID cert ->
        App_SpaceGuid app = SpaceID cert ->
        App_Instances app <= 0 ->
        (validate config' role (Some cert) addr).2
        = Verdict (Some "app doesn't have any live instances")
        /\ forall now req data conn,
             identityEstablished now req data role config' conn cert ->
             RemoteAddr conn = addr ->
             login now req data
             = Returned (Some (ErrorResponse "app doesn't have any live instances")) None).
Proof.
  intros Hinv.
  assert (Hnp : (validate config' role (Some cert) addr).2 <> Verdict None).
  { intros Hv. apply validate_passes_iff in Hv. tauto. }
  assert (Herr : NewPCFClient config' <> (None, None) ->
    exists err, (validate config' role (Some cert) addr).2 = Verdict (Some err)).
  { intros Hc. pose proof (validate_no_panic config' role cert addr Hc) as Hpanic.
    destruct (validate config' role (Some cert) addr).2 as [[e|]|];
      [eexists; reflexivity | congruence | congruence]. }
  split; [exact Hnp | split; [exact Herr | split]].
  - intros now req data conn Hid <-. unfold login.
    rewrite (login_after_identity _ _ _ _ _ _ _ Hid). cbn [snd]. split.
    + destruct (validate config' role (Some cert) (RemoteAddr conn)).2 as [[e|]|];
        [reflexivity | congruence | reflexivity].
    + intros Hc. destruct (Herr Hc) as [e ->]. eexists. reflexivity.
  - intros client app Hip Hb Hc Ha Hg Hs Hi.
    pose proof (validate_no_instances _ _ _ _ _ _ Hip Hb Hc Ha Hg Hs Hi) as Hv.
    split; [rewrite Hv; reflexivity|].
    intros now req data conn Hid <-. unfold login.
    rewrite (login_after_identity _ _ _ _ _ _ _ Hid). cbn [snd]. rewrite Hv. reflexivity.
Qed.

(** C10.  A login call against a role with bound CIDRs, made by a request
    without connection information, is refused with permission denied: the
    CIDR check is not skipped. *)
Theorem login_without_connection_denied (now : Time) (req : Request)
    (data : gmap string string) (role : RoleEntry) :
  FieldData_Get data "role" <> EmptyString ->
  getRole (Req_Storage req) (FieldData_Get data "role") = (Some role, None) ->
  TokenBoundCIDRs role <> [] ->
  Req_Connection req = None ->
  login now req data = Returned None (Some ErrPermissionDenied).
Proof.
  intros Hrole Hget Hcidr Hconn. apply eqb_empty_false in Hrole.
  unfold login, operationLoginUpdate. cbv zeta. rewrite Hrole, Hget. cbv beta iota.
  rewrite Hconn. destruct (TokenBoundCIDRs role); [contradiction|]. reflexivity.
Qed.

(** C9.  The metadata a successful login stores reads back, at renewal, as
    the identity the login validated: [getOrErr] returns the role name and
    the instance, org, space and app IDs and the text of the IP address of
    the certificate, and the identity rebuilt from them has the same four
    IDs and the same address, so that renewal decides for it what
    [validate] decides for the identity that logged in. *)
Theorem metadata_round_trip (now : Time) (req : Request) (data : gmap string string)
    (role : RoleEntry) (config' : Configuration) (conn : Connection)
    (cert : PCFCertificate) (a : Auth) :
  identityEstablished now req data role config' conn cert ->
  login now req data = Returned (Some (AuthResponse a)) None ->
  wellFormedIdentity cert ->
  getOrErr "role" (MapIfc (InternalData a)) = (FieldData_Get data "role", None)
  /\ storedIdentity a
     = Some (InstanceID cert, OrgID cert, SpaceID cert, AppID cert,
             IP_String (IPAddress cert))
  /\ exists cert',
       NewPCFCertificate (InstanceID cert) (OrgID cert) (SpaceID cert) (AppID cert)
         (IP_String (IPAddress cert)) = (Some cert', None)
       /\ InstanceID cert' = InstanceID cert /\ AppID cert' = AppID cert
       /\ OrgID cert' = OrgID cert /\ SpaceID cert' = SpaceID cert
       /\ IP_Equal (IPAddress cert') (IPAddress cert) = true
       /\ (ParseIP (IP_String (IPAddress cert)) = IPAddress cert -> cert' = cert)
       /\ (forall config2 role2 addr,
             validate config2 role2 (Some cert') addr
             = validate config2 role2 (Some cert) addr)
       /\ (forall req2 config2 role2 conn2,
             config (Req_Storage req2) = (Some config2, None) ->
             Req_Auth req2 = Some a ->
             getRole (Req_Storage req2) (FieldData_Get data "role") = (Some role2, None) ->
             Req_Connection req2 = Some conn2 ->
             renew req2
             = reply (validate config2 role2 (Some cert) (RemoteAddr conn2)).2
                     (renewedAuth role2 a)).
Proof.
  intros Hid Hlogin (Hi & Ho & Hs & Ha & Hip & Hnil & Heq).
  assert (Hrn : FieldData_Get data "role" <> EmptyString).
  { destruct Hid as (? & ? & ? & ? & ((Hr & _) & _) & _). exact Hr. }
  unfold login in Hlogin. rewrite (login_after_identity _ _ _ _ _ _ _ Hid) in Hlogin.
  cbn [snd] in Hlogin.
  destruct (validate config' role (Some cert) (RemoteAddr conn)).2 as [[e|]|];
    try discriminate Hlogin.
  injection Hlogin as <-.
  destruct (loginAuth_stored (FieldData_Get data "role") cert role)
    as (Lr & Li & Lip & alias & Lal & Lo & Ls & La).
  assert (Hrole : getOrErr "role" (MapIfc (InternalData
            (PopulateTokenAuth role (loginAuth (FieldData_Get data "role") cert))))
          = (FieldData_Get data "role", None))
    by (apply getOrErr_ifc_present; assumption).
  assert (Hstored : storedIdentity
            (PopulateTokenAuth role (loginAuth (FieldData_Get data "role") cert))
          = Some (InstanceID cert, OrgID cert, SpaceID cert, AppID cert,
                  IP_String (IPAddress cert))).
  { unfold storedIdentity. rewrite Lal.
    rewrite (getOrErr_ifc_present _ _ _ Li Hi), (getOrErr_str_present _ _ _ Lo),
      (getOrErr_str_present _ _ _ Ls), (getOrErr_str_present _ _ _ La),
      (getOrErr_ifc_present _ _ _ Lip Hip). reflexivity. }
  pose proof (NewPCFCertificate_present _ _ _ _ _ Hi Ho Hs Ha Hip Hnil) as Hnew.
  split; [exact Hrole | split; [exact Hstored|]].
  eexists. split; [exact Hnew|]. cbn [InstanceID AppID OrgID SpaceID IPAddress].
  repeat split; try reflexivity.
  - exact Heq.
  - intros ->. destruct cert; reflexivity.
  - intros config2 role2 addr.
    apply (validate_same_address config2 role2 cert addr _ Heq).
  - intros req2 config2 role2 conn2 Hc2 Ha2 Hr2 Hn2.
    assert (Harr : renewalArrives req2 config2 role2
              (PopulateTokenAuth role (loginAuth (FieldData_Get data "role") cert)) conn2
              (InstanceID cert) (OrgID cert) (SpaceID cert) (AppID cert)
              (IP_String (IPAddress cert))).
    { unfold renewalArrives. repeat split; try assumption.
      exists (FieldData_Get data "role"). split; assumption. }
    rewrite (renew_after_extraction _ _ _ _ _ _ _ _ _ _ Harr), Hnew. cbn [fst].
    rewrite (validate_same_address config2 role2 cert (RemoteAddr conn2) _ Heq).
    reflexivity.
Qed.

(** C3.  The error of the identity constructor is lost at renewal.  For a
    renewal whose six stored fields are found, whatever the error [err]
    that [NewPCFCertificate] returns for the five identity strings, the
    handler never reads it (line 251 declares a new one) and goes on with
    the pointer that came with it: with a nil pointer it panics; with a
    certificate it runs [validate] on it, and issues the [Auth] when the
    rules pass.  In no case does the renewal return an error: a stored
    value the constructor refuses is not reported. *)
Theorem renewal_drops_identity_error (req : Request) (config' : Configuration)
    (role : RoleEntry) (auth : Auth) (conn : Connection)
    (instanceID orgID spaceID appID ipAddr : string)
    (pcfCert : option PCFCertificate) (err : option error) :
  renewalArrives req config' role auth conn instanceID orgID spaceID appID ipAddr ->
  NewPCFCertificate instanceID orgID spaceID appID ipAddr = (pcfCert, err) ->
  (pcfCert = None -> renew req = Panicked)
  /\ (forall cert,
        pcfCert = Some cert ->
        ipRulePasses role cert (RemoteAddr conn) ->
        boundsPass role cert ->
        inventoryPasses config' cert ->
        renew req
        = Returned (Some (AuthResponse
            {| InternalData := InternalData auth;
               DisplayName := DisplayName auth;
               Auth_Alias := Auth_Alias auth;
               TTL := TokenTTL role;
               MaxTTL := TokenMaxTTL role;
               Period := TokenPeriod role |})) None)
  /\ (forall resp e, renew req <> Returned resp (Some e)).
Proof.
  intros Harr Hnew.
  pose proof (renew_after_extraction _ _ _ _ _ _ _ _ _ _ Harr) as Hr.
  rewrite Hnew in Hr. cbn [fst] in Hr. split; [|split].
  - intros ->. rewrite Hr. reflexivity.
  - intros cert -> Hip Hb Hinv. rewrite Hr.
    rewrite (validate_passes config' role cert (RemoteAddr conn) Hip Hb Hinv). reflexivity.
  - intros resp e. rewrite Hr.
    destruct (validate _ _ _ _).2 as [[e'|]|]; discriminate.
Qed.

End Claims.

(** ** The handlers at work on the test double *)

Section Scenarios.

Import Testbed.

#[local] Existing Instance platform.

Ltac settle :=
  repeat match goal with
  | |- _ /\ _ => split
  | |- cidrRulePasses _ _ => left; reflexivity
  | |- _ <> _ => vm_compute; discriminate
  | |- _ = _ => vm_compute; reflexivity
  end.

Lemma liveRequest_established :
  identityEstablished receipt liveRequest goodPayload openRole
    (configAt "api.live") {| RemoteAddr := "10.0.0.1/32" |} identityA.
Proof.
  exists (1000 * Second), None, (Some certA), (Some certA).
  unfold arrivesAtVerification, arrivesAtWindow. settle.
Defined.

(** The scenario of the specification: everything valid, signed at the
    instant of receipt, open role, one live instance. *)
Example good_login_succeeds :
  login receipt liveRequest goodPayload = Returned (Some (AuthResponse goodAuth)) None.
Proof. vm_compute. reflexivity. Qed.

(** The same with an honest renewal of the session it opened. *)
Example good_renewal_succeeds :
  renew (renewalRequest "10.0.0.1")
  = Returned (Some (AuthResponse (renewedAuth openRole (storedAuth "10.0.0.1")))) None.
Proof. vm_compute. reflexivity. Qed.

(** C2 fails as stated.  A request whose signing time was changed after
    signing, so that its signature no longer verifies, is answered with the
    policy error of the time window, which tells both instants and the
    bound; one whose certificate text was changed is answered with the
    input error of the certificate extraction. *)
Lemma tampered_request_gets_policy_or_input_error :
  (let data := <["signing_time" := "600"]> goodPayload in
   signatures_Verify (FieldData_Get data "signature") (signedData data (600 * Second))
   = (None, Some "signature does not match the signed data")
   /\ login receipt liveRequest data
      = Returned (Some (ErrorResponse
          "request is too old; signed at 600000000000 but received request at 1000000000000; allowable seconds old is 300"))
          None)
  /\ (let data := <["cf_instance_cert" := "CERT-X"]> goodPayload in
      signatures_Verify (FieldData_Get data "signature") (signedData data (1000 * Second))
      = (None, Some "no identity certificate")
      /\ login receipt liveRequest data
         = Returned (Some (ErrorResponse "no certificates found")) None).
Proof. vm_compute. repeat split; reflexivity. Qed.

Lemma signature_failure_reply_witness :
  login receipt liveRequest (payload "web" "CERT-A" "1000" "key-b")
  = Returned (Some (ErrorResponse "signature does not match the signed data")) None.
Proof.
  apply (signature_failure_reply receipt liveRequest (payload "web" "CERT-A" "1000" "key-b")
           openRole (configAt "api.live") (1000 * Second) None (Some certA) None
           "signature does not match the signed data").
  - unfold arrivesAtVerification, arrivesAtWindow. settle.
  - vm_compute. reflexivity.
Defined.

(** C3 at work.  The stored address does not parse and the role of the
    session does not match addresses.  [getOrErr] finds the six fields,
    [NewPCFCertificate] refuses the identity, and the handler goes on
    without reading that error.  Where the constructor hands back a nil
    pointer with its error, the renewal panics in [validate]; where it hands
    back the certificate it built, the renewal succeeds. *)
Lemma renewal_drops_identity_error_witness :
  @renew platform (Faulty.looseRenewal "not-an-ip") = Panicked
  /\ @renew Faulty.lenientPlatform (Faulty.lenientRenewal "not-an-ip")
     = Returned (Some (AuthResponse
         (renewedAuth Faulty.looseRole (Faulty.looseAuth "not-an-ip")))) None.
Proof.
  split.
  - refine (proj1 (@renewal_drops_identity_error platform
              (Faulty.looseRenewal "not-an-ip") (configAt "api.live") Faulty.looseRole
              (Faulty.looseAuth "not-an-ip") {| RemoteAddr := "10.0.0.1/32" |}
              "i-1" "org-1" "space-1" "app-1" "not-an-ip" None (Some "IdentityFieldMissing")
              _ _) eq_refl).
    + unfold renewalArrives. repeat split; try reflexivity.
      exists "loose". split; reflexivity.
    + vm_compute. reflexivity.
  - refine (proj1 (proj2 (@renewal_drops_identity_error Faulty.lenientPlatform
              (Faulty.lenientRenewal "not-an-ip") (configAt "api.live") Faulty.looseRole
              (Faulty.looseAuth "not-an-ip") {| RemoteAddr := "10.0.0.1/32" |}
              "i-1" "org-1" "space-1" "app-1" "not-an-ip"
              (Some {| InstanceID := "i-1"; OrgID := "org-1"; SpaceID := "space-1";
                       AppID := "app-1"; IPAddress := [] |})
              (Some "IdentityFieldMissing") _ _)) _ eq_refl _ _ _).
    + unfold renewalArrives. repeat split; try reflexivity.
      exists "loose". split; reflexivity.
    + vm_compute. reflexivity.
    + left. reflexivity.
    + repeat split; left; reflexivity.
    + exists (inventory 1 None),
        {| App_Guid := "app-1"; App_SpaceGuid := "space-1"; App_Instances := 1 |},
        {| Org_Guid := "org-1" |},
        {| Space_Guid := "space-1"; Space_OrganizationGuid := "org-1" |}.
      repeat split; reflexivity.
Defined.

(** Under a role that matches addresses, the same stored address is refused
    by the IP rule where the constructor hands back its certificate, and the
    renewal panics where it hands back a nil pointer. *)
Example renewal_of_unparsable_address_under_matching_role :
  @renew Faulty.lenientPlatform
    (@Build_Request Faulty.lenientPlatform (storeWith (Some (configAt "api.live")))
       (Some {| RemoteAddr := "10.0.0.1/32" |}) (Some (storedAuth "not-an-ip")))
  = Returned (Some (ErrorResponse "no matching IP address")) None
  /\ @renew platform (renewalRequest "not-an-ip") = Panicked.
Proof. vm_compute. split; reflexivity. Qed.

(** C4 fails as stated.  The login that succeeds completes its stages in an
    order other than the listed one: it resolves the configuration before it
    checks the time window.  Accordingly a request signed outside any window
    and made while no configuration is stored is answered with the error of
    the configuration. *)
Lemma login_resolves_configuration_before_window :
  issuesAuth (login receipt liveRequest goodPayload) = true
  /\ loginStages receipt liveRequest goodPayload <> specOrder
  /\ login receipt (requestFrom (Some "10.0.0.1/32") None)
       (payload "web" "CERT-A" "1" "key-a")
     = Returned None (Some "no CA is configured for verifying client certificates").
Proof. vm_compute. repeat split; try reflexivity. discriminate. Qed.

(** The course at work: a certificate text that does not extract is
    answered with the error of the extraction although the signature would
    not verify either; a certificate of an authority the configuration does
    not trust is answered with the error of the chain, once the signature
    has verified; a request signed outside any window and made while no
    configuration is stored is answered with the error of the
    configuration; and the good login completes every stage. *)
Lemma login_follows_code_order_witness :
  (login receipt liveRequest (<["cf_instance_cert" := "CERT-X"]> goodPayload)
   = Returned (Some (ErrorResponse "no certificates found")) None
   /\ loginStages receipt liveRequest (<["cf_instance_cert" := "CERT-X"]> goodPayload)
      = [ReceivedTime; RoleResolved; CIDRChecked; SignatureExtracted; ConfigResolved;
         TimeWindowChecked])
  /\ (login receipt (requestFrom (Some "10.0.0.1/32") (Some (Faulty.configTrusting ["ca-2"])))
        goodPayload
      = Returned (Some (ErrorResponse "certificate signed by unknown authority")) None
      /\ loginStages receipt
           (requestFrom (Some "10.0.0.1/32") (Some (Faulty.configTrusting ["ca-2"])))
           goodPayload
         = [ReceivedTime; RoleResolved; CIDRChecked; SignatureExtracted; ConfigResolved;
            TimeWindowChecked; CertsExtracted; SignatureVerified])
  /\ (login receipt (requestFrom (Some "10.0.0.1/32") None)
        (payload "web" "CERT-A" "1" "key-a")
      = Returned None (Some "no CA is configured for verifying client certificates")
      /\ loginStages receipt (requestFrom (Some "10.0.0.1/32") None)
           (payload "web" "CERT-A" "1" "key-a")
         = [ReceivedTime; RoleResolved; CIDRChecked; SignatureExtracted])
  /\ (login receipt liveRequest goodPayload
      = Returned (Some (AuthResponse (issuedAuth "web" openRole identityA))) None
      /\ loginStages receipt liveRequest goodPayload
         = [ReceivedTime; RoleResolved; CIDRChecked; SignatureExtracted; ConfigResolved;
            TimeWindowChecked; CertsExtracted; SignatureVerified; ChainValidated;
            IdentityDecoded; ConstraintsChecked; InventoryCrossChecked; Issued]).
Proof.
  split; [|split; [|split]].
  - destruct (login_follows_code_order receipt liveRequest
                (<["cf_instance_cert" := "CERT-X"]> goodPayload)) as [Hstop _].
    destruct (Hstop 6%nat _
                (ExtractionFails receipt liveRequest
                   (<["cf_instance_cert" := "CERT-X"]> goodPayload)
                   openRole (configAt "api.live") (1000 * Second) None None
                   "no certificates found"
                   ltac:(unfold arrivesAtWindow; settle) eq_refl eq_refl))
      as (H1 & H2 & _).
    split; [exact H1 | exact H2].
  - destruct (login_follows_code_order receipt
                (requestFrom (Some "10.0.0.1/32") (Some (Faulty.configTrusting ["ca-2"])))
                goodPayload) as [Hstop _].
    destruct (Hstop 8%nat _
                (ChainFails receipt
                   (requestFrom (Some "10.0.0.1/32") (Some (Faulty.configTrusting ["ca-2"])))
                   goodPayload openRole (Faulty.configTrusting ["ca-2"])
                   None (Some certA) (Some certA)
                   "certificate signed by unknown authority"
                   ltac:(exists (1000 * Second);
                         unfold arrivesAtVerification, arrivesAtWindow; settle)
                   eq_refl))
      as (H1 & H2 & _).
    split; [exact H1 | exact H2].
  - destruct (login_follows_code_order receipt (requestFrom (Some "10.0.0.1/32") None)
                (payload "web" "CERT-A" "1" "key-a")) as [Hstop _].
    destruct (Hstop 4%nat _
                (NoConfiguration receipt (requestFrom (Some "10.0.0.1/32") None)
                   (payload "web" "CERT-A" "1" "key-a") openRole (1 * Second)
                   ltac:(unfold arrivesAtParse, arrivesAtFields, roleResolved; settle)
                   eq_refl eq_refl))
      as (H1 & H2 & _).
    split; [exact H1 | exact H2].
  - destruct (login_follows_code_order receipt liveRequest goodPayload) as (_ & Hpass & _).
    apply (Hpass openRole identityA).
    exists (configAt "api.live"), {| RemoteAddr := "10.0.0.1/32" |}.
    split; [exact liveRequest_established | split; [right; reflexivity | split]].
    + repeat split; left; reflexivity.
    + exists (inventory 1 None),
        {| App_Guid := "app-1"; App_SpaceGuid := "space-1"; App_Instances := 1 |},
        {| Org_Guid := "org-1" |},
        {| Space_Guid := "space-1"; Space_OrganizationGuid := "org-1" |}.
      repeat split; reflexivity.
Defined.

(** C5 fails as stated.  Under a maximal age of -10 seconds and a maximal
    skew of 5 seconds, a request signed 7 seconds after its receipt, that is
    after the upper bound, is told that it is too old.  Under a maximal age
    that is the least 64-bit integer, whose opposite wraps around, a request
    signed at the instant of its receipt, that is before the lower bound, is
    accepted and gets its [Auth]. *)
Lemma replay_window_needs_sound_bounds :
  (let config' := Faulty.configWindow (-10 * Second) (5 * Second) in
   receipt + LoginMaxSecAhead config' < 1007 * Second
   /\ login receipt (requestFrom (Some "10.0.0.1/32") (Some config'))
        (payload "web" "CERT-A" "1007" "key-a")
      = Returned (Some (ErrorResponse
          "request is too old; signed at 1007000000000 but received request at 1000000000000; allowable seconds old is -10"))
          None)
  /\ (let config' := Faulty.configWindow (- 2 ^ 63) (60 * Second) in
      1000 * Second < receipt - LoginMaxSecOld config'
      /\ login receipt (requestFrom (Some "10.0.0.1/32") (Some config')) goodPayload
         = Returned (Some (AuthResponse goodAuth)) None).
Proof. vm_compute. repeat split; reflexivity. Qed.

Ltac later_checks :=
  exists None, (Some certA), (Some certA), {| RemoteAddr := "10.0.0.1/32" |};
  split; [vm_compute; reflexivity|];
  split; [vm_compute; reflexivity|];
  split; [vm_compute; reflexivity|];
  split; [vm_compute; reflexivity|];
  split; [vm_compute; reflexivity|];
  split; [right; vm_compute; reflexivity|];
  split; [repeat split; left; reflexivity|];
  exists (inventory 1 None),
    {| App_Guid := "app-1"; App_SpaceGuid := "space-1"; App_Instances := 1 |},
    {| Org_Guid := "org-1" |},
    {| Space_Guid := "space-1"; Space_OrganizationGuid := "org-1" |};
  repeat split; reflexivity.

Lemma replay_window_inclusive_witness :
  login receipt liveRequest (payload "web" "CERT-A" "699" "key-a")
  = Returned (Some (ErrorResponse
      "request is too old; signed at 699000000000 but received request at 1000000000000; allowable seconds old is 300"))
      None
  /\ login receipt liveRequest (payload "web" "CERT-A" "1061" "key-a")
     = Returned (Some (ErrorResponse
         "request is too far in the future; signed at 1061000000000 but received request at 1000000000000; allowable seconds in the future is 60"))
         None
  /\ login receipt liveRequest (payload "web" "CERT-A" "700" "key-a")
     = Returned (Some (AuthResponse (issuedAuth "web" openRole identityA))) None
  /\ login receipt liveRequest (payload "web" "CERT-A" "1060" "key-a")
     = Returned (Some (AuthResponse (issuedAuth "web" openRole identityA))) None.
Proof.
  assert (Hneg : negatable (LoginMaxSecOld (configAt "api.live")))
    by (split; reflexivity).
  split; [|split; [|split]].
  - refine (proj1 (replay_window_inclusive receipt liveRequest
              (payload "web" "CERT-A" "699" "key-a") openRole (configAt "api.live")
              (699 * Second) _ Hneg) _).
    + unfold arrivesAtWindow. settle.
    + reflexivity.
  - refine (proj1 (proj2 (replay_window_inclusive receipt liveRequest
              (payload "web" "CERT-A" "1061" "key-a") openRole (configAt "api.live")
              (1061 * Second) _ Hneg)) _ _).
    + unfold arrivesAtWindow. settle.
    + discriminate.
    + reflexivity.
  - refine (proj1 (proj2 (proj2 (proj2 (replay_window_inclusive receipt liveRequest
              (payload "web" "CERT-A" "700" "key-a") openRole (configAt "api.live")
              (700 * Second) _ Hneg)))) _ _ identityA _).
    + unfold arrivesAtWindow. settle.
    + discriminate.
    + left. reflexivity.
    + later_checks.
  - refine (proj1 (proj2 (proj2 (proj2 (replay_window_inclusive receipt liveRequest
              (payload "web" "CERT-A" "1060" "key-a") openRole (configAt "api.live")
              (1060 * Second) _ Hneg)))) _ _ identityA _).
    + unfold arrivesAtWindow. settle.
    + discriminate.
    + right. reflexivity.
    + later_checks.
Defined.

(** Signed one second before the window opens, and one second after it
    closes. *)
Example login_just_outside_window :
  login receipt liveRequest (payload "web" "CERT-A" "699" "key-a")
  = Returned (Some (ErrorResponse
      "request is too old; signed at 699000000000 but received request at 1000000000000; allowable seconds old is 300"))
      None
  /\ login receipt liveRequest (payload "web" "CERT-A" "1061" "key-a")
     = Returned (Some (ErrorResponse
         "request is too far in the future; signed at 1061000000000 but received request at 1000000000000; allowable seconds in the future is 60"))
         None
  /\ issuesAuth (login receipt liveRequest (payload "web" "CERT-A" "700" "key-a")) = true
  /\ issuesAuth (login receipt liveRequest (payload "web" "CERT-A" "1060" "key-a")) = true.
Proof. vm_compute. repeat split; reflexivity. Qed.

Lemma ip_matching_rule_witness :
  (validate (configAt "api.live") openRole (Some identityA) "10.0.0.2/32").2
  = Verdict (Some "no matching IP address").
Proof.
  apply (ip_matching_rule (configAt "api.live") openRole identityA "10.0.0.2/32");
    vm_compute; reflexivity.
Defined.

(** C7 fails as stated.  Against the role bound to [app-1], a certificate
    of [app-2] whose signature does not verify is refused with the
    verifier's error, not with a violation of the app constraint; and an
    identity that both the instance and the app allow-lists of a role lack
    is refused with the violation that names the instance. *)
Lemma app_violation_is_not_always_the_answer :
  (login receipt liveRequest (payload "apponly" "CERT-B" "1000" "key-a")
   = Returned (Some (ErrorResponse "signature does not match the signed data")) None)
  /\ (BoundAppIDs strictRole <> [] /\ ~ In (AppID identityB) (BoundAppIDs strictRole))
  /\ (validate (configAt "api.live") strictRole (Some identityB) "10.0.0.1").2
     = Verdict (Some "instance ID i-2 doesn't match role constraints of [i-1]").
Proof.
  split; [vm_compute; reflexivity | split; [split|]].
  - discriminate.
  - simpl. intros [H|[]]. discriminate.
  - vm_compute. reflexivity.
Qed.

Lemma bound_allow_lists_witness :
  login receipt liveRequest (payload "apponly" "CERT-B" "1000" "key-b")
  = Returned (Some (ErrorResponse
      "app ID app-2 doesn't match role constraints of [app-1]")) None.
Proof.
  apply (bound_allow_lists receipt liveRequest (payload "apponly" "CERT-B" "1000" "key-b"))
    with (role := appOnlyRole) (config' := configAt "api.live")
         (conn := {| RemoteAddr := "10.0.0.1/32" |}) (cert := identityB).
  - exists (1000 * Second), None,
      (Some {| subject := identityB; issuer := "ca-1"; key := "key-b" |}),
      (Some {| subject := identityB; issuer := "ca-1"; key := "key-b" |}).
    unfold arrivesAtVerification, arrivesAtWindow. settle.
  - right. vm_compute. reflexivity.
  - vm_compute. reflexivity.
Defined.

Lemma idle_inventory_does_not_pass : ~ inventoryPasses (configAt "api.idle") identityA.
Proof.
  intros (client & app & org & space & Hc & Ha & _ & _ & Hi & _).
  vm_compute in Hc. injection Hc as <-. vm_compute in Ha. injection Ha as <-.
  vm_compute in Hi. discriminate Hi.
Defined.

Lemma inventory_fails_closed_witness :
  (validate (configAt "api.idle") openRole (Some identityA) "10.0.0.1/32").2
  <> Verdict None.
Proof.
  apply (inventory_fails_closed (configAt "api.idle") openRole identityA "10.0.0.1/32").
  exact idle_inventory_does_not_pass.
Defined.

(** The scenarios of the specification for the inventory: no live instance,
    and an API that does not answer. *)
Example login_without_live_instance :
  login receipt (requestFrom (Some "10.0.0.1/32") (Some (configAt "api.idle"))) goodPayload
  = Returned (Some (ErrorResponse "app doesn't have any live instances")) None
  /\ login receipt (requestFrom (Some "10.0.0.1/32") (Some (configAt "api.down")))
       goodPayload
     = Returned (Some (ErrorResponse "connection refused")) None.
Proof. vm_compute. split; reflexivity. Qed.

Lemma identityA_well_formed : wellFormedIdentity identityA.
Proof. unfold wellFormedIdentity. settle. Defined.

Lemma metadata_round_trip_witness :
  storedIdentity goodAuth = Some ("i-1", "org-1", "space-1", "app-1", "10.0.0.1")
  /\ NewPCFCertificate "i-1" "org-1" "space-1" "app-1" "10.0.0.1" = (Some identityA, None).
Proof.
  destruct (metadata_round_trip receipt liveRequest goodPayload openRole
              (configAt "api.live") {| RemoteAddr := "10.0.0.1/32" |} identityA goodAuth
              liveRequest_established) as (_ & Hs & cert' & Hn & _ & _ & _ & _ & _ & He & _).
  - vm_compute. reflexivity.
  - exact identityA_well_formed.
  - split; [exact Hs|]. rewrite (He eq_refl) in Hn. exact Hn.
Defined.

Lemma login_without_connection_denied_witness :
  login receipt (requestFrom None (Some (configAt "api.live")))
    (payload "fenced" "CERT-A" "1000" "key-a")
  = Returned None (Some ErrPermissionDenied).
Proof.
  apply (login_without_connection_denied receipt _ _ fencedRole).
  - vm_compute. discriminate.
  - vm_compute. reflexivity.
  - discriminate.
  - reflexivity.
Defined.

(** Without bound CIDRs the same request goes on, and panics where the
    handler reads the address of the connection it does not have. *)
Example login_without_connection_panics :
  login receipt (requestFrom None (Some (configAt "api.live"))) goodPayload = Panicked.
Proof. vm_compute. reflexivity. Qed.

End Scenarios.

(** ** Further properties of the handlers *)

Section Extras.
Context `{P : Platform}.

Ltac enter_fields H :=
  let Hrole := fresh "Hrole" in let HgetRole := fresh "HgetRole" in
  let Hcidr := fresh "Hcidr" in
  destruct H as ((Hrole & HgetRole) & Hcidr);
  apply eqb_empty_false in Hrole; apply cidrRulePasses_code in Hcidr;
  unfold login, loginStages, operationLoginUpdate; cbv zeta;
  rewrite Hrole, HgetRole; cbv beta iota; rewrite Hcidr.

Ltac enter_parse H :=
  let Hf := fresh "Hf" in let Hsig := fresh "Hsig" in
  let Hcert := fresh "Hcert" in let Hraw := fresh "Hraw" in
  destruct H as (Hf & Hsig & Hcert & Hraw);
  apply eqb_empty_false in Hsig, Hcert, Hraw;
  enter_fields Hf; rewrite Hsig, Hcert, Hraw.

(** X1.  The required fields of a login are reported as error responses, in
    the order role, signature, certificate, signing time: a request without
    role is answered before the storage is read, and the three others once
    the role is resolved and the CIDR rule passes, the first missing one
    being named. *)
Theorem login_required_fields (now : Time) (req : Request) (data : gmap string string) :
  (FieldData_Get data "role" = EmptyString ->
   login now req data = Returned (Some (ErrorResponse "'role-name' is required")) None)
  /\ (forall role,
       arrivesAtFields req data role ->
       (FieldData_Get data "signature" = EmptyString ->
        login now req data = Returned (Some (ErrorResponse "'signature' is required")) None)
       /\ (FieldData_Get data "signature" <> EmptyString ->
           FieldData_Get data "cf_instance_cert" = EmptyString ->
           login now req data
           = Returned (Some (ErrorResponse "'cf_instance_cert' is required")) None)
       /\ (FieldData_Get data "signature" <> EmptyString ->
           FieldData_Get data "cf_instance_cert" <> EmptyString ->
           FieldData_Get data "signing_time" = EmptyString ->
           login now req data
           = Returned (Some (ErrorResponse "'signing_time' is required")) None)).
Proof.
  split.
  - intros H. unfold login, operationLoginUpdate. cbv zeta. rewrite H. reflexivity.
  - intros role H. split; [|split].
    + intros Hs. enter_fields H. rewrite Hs. reflexivity.
    + intros Hs Hc. apply eqb_empty_false in Hs. enter_fields H. rewrite Hs, Hc. reflexivity.
    + intros Hs Hc Ht. apply eqb_empty_false in Hs, Hc. enter_fields H.
      rewrite Hs, Hc, Ht. reflexivity.
Qed.

(** X2.  A login whose signing time parses under neither layout is answered
    with an error response quoting the text, whatever the storage holds as
    configuration: the configuration is not read before the time parses. *)
Theorem login_unparsable_signing_time (now : Time) (req : Request)
    (data : gmap string string) (role : RoleEntry) :
  arrivesAtParse req data role ->
  (time_Parse TimeFormat (FieldData_Get data "signing_time")).2 <> None ->
  (time_Parse BashTimeFormat (FieldData_Get data "signing_time")).2 <> None ->
  login now req data
  = Returned (Some (ErrorResponse
      ("couldn't parse " +:+ FieldData_Get data "signing_time"))) None.
Proof.
  intros H Hiso Hbash. enter_parse H. unfold parseTime.
  destruct (time_Parse TimeFormat _) as [t1 [e1|]]; [|contradiction].
  destruct (time_Parse BashTimeFormat _) as [t2 [e2|]]; [|contradiction].
  reflexivity.
Qed.

(** X3.  Failures of the role lookup, at login and at renewal: an error of
    the storage is returned as it is, with no response, and a role the
    storage does not have is the error "no matching role". *)
Theorem role_lookup_failures :
  (forall now req data,
     FieldData_Get data "role" <> EmptyString ->
     (forall r e, getRole (Req_Storage req) (FieldData_Get data "role") = (r, Some e) ->
                  login now req data = Returned None (Some e))
     /\ (getRole (Req_Storage req) (FieldData_Get data "role") = (None, None) ->
         login now req data = Returned None (Some "no matching role")))
  /\ (forall req config' auth roleName,
        config (Req_Storage req) = (Some config', None) ->
        Req_Auth req = Some auth ->
        getOrErr "role" (MapIfc (InternalData auth)) = (roleName, None) ->
        (forall r e, getRole (Req_Storage req) roleName = (r, Some e) ->
                     renew req = Returned None (Some e))
        /\ (getRole (Req_Storage req) roleName = (None, None) ->
            renew req = Returned None (Some "no matching role"))).
Proof.
  split.
  - intros now req data Hrole. apply eqb_empty_false in Hrole.
    split; [intros r e Hg | intros Hg];
      unfold login, operationLoginUpdate; cbv zeta; rewrite Hrole, Hg;
      first [reflexivity | destruct r; reflexivity].
  - intros req config' auth roleName Hc Ha Hr.
    split; [intros r e Hg | intros Hg];
      unfold renew, pathLoginRenew; rewrite Hc, Ha; cbv beta iota;
      rewrite Hr; cbv beta iota; rewrite Hg;
      first [reflexivity | destruct r; reflexivity].
Qed.

(** X4.  Failures of the configuration lookup.  At login, once the signing
    time has parsed, an error of the storage is returned as it is and a
    missing configuration is the error that no CA is configured.  At
    renewal the configuration is read first: its error, or the error that no
    configuration is available, is returned whatever the request carries. *)
Theorem config_lookup_failures :
  (forall now req data role signingTime,
     arrivesAtParse req data role ->
     parseTime (FieldData_Get data "signing_time") = (signingTime, None) ->
     (forall c e, config (Req_Storage req) = (c, Some e) ->
                  login now req data = Returned None (Some e))
     /\ (config (Req_Storage req) = (None, None) ->
         login now req data
         = Returned None (Some "no CA is configured for verifying client certificates")))
  /\ (forall req,
        (forall c e, config (Req_Storage req) = (c, Some e) ->
                     renew req = Returned None (Some e))
        /\ (config (Req_Storage req) = (None, None) ->
            renew req
            = Returned None
                (Some "no configuration is available for reaching the PCF API"))).
Proof.
  split.
  - intros now req data role signingTime H Hp.
    split; [intros c e Hc | intros Hc]; enter_parse H; rewrite Hp; cbv beta iota;
      rewrite Hc; first [reflexivity | destruct c; reflexivity].
  - intros req. split; [intros c e Hc | intros Hc];
      unfold renew, pathLoginRenew; rewrite Hc;
      first [reflexivity | destruct c; reflexivity].
Qed.

(** X5.  A login against a role with bound CIDRs, from a connection whose
    address [cidrutil.RemoteAddrIsOk] does not accept, is refused with
    permission denied, the same error as for a request without connection. *)
Theorem login_outside_bound_cidrs (now : Time) (req : Request) (data : gmap string string)
    (role : RoleEntry) (conn : Connection) :
  roleResolved req data role ->
  TokenBoundCIDRs role <> [] ->
  Req_Connection req = Some conn ->
  RemoteAddrIsOk (RemoteAddr conn) (TokenBoundCIDRs role) = false ->
  login now req data = Returned None (Some ErrPermissionDenied).
Proof.
  intros (Hrole & Hget) Hcidr Hconn Hok. apply eqb_empty_false in Hrole.
  unfold login, operationLoginUpdate. cbv zeta. rewrite Hrole, Hget. cbv beta iota.
  rewrite Hconn, Hok. destruct (TokenBoundCIDRs role); [contradiction|]. reflexivity.
Qed.

Ltac arrive_window H :=
  let Hrole := fresh "Hrole" in let HgetRole := fresh "HgetRole" in
  let Hcidr := fresh "Hcidr" in let Hsig := fresh "Hsig" in
  let Hcert := fresh "Hcert" in let Hraw := fresh "Hraw" in
  let Hparse := fresh "Hparse" in let Hcfg := fresh "Hcfg" in
  destruct H as (Hrole & HgetRole & Hcidr & Hsig & Hcert & Hraw & Hparse & Hcfg);
  apply eqb_empty_false in Hrole, Hsig, Hcert, Hraw;
  apply cidrRulePasses_code in Hcidr;
  unfold login, loginStages, operationLoginUpdate; cbv zeta;
  rewrite Hrole, HgetRole; cbv beta iota;
  rewrite Hcidr, Hsig, Hcert, Hraw, Hparse, Hcfg; cbv beta iota.

Ltac arrive_verification H :=
  let Hw := fresh "Hw" in let Hx := fresh "Hx" in
  let Hb := fresh "Hb" in let Ha := fresh "Ha" in
  destruct H as (H & Hw & Hx); apply windowAccepts_true in Hw as [Hb Ha];
  arrive_window H; rewrite Hb, Ha, Hx; cbv beta iota.

(** X6.  Whatever the request and the collaborators, a login or a renewal
    that returns hands back either a response or an error: never both, and
    never neither. *)
Theorem handlers_return_response_or_error (now : Time) (req : Request)
    (data : gmap string string) :
  oneOfResponseAndError (login now req data) = true
  /\ oneOfResponseAndError (renew req) = true.
Proof.
  split.
  - unfold login, operationLoginUpdate. cbv zeta.
    repeat (cbn [fst snd reach finish andThen oneOfResponseAndError];
      match goal with
      | |- context [snd (match ?x with _ => _ end)] => destruct x eqn:?
      | |- context [snd (if ?x then _ else _)] => destruct x eqn:?
      end; cbn [fst snd reach finish andThen oneOfResponseAndError];
      try reflexivity).
  - unfold renew, pathLoginRenew.
    repeat (cbn [fst snd reach finish andThen oneOfResponseAndError];
      match goal with
      | |- context [snd (match ?x with _ => _ end)] => destruct x eqn:?
      | |- context [snd (if ?x then _ else _)] => destruct x eqn:?
      end; cbn [fst snd reach finish andThen oneOfResponseAndError];
      try reflexivity).
Qed.

(** X7.  Failures of the certificate handling at login.  An error of the
    extraction, met once the time window has accepted the call, and an error
    of the chain validation, met once the signature is verified, are
    answered with an error response carrying the text of the error; an error
    of the identity decoding is returned as an error, with no response. *)
Theorem certificate_handling_failures (now : Time) (req : Request)
    (data : gmap string string) (role : RoleEntry) (config' : Configuration) :
  (forall signingTime intermediateCert identityCert err,
     arrivesAtWindow req data role config' signingTime ->
     windowAccepts signingTime now config' = true ->
     ExtractCertificates (FieldData_Get data "cf_instance_cert")
     = (intermediateCert, identityCert, Some err) ->
     login now req data = Returned (Some (ErrorResponse (Error err))) None)
  /\ (forall intermediateCert identityCert signingCert err,
        signatureVerified now req data role config' intermediateCert identityCert signingCert ->
        util_Validate (IdentityCACertificates config')
          intermediateCert identityCert signingCert = Some err ->
        login now req data = Returned (Some (ErrorResponse (Error err))) None)
  /\ (forall intermediateCert identityCert signingCert pcfCert err,
        signatureVerified now req data role config' intermediateCert identityCert signingCert ->
        util_Validate (IdentityCACertificates config')
          intermediateCert identityCert signingCert = None ->
        NewPCFCertificateFromx509 signingCert = (pcfCert, Some err) ->
        login now req data = Returned None (Some err)).
Proof.
  split; [|split].
  - intros signingTime ic idc err H Hw Hx. apply windowAccepts_true in Hw as [Hb Ha].
    arrive_window H. rewrite Hb, Ha, Hx. destruct ic, idc; reflexivity.
  - intros ic idc sc err (signingTime & H & Hv) Hchain. unfold signedData in Hv.
    arrive_verification H. rewrite Hv. cbv beta iota. rewrite Hchain. reflexivity.
  - intros ic idc sc pcfCert err (signingTime & H & Hv) Hchain Hdec.
    unfold signedData in Hv.
    arrive_verification H. rewrite Hv. cbv beta iota. rewrite Hchain, Hdec.
    destruct pcfCert; reflexivity.
Qed.

Lemma ipRulePasses_of_code (role : RoleEntry) (cert : PCFCertificate) (addr : string) :
  negb (DisableIPMatching role) && negb (matchesIPAddress addr (IPAddress cert)) = false ->
  ipRulePasses role cert addr.
Proof.
  unfold ipRulePasses. rewrite <- matchesIPAddress_spec.
  destruct (DisableIPMatching role), (matchesIPAddress addr (IPAddress cert));
    cbn; intros H; try discriminate; tauto.
Qed.

(** X8.  [validate] decides the policy before it turns to the PCF API: when
    the IP rule or an allow-list refuses the identity, the verdict is an
    error that does not depend on the configuration, and neither a client is
    created nor a lookup made. *)
Theorem validate_policy_before_inventory (config1 config2 : Configuration)
    (role : RoleEntry) (cert : PCFCertificate) (addr : string) :
  ~ policyPasses role cert addr ->
  validate config1 role (Some cert) addr = validate config2 role (Some cert) addr
  /\ exists err, validate config1 role (Some cert) addr = ([], Verdict (Some err)).
Proof.
  intros Hno.
  assert (H : exists err, forall c, validate c role (Some cert) addr = ([], Verdict (Some err))).
  { destruct (negb (DisableIPMatching role)
              && negb (matchesIPAddress addr (IPAddress cert))) eqn:Hip.
    - exists "no matching IP address". intros c. unfold validate. rewrite Hip. reflexivity.
    - apply ipRulePasses_of_code in Hip.
      destruct (firstViolation role cert) as [msg|] eqn:Hv.
      + exists msg. intros c. apply validate_violation; assumption.
      + apply firstViolation_none in Hv. exfalso. apply Hno. split; assumption. }
  destruct H as [err H]. split; [rewrite !H; reflexivity | exists err; apply H].
Qed.

(** X9.  The instance ID is checked against the allow-list of the role and
    against nothing else: two identities that differ in their instance ID
    only, both admitted by the allow-list, get the same verdict, the PCF API
    never being asked about the instance. *)
Theorem validate_ignores_instance_id (config' : Configuration) (role : RoleEntry)
    (cert : PCFCertificate) (addr : string) (instanceID : string) :
  allowListPasses (InstanceID cert) (BoundInstanceIDs role) ->
  allowListPasses instanceID (BoundInstanceIDs role) ->
  validate config' role (Some (withInstanceID cert instanceID)) addr
  = validate config' role (Some cert) addr.
Proof.
  intros H1 H2. apply meetsBoundConstraints_spec in H1, H2.
  unfold validate. cbn [withInstanceID InstanceID OrgID SpaceID AppID IPAddress].
  rewrite H1, H2. reflexivity.
Qed.

Ltac enter_inventory H :=
  let Hip := fresh "Hip" in
  let H1 := fresh "Hb" in let H2 := fresh "Hb" in
  let H3 := fresh "Hb" in let H4 := fresh "Hb" in
  destruct H as [Hip (H1 & H2 & H3 & H4)];
  apply ipRulePasses_code in Hip;
  apply meetsBoundConstraints_spec in H1, H2, H3, H4;
  unfold validate; rewrite Hip, H1, H2, H3, H4; cbn [negb].

(** X10.  Once the policy passes, the error of the first step of the
    inventory cross-check that fails is the verdict, unchanged: the creation
    of the client, then the lookups of the app, of the org and of the space,
    each made only when the records before it were found right. *)
Theorem inventory_errors_returned (config' : Configuration) (role : RoleEntry)
    (cert : PCFCertificate) (addr : string) :
  policyPasses role cert addr ->
  (forall client err,
     NewPCFClient config' = (client, Some err) ->
     (validate config' role (Some cert) addr).2 = Verdict (Some err))
  /\ (forall client, NewPCFClient config' = (Some client, None) ->
      (forall app err,
         AppByGuid client (AppID cert) = (app, Some err) ->
         (validate config' role (Some cert) addr).2 = Verdict (Some err))
      /\ (forall app,
            AppByGuid client (AppID cert) = (app, None) ->
            App_Guid app = AppID cert -> App_SpaceGuid app = SpaceID cert ->
            0 < App_Instances app ->
            (forall org err,
               GetOrgByGuid client (OrgID cert) = (org, Some err) ->
               (validate config' role (Some cert) addr).2 = Verdict (Some err))
            /\ (forall org,
                  GetOrgByGuid client (OrgID cert) = (org, None) ->
                  Org_Guid org = OrgID cert ->
                  forall space err,
                    GetSpaceByGuid client (SpaceID cert) = (space, Some err) ->
                    (validate config' role (Some cert) addr).2 = Verdict (Some err)))).
Proof.
  intros Hpol. split.
  - intros client err Hc. enter_inventory Hpol. rewrite Hc. destruct client; reflexivity.
  - intros client Hc. split.
    + intros app err Ha. enter_inventory Hpol. rewrite Hc, Ha. reflexivity.
    + intros app Ha Hg Hs Hi.
      apply String.eqb_eq in Hg, Hs. apply Z.leb_gt in Hi. split.
      * intros org err Ho. enter_inventory Hpol. rewrite Hc, Ha. cbv beta iota.
        rewrite Hg, Hs, Hi. cbn [negb]. rewrite Ho. reflexivity.
      * intros org Ho Hog space err Hsp. apply String.eqb_eq in Hog.
        enter_inventory Hpol. rewrite Hc, Ha. cbv beta iota.
        rewrite Hg, Hs, Hi. cbn [negb]. rewrite Ho. cbv beta iota.
        rewrite Hog. cbn [negb]. rewrite Hsp. reflexivity.
Qed.

(** X11.  Once the policy passes and the client exists, a record of the
    inventory that does not fit the certificate is reported with both IDs:
    an app under another guid, an app in another space, an org under another
    guid, a space under another guid, a space in another org, the first of
    them in this order. *)
Theorem inventory_mismatch_messages (config' : Configuration) (role : RoleEntry)
    (cert : PCFCertificate) (addr : string) (client : PCFClient) (app : App) :
  policyPasses role cert addr ->
  NewPCFClient config' = (Some client, None) ->
  AppByGuid client (AppID cert) = (app, None) ->
  (App_Guid app <> AppID cert ->
   (validate config' role (Some cert) addr).2
   = Verdict (Some (apiMismatchMessage "app" (AppID cert) (App_Guid app))))
  /\ (App_Guid app = AppID cert -> App_SpaceGuid app <> SpaceID cert ->
      (validate config' role (Some cert) addr).2
      = Verdict (Some (apiMismatchMessage "space" (SpaceID cert) (App_SpaceGuid app))))
  /\ (App_Guid app = AppID cert -> App_SpaceGuid app = SpaceID cert ->
      0 < App_Instances app ->
      forall org, GetOrgByGuid client (OrgID cert) = (org, None) ->
      (Org_Guid org <> OrgID cert ->
       (validate config' role (Some cert) addr).2
       = Verdict (Some (apiMismatchMessage "org" (OrgID cert) (Org_Guid org))))
      /\ (Org_Guid org = OrgID cert ->
          forall space, GetSpaceByGuid client (SpaceID cert) = (space, None) ->
          (Space_Guid space <> SpaceID cert ->
           (validate config' role (Some cert) addr).2
           = Verdict (Some (apiMismatchMessage "space" (SpaceID cert) (Space_Guid space))))
          /\ (Space_Guid space = SpaceID cert ->
              Space_OrganizationGuid space <> OrgID cert ->
              (validate config' role (Some cert) addr).2
              = Verdict (Some (apiMismatchMessage "org" (OrgID cert)
                                 (Space_OrganizationGuid space)))))).
Proof.
  intros Hpol Hc Ha. split; [|split].
  - intros Hg. apply String.eqb_neq in Hg. enter_inventory Hpol.
    rewrite Hc, Ha. cbv beta iota. rewrite Hg. reflexivity.
  - intros Hg Hs. apply String.eqb_eq in Hg. apply String.eqb_neq in Hs.
    enter_inventory Hpol. rewrite Hc, Ha. cbv beta iota. rewrite Hg, Hs. reflexivity.
  - intros Hg Hs Hi org Ho.
    apply String.eqb_eq in Hg, Hs. apply Z.leb_gt in Hi. split.
    + intros Hog. apply String.eqb_neq in Hog. enter_inventory Hpol.
      rewrite Hc, Ha. cbv beta iota. rewrite Hg, Hs, Hi. cbn [negb]. rewrite Ho.
      cbv beta iota. rewrite Hog. reflexivity.
    + intros Hog space Hsp. apply String.eqb_eq in Hog. split.
      * intros Hsg. apply String.eqb_neq in Hsg. enter_inventory Hpol.
        rewrite Hc, Ha. cbv beta iota. rewrite Hg, Hs, Hi. cbn [negb]. rewrite Ho.
        cbv beta iota. rewrite Hog. cbn [negb]. rewrite Hsp. cbv beta iota.
        rewrite Hsg. reflexivity.
      * intros Hsg Hso. apply String.eqb_eq in Hsg. apply String.eqb_neq in Hso.
        enter_inventory Hpol.
        rewrite Hc, Ha. cbv beta iota. rewrite Hg, Hs, Hi. cbn [negb]. rewrite Ho.
        cbv beta iota. rewrite Hog. cbn [negb]. rewrite Hsp. cbv beta iota.
        rewrite Hsg, Hso. reflexivity.
Qed.

(** A text longer than every element of the list, hence none of them. *)
Lemma longer_than_all (l : list string) :
  forall x, In x l -> (String.length x < String.length (String.concat "x" ("x" :: l)))%nat.
Proof.
  assert (Happ : forall a b, String.length (a +:+ b)
                             = (String.length a + String.length b)%nat).
  { induction a as [|c a IH]; intros b; simpl; [reflexivity | rewrite IH; reflexivity]. }
  assert (Hc : forall l x, In x l ->
            (String.length x <= String.length (String.concat "x" l))%nat).
  { clear l. induction l as [|y l IH]; intros x Hin; [destruct Hin|].
    destruct l as [|z l].
    - destruct Hin as [->|[]]. apply Nat.le_refl.
    - change (String.concat "x" (y :: z :: l))
        with (y +:+ "x" +:+ String.concat "x" (z :: l)).
      rewrite !Happ. destruct Hin as [->|Hin]; [apply Nat.le_add_r|].
      specialize (IH x Hin). revert IH.
      generalize (String.length x), (String.length (String.concat "x" (z :: l))),
        (String.length y), (String.length "x"). intros; lia. }
  intros x Hin. destruct l as [|y l]; [destruct Hin|].
  change (String.concat "x" ("x" :: y :: l))
    with ("x" +:+ "x" +:+ String.concat "x" (y :: l)).
  rewrite !Happ. specialize (Hc _ _ Hin). revert Hc. change (String.length "x") with 1%nat.
  generalize (String.length x), (String.length (String.concat "x" (y :: l))).
  intros; lia.
Qed.

(** X12.  An allow-list is read as a set: two lists with the same elements
    admit the same values, whatever the order and the repetitions; a list
    that is not empty admits no more than a list that includes it; and the
    empty list is the only one that admits every value. *)
Theorem allow_list_is_a_set (l l' : list string) :
  ((forall x, In x l <-> In x l') ->
   forall value, meetsBoundConstraints value l = meetsBoundConstraints value l')
  /\ (l <> [] -> incl l l' ->
      forall value, meetsBoundConstraints value l = true ->
                    meetsBoundConstraints value l' = true)
  /\ ((forall value, meetsBoundConstraints value l = true) <-> l = []).
Proof.
  split; [|split].
  - intros Hsame value.
    destruct (meetsBoundConstraints value l) eqn:E1,
             (meetsBoundConstraints value l') eqn:E2; try reflexivity; exfalso.
    + apply meetsBoundConstraints_spec in E1.
      assert (Hn : ~ allowListPasses value l')
        by (rewrite <- meetsBoundConstraints_spec, E2; discriminate).
      apply Hn. destruct E1 as [-> | Hin].
      * left. destruct l' as [|y l']; [reflexivity|].
        destruct (proj2 (Hsame y) (or_introl eq_refl)).
      * right. apply Hsame, Hin.
    + apply meetsBoundConstraints_spec in E2.
      assert (Hn : ~ allowListPasses value l)
        by (rewrite <- meetsBoundConstraints_spec, E1; discriminate).
      apply Hn. destruct E2 as [-> | Hin].
      * left. destruct l as [|y l]; [reflexivity|].
        destruct (proj1 (Hsame y) (or_introl eq_refl)).
      * right. apply Hsame, Hin.
  - intros Hne Hincl value H. apply meetsBoundConstraints_spec in H.
    apply meetsBoundConstraints_spec. destruct H as [->|Hin]; [contradiction|].
    right. apply Hincl, Hin.
  - split; [|intros ->; reflexivity].
    intros Hall. destruct l as [|y l]; [reflexivity|]. exfalso.
    specialize (Hall (String.concat "x" ("x" :: y :: l))).
    apply meetsBoundConstraints_spec in Hall. destruct Hall as [Hnil|Hin]; [discriminate|].
    apply longer_than_all in Hin. exact (Nat.lt_irrefl _ Hin).
Qed.

(** X13.  When [getOrErr] succeeds.  On a map of interfaces, exactly when
    the key holds a string that is not empty: an empty string and a value of
    another type are both refused.  On a map of strings, exactly when the
    key is present, an empty value included.  Whenever it fails, the string
    it returns is empty; and it fails on anything that is not one of the two
    maps. *)
Theorem getOrErr_success_conditions (fieldName : string) :
  (forall m v, getOrErr fieldName (MapIfc m) = (v, None)
               <-> m !! fieldName = Some (IfcString v) /\ v <> EmptyString)
  /\ (forall m v, getOrErr fieldName (MapStr m) = (v, None) <-> m !! fieldName = Some v)
  /\ (forall from v err, getOrErr fieldName from = (v, Some err) -> v = EmptyString)
  /\ (getOrErr fieldName MapOther).2 <> None.
Proof.
  split; [|split; [|split]].
  - intros m v. split; [apply getOrErr_found_ifc|].
    intros [H Hv]. apply getOrErr_ifc_present; assumption.
  - intros m v. split; [apply getOrErr_found_str | apply getOrErr_str_present].
  - intros from v err. unfold getOrErr. destruct from as [m|m|].
    + destruct (m !! fieldName) as [[s|]|]; cbn [String.eqb];
        try (intros [= <- _]; reflexivity).
      destruct (String.eqb s EmptyString); [intros [= <- _]; reflexivity | discriminate].
    + destruct (m !! fieldName); [discriminate | intros [= <- _]; reflexivity].
    + intros [= <- _]. reflexivity.
  - discriminate.
Qed.

(** X14.  [getOrErr] after an update of the map.  A value stored under a
    key is read back under that key, and leaves the reading of the other
    keys as it was; a key that was deleted fails; on a map of interfaces,
    storing the empty string under a key makes its reading fail. *)
Theorem getOrErr_after_update (k k' v : string) :
  (forall m : gmap string string,
     getOrErr k (MapStr (<[k := v]> m)) = (v, None)
     /\ (k <> k' -> getOrErr k (MapStr (<[k' := v]> m)) = getOrErr k (MapStr m))
     /\ (getOrErr k (MapStr (delete k m))).2 <> None)
  /\ (forall m : gmap string ifc,
        (v <> EmptyString -> getOrErr k (MapIfc (<[k := IfcString v]> m)) = (v, None))
        /\ (k <> k' ->
            getOrErr k (MapIfc (<[k' := IfcString v]> m)) = getOrErr k (MapIfc m))
        /\ (getOrErr k (MapIfc (<[k := IfcString EmptyString]> m))).2 <> None
        /\ (getOrErr k (MapIfc (delete k m))).2 <> None).
Proof.
  split; intros m.
  - split; [|split].
    + apply getOrErr_str_present, lookup_insert_eq.
    + intros Hne. unfold getOrErr. rewrite lookup_insert_ne by congruence. reflexivity.
    + unfold getOrErr. rewrite lookup_delete_eq. discriminate.
  - split; [|split; [|split]].
    + intros Hv. apply getOrErr_ifc_present; [apply lookup_insert_eq | exact Hv].
    + intros Hne. unfold getOrErr. rewrite lookup_insert_ne by congruence. reflexivity.
    + unfold getOrErr. rewrite lookup_insert_eq. discriminate.
    + unfold getOrErr. rewrite lookup_delete_eq. discriminate.
Qed.

(** A renewal that issues an [Auth] arrived at the reconstruction, and
    [validate] found nothing to object to the certificate it was handed. *)
Lemma renew_auth_inv (req : Request) :
  issuesAuth (renew req) = true ->
  exists config' role auth conn instanceID orgID spaceID appID ipAddr,
    renewalArrives req config' role auth conn instanceID orgID spaceID appID ipAddr
    /\ (validate config' role (NewPCFCertificate instanceID orgID spaceID appID ipAddr).1
          (RemoteAddr conn)).2 = Verdict None.
Proof.
  unfold renew, pathLoginRenew. intros H.
  destruct (config (Req_Storage req)) as [[c|] [e|]] eqn:Hc; try discriminate H.
  destruct (Req_Auth req) as [auth|] eqn:Hauth; [|discriminate H].
  destruct (getOrErr "role" _) as [rn [e|]] eqn:E1; [discriminate H|].
  destruct (getRole _ _) as [[r|] [e|]] eqn:Hr; try discriminate H.
  destruct (getOrErr "instance_id" _) as [i [e|]] eqn:E2; [discriminate H|].
  destruct (getOrErr "ip_address" _) as [ip [e|]] eqn:E3; [discriminate H|].
  destruct (Auth_Alias auth) as [alias|] eqn:Hal; [|discriminate H].
  destruct (getOrErr "org_id" _) as [o [e|]] eqn:E4; [discriminate H|].
  destruct (getOrErr "space_id" _) as [sp [e|]] eqn:E5; [discriminate H|].
  destruct (getOrErr "app_id" _) as [ap [e|]] eqn:E6; [discriminate H|].
  destruct (Req_Connection req) as [conn|] eqn:Hconn; [|discriminate H].
  cbn [andThen fst snd] in H.
  destruct (validate _ _ _ _).2 as [[e|]|] eqn:Hv; try discriminate H.
  exists c, r, auth, conn, i, o, sp, ap, ip. split; [|exact Hv].
  unfold renewalArrives, storedIdentity. rewrite Hal, E2, E3, E4, E5, E6.
  repeat split; try assumption; try reflexivity. exists rn. split; assumption.
Qed.

Lemma validate_passes_some (config' : Configuration) (role : RoleEntry)
    (pcfCert : option PCFCertificate) (addr : string) :
  (validate config' role pcfCert addr).2 = Verdict None -> exists cert, pcfCert = Some cert.
Proof. destruct pcfCert as [cert|]; [eauto | discriminate]. Qed.

(** X15.  A renewal issues an [Auth] exactly when the configuration and the
    role are resolved, the request has a connection, the stored metadata
    yields the five strings, these make up an identity, and that identity
    passes the IP rule, the allow-lists of the current role and the
    inventory cross-check.  Neither bound CIDRs, nor a signature, nor a time
    window take part. *)
Theorem renewal_succeeds_iff (req : Request) :
  issuesAuth (renew req) = true
  <-> exists config' role auth conn instanceID orgID spaceID appID ipAddr cert,
        renewalArrives req config' role auth conn instanceID orgID spaceID appID ipAddr
        /\ (NewPCFCertificate instanceID orgID spaceID appID ipAddr).1 = Some cert
        /\ ipRulePasses role cert (RemoteAddr conn)
        /\ boundsPass role cert
        /\ inventoryPasses config' cert.
Proof.
  split.
  - intros H. apply renew_auth_inv in H
      as (c & r & auth & conn & i & o & sp & ap & ip & Harr & Hv).
    destruct (validate_passes_some _ _ _ _ Hv) as [cert Hcert]. rewrite Hcert in Hv.
    apply validate_passes_iff in Hv.
    exists c, r, auth, conn, i, o, sp, ap, ip, cert. tauto.
  - intros (c & r & auth & conn & i & o & sp & ap & ip & cert & Harr & Hcert & Hrules).
    apply validate_passes_iff in Hrules.
    rewrite (renew_after_extraction _ _ _ _ _ _ _ _ _ _ Harr), Hcert, Hrules. reflexivity.
Qed.

(** X16.  A renewal that succeeds returns the stored [Auth] with its
    internal data, display name and alias untouched, and with the TTL, the
    maximal TTL and the period of the role that the storage holds, at the
    time of the renewal, under the name the stored [Auth] carries. *)
Theorem renewal_keeps_identity (req : Request) (a : Auth) (err : option error) :
  renew req = Returned (Some (AuthResponse a)) err ->
  err = None
  /\ exists auth roleName role,
       Req_Auth req = Some auth
       /\ InternalData auth !! "role" = Some (IfcString roleName)
       /\ getRole (Req_Storage req) roleName = (Some role, None)
       /\ InternalData a = InternalData auth
       /\ DisplayName a = DisplayName auth
       /\ Auth_Alias a = Auth_Alias auth
       /\ TTL a = TokenTTL role /\ MaxTTL a = TokenMaxTTL role
       /\ Period a = TokenPeriod role.
Proof.
  intros H.
  assert (Hi : issuesAuth (renew req) = true) by (rewrite H; reflexivity).
  apply renew_auth_inv in Hi
    as (c & r & auth & conn & i & o & sp & ap & ip & Harr & Hv).
  pose proof (renew_after_extraction _ _ _ _ _ _ _ _ _ _ Harr) as Hr.
  rewrite Hv in Hr. cbn [reply] in Hr. rewrite Hr in H. injection H as <- <-.
  split; [reflexivity|].
  destruct Harr as (_ & Ha & (roleName & Hrn & Hrole) & _).
  apply getOrErr_found_ifc in Hrn as [Hrn _].
  exists auth, roleName, r. repeat split; try reflexivity; assumption.
Qed.

(** X17.  Renewal after login.  Take the [Auth] a successful login issued
    for a well-formed identity, and renew it later from the same connection,
    the storage being unchanged, when the PCF API answers as [later] tells.
    If the inventory cross-check passes then, the renewal returns that very
    [Auth]; if it does not, the renewal issues no [Auth], and when it fails
    with an error the renewal is answered with that error. *)
Theorem renewal_after_login (now : Time) (req : Request) (data : gmap string string)
    (role : RoleEntry) (config' : Configuration) (conn : Connection)
    (cert : PCFCertificate) (a : Auth)
    (later : Configuration -> option PCFClient * option error) :
  identityEstablished now req data role config' conn cert ->
  login now req data = Returned (Some (AuthResponse a)) None ->
  wellFormedIdentity cert ->
  (@inventoryPasses (withInventory later) config' cert ->
   @renew (withInventory later) (laterRenewal later req a)
   = Returned (Some (AuthResponse a)) None)
  /\ (~ @inventoryPasses (withInventory later) config' cert ->
      issuesAuth (@renew (withInventory later) (laterRenewal later req a)) = false)
  /\ (forall err,
        @inventoryFails (withInventory later) config' cert err ->
        @renew (withInventory later) (laterRenewal later req a)
        = Returned (Some (ErrorResponse err)) None).
Proof.
  intros Hid Hlogin Hwf.
  pose proof (renewalArrives_after_login now req data role config' conn cert Hid Hwf)
    as Harr. cbv zeta in Harr.
  destruct Hwf as (Hi & Ho & Hs & Ha & Hip & Hnil & Heq).
  unfold login in Hlogin. rewrite (login_after_identity _ _ _ _ _ _ _ Hid) in Hlogin.
  cbn [snd] in Hlogin.
  destruct (validate config' role (Some cert) (RemoteAddr conn)).2 as [[e|]|] eqn:Hv;
    try discriminate Hlogin.
  injection Hlogin as <-.
  apply validate_passes_iff in Hv as (Hrule & Hbounds & _).
  set (a := PopulateTokenAuth role (loginAuth (FieldData_Get data "role") cert)) in *.
  apply (renewalArrives_later later) in Harr.
  pose proof (@renew_after_extraction (withInventory later) _ _ _ _ _ _ _ _ _ _ Harr) as Hr.
  rewrite (@NewPCFCertificate_present (withInventory later) _ _ _ _ _ Hi Ho Hs Ha Hip Hnil)
    in Hr.
  cbn [fst] in Hr.
  rewrite (@validate_same_address (withInventory later)
             config' role cert (RemoteAddr conn) _ Heq) in Hr.
  split; [|split].
  - intros Hinv. rewrite Hr.
    rewrite (@validate_passes (withInventory later) config' role cert (RemoteAddr conn)
               Hrule Hbounds Hinv).
    reflexivity.
  - intros Hno. rewrite Hr.
    destruct (@validate (withInventory later) config' role (Some cert) (RemoteAddr conn)).2
      as [[e|]|] eqn:Hv; try reflexivity.
    exfalso. apply Hno.
    apply (@validate_passes_iff (withInventory later)) in Hv. tauto.
  - intros err Hf. rewrite Hr.
    rewrite (@validate_inventory_fails (withInventory later) config' role cert
               (RemoteAddr conn) err Hrule Hbounds Hf).
    reflexivity.
Qed.

(** X18.  With collaborators that keep Go's convention, a login panics in
    one case only: the request has no connection and the call got as far as
    the decoded identity, that is, the role has no bound CIDRs and every
    cryptographic check passed.  The handler then dereferences the missing
    connection at line 173. *)
Theorem login_panics_iff (now : Time) (req : Request) (data : gmap string string) :
  decoderKeepsConvention ->
  clientKeepsConvention ->
  login now req data = Panicked
  <-> Req_Connection req = None
      /\ exists role config' pcfCert, identityDecoded now req data role config' pcfCert.
Proof.
  intros Hdec Hcli. split.
  - unfold login, operationLoginUpdate. intros H. cbv zeta in H.
    repeat (cbn [fst snd reach finish andThen] in H;
      match type of H with
      | context [snd (match ?x with _ => _ end)] => destruct x eqn:?
      | context [snd (if ?x then _ else _)] => destruct x eqn:?
      end; cbn [fst snd reach finish andThen] in H; try discriminate H).
    all: try match goal with
      | Hd : NewPCFCertificateFromx509 _ = (?o, None) |- Some _ = None /\ _ =>
          is_var o; destruct o
      end.
    all: try (exfalso;
      match goal with
      | Hd : NewPCFCertificateFromx509 ?sc = (None, None) |- _ => exact (Hdec sc Hd)
      | Hv : (validate ?c ?r (Some ?p) ?a).2 = VPanicked |- _ =>
          exact (validate_no_panic c r p a (Hcli c) Hv)
      end).
    split; [reflexivity|].
    match goal with
    | Hr : getRole _ _ = (Some ?r, None), Hc : config _ = (Some ?c, None),
      Hd : NewPCFCertificateFromx509 ?sc = (?p0, None),
      Hp : parseTime _ = (?t, None),
      Hx : ExtractCertificates _ = (?ic, ?idc, None) |- _ =>
        exists r, c, p0, ic, idc, sc; split; [exists t|split; assumption]
    end.
    unfold arrivesAtVerification, arrivesAtWindow, windowAccepts, signedData.
    repeat match goal with
    | E : String.eqb _ _ = false |- _ => apply String.eqb_neq in E
    end.
    repeat split; try assumption.
    + apply cidrRulePasses_code.
      match goal with Hn : Req_Connection req = None |- _ => rewrite Hn end.
      assumption.
    + apply andb_true_iff. rewrite !negb_true_iff. split; assumption.
  - intros (Hconn & role & config' & pcfCert & ic & idc & sc
            & (signingTime & H & Hv) & Hchain & Hd).
    unfold signedData in Hv. arrive_verification H.
    rewrite Hv. cbv beta iota. rewrite Hchain, Hd. cbv beta iota. rewrite Hconn.
    reflexivity.
Qed.

(** X19.  With a client that keeps Go's convention, a renewal does not
    panic when its request carries an [Auth] with an alias and a connection,
    and the stored metadata, if it yields the five strings, makes up an
    identity. *)
Theorem renewal_does_not_panic (req : Request) (auth : Auth) (alias : Alias)
    (conn : Connection) :
  clientKeepsConvention ->
  Req_Auth req = Some auth ->
  Auth_Alias auth = Some alias ->
  Req_Connection req = Some conn ->
  (forall instanceID orgID spaceID appID ipAddr,
     storedIdentity auth = Some (instanceID, orgID, spaceID, appID, ipAddr) ->
     (NewPCFCertificate instanceID orgID spaceID appID ipAddr).1 <> None) ->
  renew req <> Panicked.
Proof.
  intros Hcli Hauth Halias Hconn Hid.
  unfold renew, pathLoginRenew. rewrite Hauth, Halias, Hconn.
  unfold storedIdentity in Hid. rewrite Halias in Hid.
  destruct (config (Req_Storage req)) as [[c|] [e|]]; try discriminate.
  destruct (getOrErr "role" _) as [rn [e|]]; [discriminate|].
  destruct (getRole _ _) as [[r|] [e|]]; try discriminate.
  destruct (getOrErr "instance_id" _) as [i [e|]]; [discriminate|].
  destruct (getOrErr "ip_address" _) as [ip [e|]]; [discriminate|].
  destruct (getOrErr "org_id" _) as [o [e|]]; [discriminate|].
  destruct (getOrErr "space_id" _) as [sp [e|]]; [discriminate|].
  destruct (getOrErr "app_id" _) as [ap [e|]]; [discriminate|].
  specialize (Hid i o sp ap ip eq_refl). cbn [andThen fst snd].
  destruct (NewPCFCertificate i o sp ap ip).1 as [cert|]; [|contradiction].
  pose proof (validate_no_panic c r cert (RemoteAddr conn) (Hcli c)) as Hnp.
  destruct (validate c r (Some cert) (RemoteAddr conn)).2 as [[e|]|];
    [discriminate | discriminate | contradiction].
Qed.

(** X20.  What a successful login puts into the [Auth]: the display name is
    the instance ID and the alias name the app ID of the decoded identity;
    the internal data holds the role, the instance ID and the IP address and
    nothing else, the alias metadata the org, app and space IDs and nothing
    else, so that neither the signature nor the certificate text is kept;
    the TTL, maximal TTL and period are those of the role. *)
Theorem login_auth_content (now : Time) (req : Request) (data : gmap string string)
    (a : Auth) (err : option error) :
  login now req data = Returned (Some (AuthResponse a)) err ->
  exists role config' conn cert alias,
    identityEstablished now req data role config' conn cert
    /\ DisplayName a = InstanceID cert
    /\ Auth_Alias a = Some alias
    /\ Alias_Name alias = AppID cert
    /\ dom (InternalData a) = ({["role"; "instance_id"; "ip_address"]} : gset string)
    /\ dom (Alias_Metadata alias) = ({["org_id"; "app_id"; "space_id"]} : gset string)
    /\ TTL a = TokenTTL role /\ MaxTTL a = TokenMaxTTL role /\ Period a = TokenPeriod role.
Proof.
  intros H.
  assert (Hi : issuesAuth (login now req data) = true) by (rewrite H; reflexivity).
  apply login_auth_inv in Hi as (role & config' & conn & cert & Hid & Hv).
  unfold login in H. rewrite (login_after_identity _ _ _ _ _ _ _ Hid) in H.
  cbn [snd] in H. rewrite Hv in H. cbn [reply] in H. injection H as <- <-.
  exists role, config', conn, cert. eexists.
  split; [exact Hid|].
  cbn [PopulateTokenAuth loginAuth DisplayName Auth_Alias InternalData TTL MaxTTL Period].
  split; [reflexivity | split; [reflexivity|]].
  cbn [Alias_Name Alias_Metadata].
  repeat split; reflexivity.
Qed.

Lemma strings_Split_head (r : string) :
  exists a rest,
    strings_Split r "/" = a :: rest /\ hasSlash a = false
    /\ (r = a \/ exists tail, r = a +:+ String "/" tail).
Proof.
  induction r as [|c r IH]; simpl.
  - exists EmptyString, []. repeat split. left. reflexivity.
  - destruct (Ascii.eqb_spec c "/") as [->|Hne].
    + exists EmptyString, (strings_Split r "/"). repeat split. right. exists r. reflexivity.
    + destruct IH as (a & rest & -> & Ha & Hr). exists (String c a), rest.
      repeat split.
      * simpl. rewrite Ha. apply Ascii.eqb_neq in Hne. rewrite Hne. reflexivity.
      * destruct Hr as [->|[tail ->]]; [left; reflexivity | right].
        exists tail. reflexivity.
Qed.

(** X21.  [matchesIPAddress] reads the request address up to its first
    slash and nothing after it: every request address is a slash-free text,
    alone or followed by a slash and a rest, and the result is the
    comparison of that text, parsed, with the address of the certificate,
    whatever the rest is. *)
Theorem matchesIPAddress_reads_up_to_slash (remoteAddr : string) :
  exists a,
    hasSlash a = false
    /\ (remoteAddr = a \/ exists tail, remoteAddr = a +:+ String "/" tail)
    /\ (forall certIP, matchesIPAddress remoteAddr certIP = IP_Equal certIP (ParseIP a))
    /\ (forall tail certIP,
          matchesIPAddress (a +:+ String "/" tail) certIP = matchesIPAddress a certIP).
Proof.
  destruct (strings_Split_head remoteAddr) as (a & rest & Hs & Ha & Hr).
  exists a. split; [exact Ha | split; [exact Hr | split]].
  - intros certIP. rewrite matchesIPAddress_spec. unfold callerAddress. rewrite Hs.
    reflexivity.
  - intros tail certIP. rewrite !matchesIPAddress_spec, (callerAddress_strip _ _ Ha).
    unfold callerAddress. rewrite (strings_Split_plain _ Ha). reflexivity.
Qed.

End Extras.

(** ** The further properties at work on the test doubles *)

Section ExtraScenarios.

Import Testbed Faulty.

#[local] Existing Instance platform.

Ltac settle :=
  repeat match goal with
  | |- _ /\ _ => split
  | |- cidrRulePasses _ _ => left; reflexivity
  | |- _ <> _ => vm_compute; discriminate
  | |- _ = _ => vm_compute; reflexivity
  end.

Lemma login_required_fields_witness :
  login receipt liveRequest (delete "cf_instance_cert" (delete "signing_time" goodPayload))
  = Returned (Some (ErrorResponse "'cf_instance_cert' is required")) None.
Proof.
  apply (login_required_fields receipt liveRequest
           (delete "cf_instance_cert" (delete "signing_time" goodPayload))) with openRole.
  - unfold arrivesAtFields, roleResolved. settle.
  - vm_compute. discriminate.
  - vm_compute. reflexivity.
Defined.

Lemma login_unparsable_signing_time_witness :
  login receipt (requestFrom (Some "10.0.0.1/32") None)
    (<["signing_time" := "yesterday"]> goodPayload)
  = Returned (Some (ErrorResponse "couldn't parse yesterday")) None.
Proof.
  refine (login_unparsable_signing_time receipt (requestFrom (Some "10.0.0.1/32") None)
            (<["signing_time" := "yesterday"]> goodPayload) openRole _ _ _).
  - unfold arrivesAtParse, arrivesAtFields, roleResolved. settle.
  - vm_compute. discriminate.
  - vm_compute. discriminate.
Defined.

Lemma role_lookup_failures_witness :
  @login sealedPlatform receipt sealedRequest goodPayload
  = Returned None (Some "storage is sealed")
  /\ @renew sealedPlatform sealedRequest = Returned None (Some "storage is sealed")
  /\ login receipt liveRequest (<["role" := "nobody"]> goodPayload)
     = Returned None (Some "no matching role").
Proof.
  destruct (@role_lookup_failures sealedPlatform) as [Hl Hr].
  destruct (@role_lookup_failures platform) as [Hl' _].
  split; [|split].
  - apply (Hl receipt sealedRequest goodPayload) with (r := None).
    + vm_compute. discriminate.
    + reflexivity.
  - apply (Hr sealedRequest (configAt "api.live") (storedAuth "10.0.0.1") "web")
      with (r := None); vm_compute; reflexivity.
  - apply (Hl' receipt liveRequest (<["role" := "nobody"]> goodPayload)).
    + vm_compute. discriminate.
    + vm_compute. reflexivity.
Defined.

Lemma config_lookup_failures_witness :
  login receipt (requestFrom (Some "10.0.0.1/32") None) goodPayload
  = Returned None (Some "no CA is configured for verifying client certificates")
  /\ renew (@Build_Request platform (storeWith None) None None)
     = Returned None (Some "no configuration is available for reaching the PCF API").
Proof.
  destruct (@config_lookup_failures platform) as [Hl Hr]. split.
  - apply (Hl receipt (requestFrom (Some "10.0.0.1/32") None) goodPayload openRole
             (1000 * Second)).
    + unfold arrivesAtParse, arrivesAtFields, roleResolved. settle.
    + vm_compute. reflexivity.
    + vm_compute. reflexivity.
  - apply (Hr (@Build_Request platform (storeWith None) None None)). reflexivity.
Defined.

Lemma login_outside_bound_cidrs_witness :
  login receipt liveRequest (payload "fenced" "CERT-A" "1000" "key-a")
  = Returned None (Some ErrPermissionDenied).
Proof.
  apply (login_outside_bound_cidrs receipt liveRequest _ fencedRole
           {| RemoteAddr := "10.0.0.1/32" |}).
  - unfold roleResolved. settle.
  - discriminate.
  - reflexivity.
  - vm_compute. reflexivity.
Defined.

Lemma certificate_handling_failures_witness :
  login receipt liveRequest (<["cf_instance_cert" := "CERT-X"]> goodPayload)
  = Returned (Some (ErrorResponse "no certificates found")) None.
Proof.
  apply (certificate_handling_failures receipt liveRequest
           (<["cf_instance_cert" := "CERT-X"]> goodPayload) openRole (configAt "api.live"))
    with (signingTime := 1000 * Second) (intermediateCert := None) (identityCert := None).
  - unfold arrivesAtWindow. settle.
  - vm_compute. reflexivity.
  - vm_compute. reflexivity.
Defined.

Lemma strict_policy_refuses_identityB : ~ policyPasses strictRole identityB "10.0.0.1".
Proof.
  intros [_ [[H|H] _]]; [discriminate H|]. simpl in H. destruct H as [H|[]]. discriminate H.
Defined.

Lemma validate_policy_before_inventory_witness :
  validate (configAt "api.live") strictRole (Some identityB) "10.0.0.1"
  = validate (configAt "api.down") strictRole (Some identityB) "10.0.0.1".
Proof.
  apply (validate_policy_before_inventory (configAt "api.live") (configAt "api.down")
           strictRole identityB "10.0.0.1").
  exact strict_policy_refuses_identityB.
Defined.

Lemma validate_ignores_instance_id_witness :
  validate (configAt "api.live") openRole (Some (withInstanceID identityA "i-9")) "10.0.0.1"
  = validate (configAt "api.live") openRole (Some identityA) "10.0.0.1".
Proof.
  apply (validate_ignores_instance_id (configAt "api.live") openRole identityA
           "10.0.0.1" "i-9"); left; reflexivity.
Defined.

Lemma open_policy_admits (cert : PCFCertificate) :
  IPAddress cert = parseIP "10.0.0.1" -> policyPasses openRole cert "10.0.0.1/32".
Proof.
  intros Hip. split.
  - right. rewrite Hip. vm_compute. reflexivity.
  - repeat split; left; reflexivity.
Defined.

Lemma inventory_errors_returned_witness :
  (validate (configAt "api.down") openRole (Some identityA) "10.0.0.1/32").2
  = Verdict (Some "connection refused").
Proof.
  destruct (inventory_errors_returned (configAt "api.down") openRole identityA
              "10.0.0.1/32" (open_policy_admits identityA eq_refl)) as [_ H].
  destruct (H (inventory 1 (Some "connection refused")) eq_refl) as [Happ _].
  apply (Happ {| App_Guid := "app-1"; App_SpaceGuid := "space-1"; App_Instances := 1 |}).
  reflexivity.
Defined.

Lemma inventory_mismatch_messages_witness :
  (validate (configAt "api.live") openRole (Some identityElsewhere) "10.0.0.1/32").2
  = Verdict (Some "cert space ID space-2 doesn't match API's expected one of space-1").
Proof.
  destruct (inventory_mismatch_messages (configAt "api.live") openRole identityElsewhere
              "10.0.0.1/32" (inventory 1 None)
              {| App_Guid := "app-1"; App_SpaceGuid := "space-1"; App_Instances := 1 |}
              (open_policy_admits identityElsewhere eq_refl) eq_refl eq_refl)
    as (_ & H & _).
  apply H; [reflexivity | discriminate].
Defined.

Lemma renewal_keeps_identity_witness :
  exists auth roleName role,
    Req_Auth (renewalRequest "10.0.0.1") = Some auth
    /\ InternalData auth !! "role" = Some (IfcString roleName)
    /\ getRole (Req_Storage (renewalRequest "10.0.0.1")) roleName = (Some role, None)
    /\ InternalData (renewedAuth openRole (storedAuth "10.0.0.1")) = InternalData auth
    /\ DisplayName (renewedAuth openRole (storedAuth "10.0.0.1")) = DisplayName auth
    /\ Auth_Alias (renewedAuth openRole (storedAuth "10.0.0.1")) = Auth_Alias auth
    /\ TTL (renewedAuth openRole (storedAuth "10.0.0.1")) = TokenTTL role
    /\ MaxTTL (renewedAuth openRole (storedAuth "10.0.0.1")) = TokenMaxTTL role
    /\ Period (renewedAuth openRole (storedAuth "10.0.0.1")) = TokenPeriod role.
Proof.
  refine (proj2 (renewal_keeps_identity (renewalRequest "10.0.0.1")
                   (renewedAuth openRole (storedAuth "10.0.0.1")) None _)).
  vm_compute. reflexivity.
Defined.

Lemma identityA_is_well_formed : wellFormedIdentity identityA.
Proof. unfold wellFormedIdentity. settle. Defined.

Lemma liveRequest_identity :
  identityEstablished receipt liveRequest goodPayload openRole
    (configAt "api.live") {| RemoteAddr := "10.0.0.1/32" |} identityA.
Proof.
  exists (1000 * Second), None, (Some certA), (Some certA).
  unfold arrivesAtVerification, arrivesAtWindow. settle.
Defined.

(** The session of the good login, renewed while the app still has an
    instance, and renewed once it has lost the last one. *)
Lemma renewal_after_login_witness :
  @renew (withInventory stillLive) (laterRenewal stillLive liveRequest goodAuth)
  = Returned (Some (AuthResponse goodAuth)) None
  /\ @renew (withInventory nowIdle) (laterRenewal nowIdle liveRequest goodAuth)
     = Returned (Some (ErrorResponse "app doesn't have any live instances")) None.
Proof.
  split.
  - refine (proj1 (renewal_after_login receipt liveRequest goodPayload openRole
                     (configAt "api.live") {| RemoteAddr := "10.0.0.1/32" |} identityA
                     goodAuth stillLive liveRequest_identity _ identityA_is_well_formed) _).
    + vm_compute. reflexivity.
    + exists (inventory 1 None),
        {| App_Guid := "app-1"; App_SpaceGuid := "space-1"; App_Instances := 1 |},
        {| Org_Guid := "org-1" |},
        {| Space_Guid := "space-1"; Space_OrganizationGuid := "org-1" |}.
      repeat split; reflexivity.
  - refine (proj2 (proj2 (renewal_after_login receipt liveRequest goodPayload openRole
                     (configAt "api.live") {| RemoteAddr := "10.0.0.1/32" |} identityA
                     goodAuth nowIdle liveRequest_identity _ identityA_is_well_formed))
              "app doesn't have any live instances" _).
    + vm_compute. reflexivity.
    + refine (@NoLiveInstance (withInventory nowIdle) (configAt "api.live") identityA
                (inventory 0 None)
                {| App_Guid := "app-1"; App_SpaceGuid := "space-1"; App_Instances := 0 |}
                _ _ _ _ _); try reflexivity; discriminate.
Defined.

Lemma testbed_decoder_convention : decoderKeepsConvention.
Proof. intros [c|]; discriminate. Defined.

Lemma testbed_client_convention : clientKeepsConvention.
Proof.
  intros c. unfold NewPCFClient. cbn. unfold newClient.
  repeat match goal with |- context [if ?b then _ else _] => destruct b end;
    discriminate.
Defined.

Lemma login_panics_iff_witness :
  login receipt (requestFrom None (Some (configAt "api.live"))) goodPayload = Panicked.
Proof.
  apply (login_panics_iff receipt (requestFrom None (Some (configAt "api.live")))
           goodPayload testbed_decoder_convention testbed_client_convention).
  split; [reflexivity|].
  exists openRole, (configAt "api.live"), (Some identityA), None, (Some certA), (Some certA).
  split; [exists (1000 * Second)|]; unfold arrivesAtVerification, arrivesAtWindow; settle.
Defined.

Lemma renewal_does_not_panic_witness : renew (renewalRequest "10.0.0.1") <> Panicked.
Proof.
  apply (renewal_does_not_panic (renewalRequest "10.0.0.1") (storedAuth "10.0.0.1")
           {| Alias_Name := "app-1";
              Alias_Metadata :=
                <["org_id" := "org-1"]> (<["app_id" := "app-1"]>
                (<["space_id" := "space-1"]> ∅)) |}
           {| RemoteAddr := "10.0.0.1/32" |} testbed_client_convention);
    try reflexivity.
  intros i o sp ap ip H. vm_compute in H. injection H as <- <- <- <- <-.
  vm_compute. discriminate.
Defined.

Lemma login_auth_content_witness :
  exists role config' conn cert alias,
    identityEstablished receipt liveRequest goodPayload role config' conn cert
    /\ DisplayName goodAuth = InstanceID cert
    /\ Auth_Alias goodAuth = Some alias
    /\ Alias_Name alias = AppID cert
    /\ dom (InternalData goodAuth) = ({["role"; "instance_id"; "ip_address"]} : gset string)
    /\ dom (Alias_Metadata alias) = ({["org_id"; "app_id"; "space_id"]} : gset string)
    /\ TTL goodAuth = TokenTTL role /\ MaxTTL goodAuth = TokenMaxTTL role
    /\ Period goodAuth = TokenPeriod role.
Proof.
  apply (login_auth_content receipt liveRequest goodPayload goodAuth None).
  vm_compute. reflexivity.
Defined.

End ExtraScenarios.
